(** * compliance-operator: result aggregation, metadata merge, CEL scanner
      exit code, API resource collector and tailoring compiler

    A shallow embedding of the Go sources:
    - [pkg/utils/parse_arf_result.go]  (module [Arf])
    - [pkg/utils/rule_metadata.go]     (module [RuleMetadata])
    - the refactored CEL scanner command (module [CelScanner])
    - the API resource collector (module [Fetcher])
    - the XCCDF tailoring compiler (module [Xccdf])

    followed by the notions the statements use ([SpecWords]), sample inputs
    ([Samples]) and the theorems, one module of facts per source module.

    Go strings are byte sequences: they are modelled by [string], whose
    characters are the 256 values of [ascii].  A Go [(value, error)] result
    is a sum: [inl value] when the error is nil, [inr err] otherwise.  Calls
    into other packages (the API clients, gojq, encoding/json, yaml, the
    Ignition parser, the Unicode tables) are parameters of the sections
    that use them. *)

From Stdlib Require Import Ascii String List Bool Arith ZArith Lia DecimalString.
From stdpp Require Import base option list strings gmap fin_maps.

Set Warnings "-register-all".

Open Scope string_scope.
Open Scope list_scope.

(** ** The [strings] and [fmt] functions the sources call *)

Module GoStrings.

(** [strings.HasPrefix(s, prefix)] *)
Definition HasPrefix (s pre : string) : bool := String.prefix pre s.

Fixpoint drop (n : nat) (s : string) : string :=
  match n, s with
  | O, _ => s
  | S _, EmptyString => EmptyString
  | S k, String _ s' => drop k s'
  end.

(** [strings.TrimPrefix(s, prefix)]: [s[len(prefix):]] when [s] starts
    with [prefix], [s] itself otherwise. *)
Definition TrimPrefix (s pre : string) : string :=
  if HasPrefix s pre then drop (String.length pre) s else s.

(** [strings.HasSuffix(s, suffix)]:
    [len(s) >= len(suffix) && s[len(s)-len(suffix):] == suffix] *)
Definition HasSuffix (s suf : string) : bool :=
  (String.length suf <=? String.length s)%nat
  && String.eqb (drop (String.length s - String.length suf) s) suf.

(** [strings.ReplaceAll(s, old, new)] for a non-empty [old]: the
    non-overlapping occurrences of [old] are replaced from the left.
    [skip] counts the bytes of a matched occurrence still to be passed. *)
Fixpoint replaceFrom (old new s : string) (skip : nat) : string :=
  match s with
  | EmptyString => EmptyString
  | String c s' =>
      match skip with
      | S k => replaceFrom old new s' k
      | O =>
          if String.prefix old s
          then new +:+ replaceFrom old new s' (String.length old - 1)
          else String c (replaceFrom old new s' 0)
      end
  end.

Definition ReplaceAll (s old new : string) : string := replaceFrom old new s 0.

Definition byte (c : ascii) : nat := nat_of_ascii c.

(** [c < utf8.RuneSelf] *)
Definition isASCIIbyte (c : ascii) : bool := (byte c <? 128)%nat.

(** ['A' <= c && c <= 'Z'] *)
Definition isUpperByte (c : ascii) : bool :=
  (65 <=? byte c)%nat && (byte c <=? 90)%nat.

(** [c += 'a' - 'A'] on an upper-case byte *)
Definition lowerByte (c : ascii) : ascii :=
  if isUpperByte c then ascii_of_nat (byte c + 32) else c.

Fixpoint mapBytes (f : ascii -> ascii) (s : string) : string :=
  match s with
  | EmptyString => EmptyString
  | String c s' => String (f c) (mapBytes f s')
  end.

Fixpoint allBytes (p : ascii -> bool) (s : string) : bool :=
  match s with
  | EmptyString => true
  | String c s' => p c && allBytes p s'
  end.

Fixpoint anyByte (p : ascii -> bool) (s : string) : bool :=
  match s with
  | EmptyString => false
  | String c s' => p c || anyByte p s'
  end.

Section ToLower.
(** [strings.Map(unicode.ToLower, s)], the path [strings.ToLower] takes
    on a string with a byte outside ASCII; the Unicode case tables are
    the Go runtime's and stay a parameter. *)
Variable unicodeToLower : string -> string.

(** [strings.ToLower]: an ASCII string without an upper-case letter is
    returned as it is, an ASCII string is lowered byte by byte. *)
Definition ToLower (s : string) : string :=
  if allBytes isASCIIbyte s
  then if anyByte isUpperByte s then mapBytes lowerByte s else s
  else unicodeToLower s.
End ToLower.

(** [fmt.Sprintf("%s-%s", a, b)] *)
Definition Sprintf_s_dash_s (a b : string) : string := a +:+ "-" +:+ b.

End GoStrings.

(** ** pkg/utils/parse_arf_result.go *)

Module Arf.
Import GoStrings.

(** The part of an [xmlquery.Node] the aggregator reads: an element has a
    name, attributes in document order and child nodes; a text node has
    its data. *)
Inductive Node : Type :=
| Element (name : string) (attrs : list (string * string)) (children : list Node)
| Text (data : string).

Fixpoint lookupAttr (attrs : list (string * string)) (name : string) : option string :=
  match attrs with
  | [] => None
  | (k, v) :: rest => if String.eqb k name then Some v else lookupAttr rest name
  end.

(** [n.SelectAttr(name)]: the value of the first attribute with that
    name, and the empty string when there is none. *)
Definition SelectAttr (n : Node) (name : string) : string :=
  match n with
  | Element _ attrs _ => default "" (lookupAttr attrs name)
  | Text _ => ""
  end.

Definition isElementNamed (name : string) (n : Node) : bool :=
  match n with
  | Element nm _ _ => String.eqb nm name
  | Text _ => false
  end.

(** [n.SelectElement(name)] for a child-element name: the first child
    element so named, [None] for Go's nil. *)
Definition SelectElement (n : Node) (name : string) : option Node :=
  match n with
  | Element _ _ children => List.find (isElementNamed name) children
  | Text _ => None
  end.

(** [n.InnerText()]: the text of the node and of its descendants. *)
Fixpoint InnerText (n : Node) : string :=
  match n with
  | Text d => d
  | Element _ _ children =>
      (fix texts (l : list Node) : string :=
         match l with
         | [] => ""
         | c :: l' => InnerText c +:+ texts l'
         end) children
  end.

Inductive ComplianceCheckStatus : Type :=
| CheckResultPass
| CheckResultFail
| CheckResultInfo
| CheckResultManual
| CheckResultError
| CheckResultNotApplicable
| CheckResultInconsistent
| CheckResultNoResult.

Inductive ComplianceCheckResultSeverity : Type :=
| CheckResultSeverityUnknown
| CheckResultSeverityInfo
| CheckResultSeverityLow
| CheckResultSeverityMedium
| CheckResultSeverityHigh.

(** The value of the severity constants, as the object carries them. *)
Definition severityString (s : ComplianceCheckResultSeverity) : string :=
  match s with
  | CheckResultSeverityUnknown => "unknown"
  | CheckResultSeverityInfo => "info"
  | CheckResultSeverityLow => "low"
  | CheckResultSeverityMedium => "medium"
  | CheckResultSeverityHigh => "high"
  end.

#[global] Instance ComplianceCheckStatus_eq_dec : EqDecision ComplianceCheckStatus.
Proof. solve_decision. Defined.

#[global] Instance Severity_eq_dec : EqDecision ComplianceCheckResultSeverity.
Proof. solve_decision. Defined.

(** Go errors of this file carry a message only. *)
Definition error : Type := string.

Definition rulePrefix : string := "xccdf_org.ssgproject.content_rule_".

Definition mapComplianceCheckResultSeverity (result : Node)
  : ComplianceCheckResultSeverity + error :=
  let severityAttr := SelectAttr result "severity" in
  if String.eqb severityAttr "" then inr "result node has no 'severity' attribute"
  else if String.eqb severityAttr "unknown" then inl CheckResultSeverityUnknown
  else if String.eqb severityAttr "info" then inl CheckResultSeverityInfo
  else if String.eqb severityAttr "low" then inl CheckResultSeverityLow
  else if String.eqb severityAttr "medium" then inl CheckResultSeverityMedium
  else if String.eqb severityAttr "high" then inl CheckResultSeverityHigh
  else inl CheckResultSeverityUnknown.

Definition mapComplianceCheckResultStatus (result : Node)
  : ComplianceCheckStatus + error :=
  match SelectElement result "result" with
  | None => inr "result node has no 'result' attribute"
  | Some resultEl =>
      let t := InnerText resultEl in
      if String.eqb t "pass" || String.eqb t "fixed" then inl CheckResultPass
      else if String.eqb t "fail" then inl CheckResultFail
      else if String.eqb t "error" || String.eqb t "unknown" then inl CheckResultError
      else if String.eqb t "notchecked" then inl CheckResultManual
      else if String.eqb t "informational" then inl CheckResultInfo
      else if String.eqb t "notapplicable" then inl CheckResultNotApplicable
      else if String.eqb t "notselected" then inl CheckResultNoResult
      else inr ("couldn't match " +:+ t +:+ " to a known state")
  end.

Record ComplianceCheckResult : Type := {
  Name : string;
  Namespace : string;
  ID : string;
  Status : ComplianceCheckStatus;
  Severity : ComplianceCheckResultSeverity;
  Instructions : string;
  Description : string;
  Warnings : list string;
}.

Definition getSafeText (nptr : Node) (elem : string) : string :=
  match SelectElement nptr elem with
  | None => ""
  | Some elemNode => InnerText elemNode
  end.

Definition complianceCheckResultDescription (rule : Node) : string :=
  let title := getSafeText rule "xccdf-1.2:title" in
  let title := if String.eqb title "" then title else title +:+ String "010"%char "" in
  title +:+ getSafeText rule "xccdf-1.2:rationale".

Section Aggregation.
(** [strings.Map(unicode.ToLower, _)] of the Go runtime. *)
Variable unicodeToLower : string -> string.
(** [getWarningsForRule], which renders the rule's warnings as markdown
    (xml2text.go); no claim below reads the warnings. *)
Variable getWarningsForRule : Node -> list string.
(** [getInstructionsForRule rule questionsTable], with the OCIL table
    of the data stream fixed. *)
Variable getInstructionsForRule : Node -> string.
(** [newComplianceRemediation scheme scanName namespace rule]. *)
Variable Remediation : Type.
Variable newComplianceRemediation : string -> string -> Node -> list Remediation.

Definition nameFromId (scanName ruleIdRef : string) : string :=
  let ruleName := TrimPrefix ruleIdRef rulePrefix in
  let dnsFriendlyFixId := ReplaceAll ruleName "_" "-" in
  let dnsFriendlyFixId := ToLower unicodeToLower dnsFriendlyFixId in
  Sprintf_s_dash_s scanName dnsFriendlyFixId.

(** [inl None] is Go's [(nil, nil)]: no object and no error. *)
Definition newComplianceCheckResult (result rule : Node)
           (ruleIdRef instructions scanName namespace : string)
  : option ComplianceCheckResult + error :=
  let name := nameFromId scanName ruleIdRef in
  match mapComplianceCheckResultStatus result with
  | inr err => inr err
  | inl mappedStatus =>
      if decide (mappedStatus = CheckResultNoResult) then inl None
      else
        match mapComplianceCheckResultSeverity rule with
        | inr err => inr err
        | inl mappedSeverity =>
            inl (Some {| Name := name;
                         Namespace := namespace;
                         ID := ruleIdRef;
                         Status := mappedStatus;
                         Severity := mappedSeverity;
                         Instructions := instructions;
                         Description := complianceCheckResultDescription rule;
                         Warnings := getWarningsForRule rule |})
        end
  end.

Record ParseResult : Type := {
  Id : string;
  CheckResult : ComplianceCheckResult;
  Remediations : list Remediation;
}.

(** [newByIdHashTable]: rule definitions indexed by their [id]
    attribute, a later definition replacing an earlier one. *)
Definition newByIdHashTable (nodes : list Node) : gmap string Node :=
  fold_left (fun table ruleDefinition =>
               <[SelectAttr ruleDefinition "id" := ruleDefinition]> table)
            nodes ∅.

(** One turn of the loop of [ParseResultsFromContentAndXccdf]: [None]
    when the turn ends in [continue] or appends nothing. *)
Definition parseRuleResult (scanName namespace : string)
           (ruleTable : gmap string Node) (result : Node) : option ParseResult :=
  let ruleIDRef := SelectAttr result "idref" in
  if String.eqb ruleIDRef "" then None
  else
    match ruleTable !! ruleIDRef with
    | None => None
    | Some resultRule =>
        let instructions := getInstructionsForRule resultRule in
        match newComplianceCheckResult result resultRule ruleIDRef
                                       instructions scanName namespace with
        | inr _ => None
        | inl None => None
        | inl (Some resCheck) =>
            Some {| Id := ruleIDRef;
                    CheckResult := resCheck;
                    Remediations :=
                      newComplianceRemediation scanName namespace resultRule |}
        end
    end.

(** [ParseResultsFromContentAndXccdf] on the [rule-result] elements of
    the parsed report and the [Rule] elements of the data stream. *)
Definition ParseResultsFromContentAndXccdf (scanName namespace : string)
           (rules results : list Node) : list ParseResult :=
  let ruleTable := newByIdHashTable rules in
  omap (parseRuleResult scanName namespace ruleTable) results.

End Aggregation.

End Arf.

(** ** Go maps and errors *)

Module GoMap.

(** A Go [map[string]string]: [None] is the nil map, which reads as the
    empty map and cannot be written. *)
Definition t : Type := option (gmap string string).

Definition entries (m : t) : gmap string string := default ∅ m.

(** [len(m)] *)
Definition len (m : t) : nat := size (entries m).

(** [v, ok := m[k]] *)
Definition get (m : t) (k : string) : option string := entries m !! k.

(** [m[k]] read without [ok]: the zero value when the key is absent. *)
Definition getOrZero (m : t) (k : string) : string := default "" (get m k).

(** The order in which one [for k, v := range m] visits the entries: Go
    leaves it unspecified, so the loops below take an order [range] and
    the theorems hold for every one that enumerates the map. *)
Definition RangeOrder : Type := gmap string string -> list (string * string).

Definition enumerates (range : RangeOrder) : Prop :=
  forall m, range m ≡ₚ map_to_list m.

End GoMap.

Module GoErrors.

(** The Go [error] values the sources build or test.  The two package
    variables of the fetcher are values of their own, since [errors.Is]
    compares them by identity; [Wrapped] is [fmt.Errorf] with [%w]. *)
Inductive error : Type :=
| MoreThanOneObjErr
| NullValErr
| ErrorString (msg : string)
| StatusError (reason : string) (msg : string)
| NoKindMatchError (msg : string)
| NoResourceMatchError (msg : string)
| Wrapped (msg : string) (inner : error).

#[global] Instance error_eq_dec : EqDecision error.
Proof. solve_decision. Defined.

(** [err.Error()] *)
Definition Error (e : error) : string :=
  match e with
  | MoreThanOneObjErr => "more than one object returned from the filter"
  | NullValErr => "no value was returned from the filter"
  | ErrorString msg => msg
  | StatusError _ msg => msg
  | NoKindMatchError msg => msg
  | NoResourceMatchError msg => msg
  | Wrapped msg _ => msg
  end.

(** [fmt.Errorf(prefix + "%w", err)] *)
Definition Errorf_w (pre : string) (err : error) : error :=
  Wrapped (pre +:+ Error err) err.

(** [errors.Is(err, target)] *)
Fixpoint Is (err target : error) : bool :=
  bool_decide (err = target)
  || match err with
     | Wrapped _ inner => Is inner target
     | _ => false
     end.

(** [kerrors.ReasonForError(err)]: the reason of the API status error in
    the chain, [StatusReasonUnknown] (the empty string) without one. *)
Fixpoint ReasonForError (err : error) : string :=
  match err with
  | StatusError reason _ => reason
  | Wrapped _ inner => ReasonForError inner
  | _ => ""
  end.

(** [kerrors.IsNotFound], [kerrors.IsForbidden]: the reason is
    [StatusReasonNotFound], [StatusReasonForbidden].  (apimachinery also
    accepts a status of an unregistered reason by its HTTP code; the
    errors here carry their reason.) *)
Definition IsNotFound (err : error) : bool := String.eqb (ReasonForError err) "NotFound".
Definition IsForbidden (err : error) : bool := String.eqb (ReasonForError err) "Forbidden".

(** [meta.IsNoMatchError]: [errors.Is] against a [NoResourceMatchError]
    and a [NoKindMatchError], so the error itself or an error it wraps
    is of one of the two types. *)
Fixpoint IsNoMatchError (err : error) : bool :=
  match err with
  | NoKindMatchError _ => true
  | NoResourceMatchError _ => true
  | Wrapped _ inner => IsNoMatchError inner
  | _ => false
  end.

End GoErrors.

(** ** pkg/utils/rule_metadata.go *)

Module RuleMetadata.
Import GoStrings.

Definition operatorManagedPrefixes : list string :=
  [ "compliance.openshift.io/";
    "complianceoperator.openshift.io/";
    "complianceascode.io/" ].

Definition IsOperatorManagedKey (key : string) : bool :=
  existsb (HasPrefix key) operatorManagedPrefixes.

(** The annotation that carries the rule's DNS-friendly name
    ([compv1alpha1.RuleIDAnnotationKey]). *)
Definition RuleIDAnnotationKey : string := "compliance.openshift.io/rule".

Record Rule : Type := {
  Labels : GoMap.t;
  Annotations : GoMap.t;
}.

(** customLabels and customAnnotations, each from the rule annotation
    value to the custom entries. *)
Record RuleMetadataCache : Type := {
  customLabels : gmap string GoMap.t;
  customAnnotations : gmap string GoMap.t;
}.

Section Range.
Variable range : GoMap.RangeOrder.

Definition filterCustomKeys (m : GoMap.t) : GoMap.t :=
  if (GoMap.len m =? 0)%nat then None
  else
    let result :=
      fold_left (fun (result : gmap string string) '(k, v) =>
                   if negb (IsOperatorManagedKey k) then <[k := v]> result
                   else result)
                (range (GoMap.entries m)) ∅ in
    if (size result =? 0)%nat then None else Some result.

Definition GetCustomMetadata (labels annotations : GoMap.t) : GoMap.t * GoMap.t :=
  let customLabels := filterCustomKeys labels in
  let customAnnotations := filterCustomKeys annotations in
  (customLabels, customAnnotations).

(** [NewRuleMetadataCache] once [client.List] has returned the Rule
    objects of the namespace. *)
Definition NewRuleMetadataCache (ruleList : list Rule) : RuleMetadataCache :=
  fold_left
    (fun cache rule =>
       let ruleAnnotationVal := GoMap.getOrZero (Annotations rule) RuleIDAnnotationKey in
       if String.eqb ruleAnnotationVal "" then cache
       else
         let '(cl, ca) := GetCustomMetadata (Labels rule) (Annotations rule) in
         if (0 <? GoMap.len cl)%nat || (0 <? GoMap.len ca)%nat
         then {| customLabels := <[ruleAnnotationVal := cl]> (customLabels cache);
                 customAnnotations := <[ruleAnnotationVal := ca]> (customAnnotations cache) |}
         else cache)
    ruleList
    {| customLabels := ∅; customAnnotations := ∅ |}.

(** The receiver is a pointer: [None] is the nil cache. *)
Definition GetCustomMetadataForRule (c : option RuleMetadataCache) (ruleDNSName : string)
  : GoMap.t * GoMap.t :=
  match c with
  | None => (None, None)
  | Some c => (default None (customLabels c !! ruleDNSName),
               default None (customAnnotations c !! ruleDNSName))
  end.

Definition mergeIfNotExists (dst src : GoMap.t) : GoMap.t :=
  if (GoMap.len src =? 0)%nat then dst
  else
    let dst := match dst with None => ∅ | Some d => d end in
    Some (fold_left (fun (dst : gmap string string) '(k, v) =>
                       match dst !! k with
                       | Some _ => dst
                       | None => <[k := v]> dst
                       end)
                    (range (GoMap.entries src)) dst).

Definition MergeCustomMetadata (targetLabels customLabels targetAnnotations
                                customAnnotations : GoMap.t) : GoMap.t * GoMap.t :=
  let targetLabels := mergeIfNotExists targetLabels customLabels in
  let targetAnnotations := mergeIfNotExists targetAnnotations customAnnotations in
  (targetLabels, targetAnnotations).

End Range.

End RuleMetadata.

(** ** The refactored CEL scanner command *)

Module CelScanner.
Import GoStrings GoErrors.

(** [celscanner.CheckResultStatus] *)
Inductive CheckResultStatus : Type :=
| CheckResultPass
| CheckResultFail
| CheckResultError
| CheckResultNotApplicable.

#[global] Instance CheckResultStatus_eq_dec : EqDecision CheckResultStatus.
Proof. solve_decision. Defined.

(** [celscanner.CheckResult], with the fields the command reads. *)
Record CheckResult : Type := {
  ID : string;
  Status : CheckResultStatus;
  Message : string;
  ResultWarnings : list string;
}.

(** [v1alpha1.ComplianceCheckResult] as the command labels it; [Status]
    and [Severity] are string types. *)
Record ComplianceCheckResult : Type := {
  ccrName : string;
  ccrLabels : GoMap.t;
  ccrAnnotations : GoMap.t;
  ccrStatus : string;
  ccrSeverity : string;
}.

Record RuleReferenceSpec : Type := { refName : string; refRationale : string }.

Record VariableValueSpec : Type := {
  valName : string;
  valRationale : string;
  valValue : string;
}.

Record TailoredProfile : Type := {
  tpName : string;
  tpNamespace : string;
  EnableRules : list RuleReferenceSpec;
  DisableRules : list RuleReferenceSpec;
  ManualRules : list RuleReferenceSpec;
  SetValues : list VariableValueSpec;
}.

Record celConfig : Type := {
  Profile : string;
  Tailoring : string;
  NameSpace : string;
  ScanName : string;
  ApiResourcePath : string;
  CheckResultDir : string;
  CCRGeneration : bool;
}.

(** What the process leaves behind: [FATAL] prints and exits with
    status 1; otherwise the command writes the exit_code file and exits
    with status 0. *)
Inductive outcome : Type :=
| Fatal (msg : string)
| Exit0 (exitCodeFilePath : string) (exitCodeFile : string).

(** [fmt.Sprintf("%d", n)] *)
Definition Sprintf_d (n : Z) : string := NilZero.string_of_int (Z.to_int n).

(** The loop of [runPlatformScan] over the results. *)
Definition exitCodeStep (exitCode : Z) (result : CheckResult) : Z :=
  if decide (Status result = CheckResultFail) then 2
  else if decide (Status result = CheckResultError) then (-1)
  else exitCode.

Definition exitCodeOf (results : list CheckResult) : Z :=
  fold_left exitCodeStep results 0%Z.

Section Labels.
(** [v1alpha1.ComplianceScanLabel], [ComplianceCheckResultStatusLabel],
    [ComplianceCheckResultSeverityLabel] and
    [ComplianceCheckResultRuleAnnotation]. *)
Variables ComplianceScanLabel ComplianceCheckResultStatusLabel
          ComplianceCheckResultSeverityLabel
          ComplianceCheckResultRuleAnnotation : string.
Variable range : GoMap.RangeOrder.

Definition copyInto (labels : gmap string string) (src : GoMap.t) : gmap string string :=
  match src with
  | None => labels
  | Some m => fold_left (fun (labels : gmap string string) '(k, v) => <[k := v]> labels)
                        (range m) labels
  end.

Definition getCheckResultLabels (result : ComplianceCheckResult) (scanName : string)
  : gmap string string :=
  let labels : gmap string string := ∅ in
  let labels := <[ComplianceScanLabel := scanName]> labels in
  let labels := <[ComplianceCheckResultStatusLabel := ccrStatus result]> labels in
  let labels := <[ComplianceCheckResultSeverityLabel := ccrSeverity result]> labels in
  copyInto labels (ccrLabels result).

Definition getCheckResultAnnotations (result : ComplianceCheckResult) : gmap string string :=
  let annotations : gmap string string := ∅ in
  let annotations := <[ComplianceCheckResultRuleAnnotation := ccrName result]> annotations in
  copyInto annotations (ccrAnnotations result).
End Labels.

Section Command.
(** The payload of a CustomRule and of a Variable object. *)
Variables CustomRuleSpec VariableSpec : Type.

Record CustomRule : Type := {
  crName : string;
  crNamespace : string;
  crSpec : CustomRuleSpec;
}.

Record Variable_ : Type := {
  varName : string;
  varNamespace : string;
  varSpec : VariableSpec;
  varValue : string;
}.

(** [r.client.Get] by namespace and name: the object stored under the
    key, which carries the key's namespace and name, or an error. *)
Variable getTailoredProfileObject : string -> string -> TailoredProfile + error.
Variable getCustomRuleObject : string -> string -> CustomRuleSpec + error.
Variable getVariableObject : string -> string -> (VariableSpec * string) + error.
(** [r.scanner.Scan], [celscanner.SaveResults],
    [r.generateComplianceCheckResults], [os.WriteFile], [filepath.Join]. *)
Variable Scan : list CustomRule -> list Variable_ -> string -> list CheckResult + error.
Variable SaveResults : string -> list CheckResult -> option error.
Variable generateComplianceCheckResults : list CheckResult -> option error.
Variable WriteFile : string -> string -> option error.
Variable filepathJoin : string -> string -> string.

Definition getTailoredProfile (config : celConfig) (namespace : string)
  : TailoredProfile + error :=
  getTailoredProfileObject namespace (Profile config).

(** [append(EnableRules, append(DisableRules, ManualRules...)...)] *)
Definition selections (tp : TailoredProfile) : list RuleReferenceSpec :=
  EnableRules tp ++ (DisableRules tp ++ ManualRules tp).

Fixpoint selectRules (namespace : string) (todo : list RuleReferenceSpec)
         (selectedRules : list CustomRule) : list CustomRule + error :=
  match todo with
  | [] => inl selectedRules
  | selection :: todo' =>
      if existsb (fun rule => String.eqb (crName rule) (refName selection)) selectedRules
      then inr (ErrorString ("Rule '" +:+ refName selection
                             +:+ "' appears twice in selections"))
      else
        match getCustomRuleObject namespace (refName selection) with
        | inr err => inr (Errorf_w "Fetching rule: " err)
        | inl spec =>
            let rule := {| crName := refName selection;
                           crNamespace := namespace;
                           crSpec := spec |} in
            selectRules namespace todo' (selectedRules ++ [rule])
        end
  end.

Definition getSelectedCustomRules (tp : TailoredProfile) : list CustomRule + error :=
  selectRules (tpNamespace tp) (selections tp) [].

Fixpoint setVariables (namespace : string) (todo : list VariableValueSpec)
         (setVars : list Variable_) : list Variable_ + error :=
  match todo with
  | [] => inl setVars
  | sVar :: todo' =>
      if existsb (fun iVar => String.eqb (varName iVar) (valName sVar)) setVars
      then inr (ErrorString ("Variables '" +:+ valName sVar
                             +:+ "' appears twice in selections"))
      else
        match getVariableObject namespace (valName sVar) with
        | inr err => inr (Errorf_w "Fetching variable: " err)
        | inl (spec, _) =>
            let variable := {| varName := valName sVar;
                               varNamespace := namespace;
                               varSpec := spec;
                               varValue := valValue sVar |} in
            setVariables namespace todo' (setVars ++ [variable])
        end
  end.

Definition getSetVariables (tp : TailoredProfile) : list Variable_ + error :=
  setVariables (tpNamespace tp) (SetValues tp) [].

Definition saveExitCode (config : celConfig) (exitCode : Z) : outcome :=
  let exitCodeFilePath := filepathJoin (CheckResultDir config) "exit_code" in
  match WriteFile exitCodeFilePath (Sprintf_d exitCode) with
  | Some err => Fatal ("FATAL:Failed to write exit code to file: " +:+ Error err)
  | None => Exit0 exitCodeFilePath (Sprintf_d exitCode)
  end.

Definition runPlatformScan (config : celConfig) : outcome :=
  if String.eqb (Profile config) "" then Fatal "FATAL:Profile not provided"
  else if String.eqb (Tailoring config) "" then Fatal "FATAL:No tailored profile provided"
  else
    match getTailoredProfile config (NameSpace config) with
    | inr err => Fatal ("FATAL:Failed to get tailored profile: " +:+ Error err)
    | inl tailoredProfile =>
    match getSelectedCustomRules tailoredProfile with
    | inr err => Fatal ("FATAL:Failed to get selected rules: " +:+ Error err)
    | inl selectedRules =>
    match getSetVariables tailoredProfile with
    | inr err => Fatal ("FATAL:Failed to get set variables: " +:+ Error err)
    | inl setVars =>
    match Scan selectedRules setVars (ApiResourcePath config) with
    | inr err => Fatal ("FATAL:Failed to execute scan: " +:+ Error err)
    | inl results =>
        let exitCode := exitCodeOf results in
        let outputFilePath := filepathJoin (CheckResultDir config) "result.xml" in
        match SaveResults outputFilePath results with
        | Some err => Fatal ("FATAL:Failed to save scan results: " +:+ Error err)
        | None =>
            match (if CCRGeneration config
                   then generateComplianceCheckResults results else None) with
            | Some err =>
                Fatal ("FATAL:Failed to generate ComplianceCheckResult objects: "
                       +:+ Error err)
            | None => saveExitCode config exitCode
            end
        end
    end end end end.

End Command.

End CelScanner.

(** ** The API resource collector *)

Module Fetcher.
Import GoStrings GoErrors.

(** [utils.ResourcePath] *)
Record ResourcePath : Type := {
  ObjPath : string;
  DumpPath : string;
  Filter : string;
  SuppressWarning : bool;
}.

(** The two implementations of [resourceStreamer]. *)
Inductive resourceStreamer : Type :=
| uriStreamer (uri : string)
| mcStreamer.

Definition machineConfigsURI : string :=
  "/apis/machineconfiguration.openshift.io/v1/machineconfigs".

Definition getStreamerFn (uri : string) : resourceStreamer :=
  if String.eqb uri machineConfigsURI then mcStreamer else uriStreamer uri.

(** [runtimeclient.ListOptions] *)
Record ListOptions : Type := { Limit : Z; Continue : string }.

(** What [iter.Next()] of a gojq run hands out: a value or an error. *)
Inductive jqItem (Value : Type) : Type :=
| JqValue (v : Value)
| JqError (err : error).
Arguments JqValue {Value} v.
Arguments JqError {Value} err.

(** A gojq value as the type switch of [filter] sees it: nil (JSON null),
    a string, or a value of another dynamic type. *)
Inductive jqValue (Other : Type) : Type :=
| VNil
| VString (val : string)
| VOther (v : Other).
Arguments VNil {Other}.
Arguments VString {Other} val.
Arguments VOther {Other} v.

Section Collector.
(** Ignition: the files of the storage section and everything else. *)
Variables IgnFile IgnRest : Type.

Record IgnConfig : Type := { StorageFiles : list IgnFile; ignRest : IgnRest }.

(** [mcfgv1.MachineConfig]: its name, [Spec.Config.Raw] and the rest. *)
Variable McRest : Type.

Record MachineConfig : Type := {
  mcName : string;
  ConfigRaw : string;
  mcRest : McRest;
}.

Record MachineConfigList : Type := {
  TypeMeta : string;
  ListMetaContinue : string;
  ListMetaRest : string;
  Items : list MachineConfig;
}.

(** [mcfgcommon.ParseAndConvertConfig] and [json.Marshal] of the
    Ignition object. *)
Variable ParseAndConvertConfig : string -> IgnConfig + error.
Variable jsonMarshalIgn : IgnConfig -> string + error.

(** [resourceFetcherClients]: the REST client of the clientset, whose
    streaming GET yields what [io.ReadAll] reads from the stream or
    fails; the controller-runtime client listing MachineConfigs; the
    JSON serializer built on the scheme. *)
Record resourceFetcherClients : Type := {
  restGetStream : string -> (string + error) + error;
  clientListMachineConfigs : ListOptions -> MachineConfigList + error;
  schemeEncode : MachineConfigList -> string + error;
}.

Fixpoint filterMcItems (items : list MachineConfig) (out : list MachineConfig)
  : list MachineConfig + error :=
  match items with
  | [] => inl out
  | mc :: items' =>
      if (0 <? String.length (ConfigRaw mc))%nat then
        match ParseAndConvertConfig (ConfigRaw mc) with
        | inr err =>
            inr (Wrapped ("cannot parse MC " +:+ mcName mc +:+ ": " +:+ Error err) err)
        | inl ign =>
            let ign := {| StorageFiles := []; ignRest := ignRest ign |} in
            match jsonMarshalIgn ign with
            | inr err =>
                inr (Errorf_w
                       "failed to marshal Ignition object back to a a raw object: " err)
            | inl rawOutIgn =>
                let mc := {| mcName := mcName mc; ConfigRaw := rawOutIgn;
                             mcRest := mcRest mc |} in
                filterMcItems items' (out ++ [mc])
            end
        end
      else filterMcItems items' (out ++ [mc])
  end.

Definition filterMcList (mcListIn : MachineConfigList) : MachineConfigList + error :=
  match filterMcItems (Items mcListIn) [] with
  | inr err => inr err
  | inl items => inl {| TypeMeta := TypeMeta mcListIn;
                        ListMetaContinue := ListMetaContinue mcListIn;
                        ListMetaRest := ListMetaRest mcListIn;
                        Items := items |}
  end.

Definition pageSize : Z := 5.

(** The [for] loop of [mcStreamer.Stream]; it runs until the server
    hands back an empty continue token, so the model counts the turns
    it may take: [None] when [fuel] turns were not enough. *)
Fixpoint mcStreamLoop (rfClients : resourceFetcherClients) (fuel : nat)
         (continueToken : string) (noFiles : list MachineConfig)
  : option (list MachineConfig + error) :=
  match fuel with
  | O => None
  | S fuel' =>
      let listOpts := {| Limit := pageSize; Continue := "" |} in
      let listOpts := if negb (String.eqb continueToken "")
                      then {| Limit := Limit listOpts; Continue := continueToken |}
                      else listOpts in
      match clientListMachineConfigs rfClients listOpts with
      | inr err => Some (inr (Errorf_w "failed to list MachineConfigs: " err))
      | inl mcfgList =>
          match filterMcList mcfgList with
          | inr err => Some (inr (Errorf_w "failed to filter machine configs: " err))
          | inl batch =>
              let noFiles := noFiles ++ Items batch in
              let continueToken := ListMetaContinue mcfgList in
              if String.eqb continueToken "" then Some (inl noFiles)
              else mcStreamLoop rfClients fuel' continueToken noFiles
          end
      end
  end.

(** [Stream] of either streamer. *)
Definition Stream (s : resourceStreamer) (fuel : nat) (rfClients : resourceFetcherClients)
  : option ((string + error) + error) :=
  match s with
  | uriStreamer uri => Some (restGetStream rfClients uri)
  | mcStreamer =>
      match mcStreamLoop rfClients fuel "" [] with
      | None => None
      | Some (inr err) => Some (inr err)
      | Some (inl items) =>
          let mcfgListNoFiles := {| TypeMeta := ""; ListMetaContinue := "";
                                    ListMetaRest := ""; Items := items |} in
          match schemeEncode rfClients mcfgListNoFiles with
          | inr err => Some (inr (Errorf_w "failed to serialize MC list: " err))
          | inl buf => Some (inl (inl buf))
          end
      end
  end.

(** gojq, encoding/json and yaml.v3 as [filter] uses them. *)
Variables Query JsonObject Other YamlMap : Type.
Variable gojqParse : string -> Query + error.
Variable jsonUnmarshal : string -> JsonObject + error.
Variable gojqRun : Query -> JsonObject -> list (jqItem (jqValue Other)).
Variable yamlUnmarshal : string -> YamlMap + error.
Variable jsonMarshalYaml : YamlMap -> string + error.
Variable jsonMarshal : jqValue Other -> string + error.

(** The type switch of [filter] on the first value. *)
Definition marshalFiltered (v : jqValue Other) : string + error :=
  match v with
  | VString val =>
      match yamlUnmarshal val with
      | inr _ => inl val
      | inl yamlData =>
          match jsonMarshalYaml yamlData with
          | inr err => inr (Errorf_w "error marshalling JSON: " err)
          | inl out => inl out
          end
      end
  | _ =>
      match jsonMarshal v with
      | inr err => inr (Errorf_w "error marshalling JSON: " err)
      | inl out => inl out
      end
  end.

(** [filter]: Go's [(out, err)], a nil slice being the empty string. *)
Definition filter (rawobj flt : string) : string * option error :=
  match gojqParse flt with
  | inr fltrErr =>
      ("", Some (Wrapped ("could not create filter '" +:+ flt +:+ "': "
                          +:+ Error fltrErr) fltrErr))
  | inl fltr =>
      match jsonUnmarshal rawobj with
      | inr unmarshallErr => ("", Some (Errorf_w "Error unmarshalling json: " unmarshallErr))
      | inl obj =>
          match gojqRun fltr obj with
          | [] => ("", Some (ErrorString "couldn't get filtered object"))
          | JqError err :: _ =>
              if HasSuffix (Error err) ": null"
              then ("", Some (Wrapped ("Skipping empty filter result from '" +:+ flt
                                       +:+ "': " +:+ Error NullValErr) NullValErr))
              else ("", Some err)
          | JqValue v :: rest =>
              match marshalFiltered v with
              | inr err => ("", Some err)
              | inl out =>
                  match rest with
                  | [] => (out, None)
                  | _ :: _ =>
                      (out, Some (Wrapped ("Skipping extra results from filter '" +:+ flt
                                           +:+ "': " +:+ Error MoreThanOneObjErr)
                                          MoreThanOneObjErr))
                  end
              end
          end
      end
  end.

(** The state the loop of [fetch] threads through its turns. *)
Record fetchState : Type := {
  results : gmap string string;
  warnings : list string;
}.

Variable streamDispatcher : string -> resourceStreamer.
Variable rfClients : resourceFetcherClients.
(** Turns granted to each run of the MachineConfig loop. *)
Variable fuel : nat.

(** One turn of the loop of [fetch]: the closure's return value with
    the state it leaves; [None] when the stream ran out of fuel. *)
Definition fetchPath (rpath : ResourcePath) (st : fetchState)
  : option (fetchState * option error) :=
  let uri := ObjPath rpath in
  match Stream (streamDispatcher uri) fuel rfClients with
  | None => None
  | Some (inr err) =>
      if IsNoMatchError err || IsForbidden err || IsNotFound err then
        let objerr := Wrapped ("could not fetch " +:+ uri +:+ ": " +:+ Error err) err in
        let warnings' := if negb (SuppressWarning rpath)
                         then warnings st ++ [Error objerr] else warnings st in
        let results' := if IsNotFound err
                        then <[DumpPath rpath := "# kube-api-error=" +:+ ReasonForError err]>
                               (results st)
                        else results st in
        Some ({| results := results'; warnings := warnings' |}, None)
      else Some (st, Some (Errorf_w "streaming URIs failed: " err))
  | Some (inl (inr err)) => Some (st, Some err)
  | Some (inl (inl body)) =>
      if (String.length body =? 0)%nat then Some (st, None)
      else if negb (String.eqb (Filter rpath) "") then
        let '(filteredBody, filterErr) := filter body (Filter rpath) in
        let stored := {| results := <[DumpPath rpath := filteredBody]> (results st);
                         warnings := warnings st |} in
        match filterErr with
        | None => Some (stored, None)
        | Some ferr =>
            if Is ferr MoreThanOneObjErr then
              Some ({| results := results stored;
                       warnings := warnings st ++ [Error ferr] |}, None)
            else if Is ferr NullValErr then
              Some ({| results := results stored;
                       warnings := warnings st ++ ["couldn't filter '" +:+ body +:+ "': "
                                                   +:+ Error ferr] |}, None)
            else Some (st, Some (Wrapped ("couldn't filter '" +:+ body +:+ "': "
                                          +:+ Error ferr) ferr))
        end
      else Some ({| results := <[DumpPath rpath := body]> (results st);
                    warnings := warnings st |}, None)
  end.

(** Go's [(results, warnings, err)]; the map is nil with an error. *)
Record fetchResult : Type := {
  found : option (gmap string string);
  fetchWarnings : list string;
  fetchErr : option error;
}.

Fixpoint fetchLoop (objects : list ResourcePath) (st : fetchState) : option fetchResult :=
  match objects with
  | [] => Some {| found := Some (results st); fetchWarnings := warnings st;
                  fetchErr := None |}
  | rpath :: objects' =>
      match fetchPath rpath st with
      | None => None
      | Some (st', Some err) =>
          Some {| found := None; fetchWarnings := warnings st'; fetchErr := Some err |}
      | Some (st', None) => fetchLoop objects' st'
      end
  end.

Definition fetch (objects : list ResourcePath) : option fetchResult :=
  fetchLoop objects {| results := ∅; warnings := [] |}.

End Collector.

Arguments StorageFiles {IgnFile IgnRest} _.
Arguments ignRest {IgnFile IgnRest} _.
Arguments mcName {McRest} _.
Arguments ConfigRaw {McRest} _.
Arguments mcRest {McRest} _.
Arguments TypeMeta {McRest} _.
Arguments ListMetaContinue {McRest} _.
Arguments ListMetaRest {McRest} _.
Arguments Items {McRest} _.
Arguments restGetStream {McRest} _ _.
Arguments clientListMachineConfigs {McRest} _ _.
Arguments schemeEncode {McRest} _ _.

End Fetcher.

(** ** The XCCDF tailoring compiler *)

Module Xccdf.
Import Arf.

Definition XMLHeader : string :=
  "<?xml version=" +:+ String "034"%char "1.0" +:+ String "034"%char " encoding="
  +:+ String "034"%char "UTF-8" +:+ String "034"%char "?>".
Definition XCCDFNamespace : string := "compliance.openshift.io".
Definition XCCDFURI : string := "http://checklists.nist.gov/xccdf/1.2".

Record BenchmarkElement : Type := { Href : string }.

Record VersionElement : Type := { Time : string; VersionValue : string }.

Record TitleOrDescriptionElement : Type := { Override : bool; TextValue : string }.

Record SelectElement : Type := { SelectIDRef : string; Selected : bool }.

Record SetValueElement : Type := { SetValueIDRef : string; SetValue : string }.

(** [Title] and [Description] are pointers: [None] is nil. *)
Record ProfileElement : Type := {
  ProfileID : string;
  Extends : string;
  Title : option TitleOrDescriptionElement;
  Description : option TitleOrDescriptionElement;
  Selections : list SelectElement;
  Values : list SetValueElement;
}.

Record TailoringElement : Type := {
  XMLNamespaceURI : string;
  TailoringID : string;
  Benchmark : BenchmarkElement;
  Version : VersionElement;
  Profile : ProfileElement;
}.

Record RuleReferenceSpec : Type := { refName : string; refRationale : string }.

Record TailoredProfile : Type := {
  tpName : string;
  SpecTitle : string;
  SpecDescription : string;
  EnableRules : list RuleReferenceSpec;
  DisableRules : list RuleReferenceSpec;
  ManualRules : list RuleReferenceSpec;
}.

Record BaseProfile : Type := { baseID : string }.
Record ProfileBundle : Type := { ContentFile : string }.
Record Rule : Type := { ruleID : string }.
Record Variable_ : Type := { varID : string; varValue : string }.

(** ** [encoding/xml] on these structs, following their field tags; the
    document is kept as the tree the encoder writes, indentation and
    escaping aside. *)

Definition FormatBool (b : bool) : string := if b then "true" else "false".

Definition chardata (s : string) : list Node :=
  if String.eqb s "" then [] else [Text s].

(** An [attr,omitempty] field: no attribute for the empty string. *)
Definition attrOmitEmpty (name value : string) : list (string * string) :=
  if String.eqb value "" then [] else [(name, value)].

Definition marshalBenchmark (b : BenchmarkElement) : Node :=
  Element "xccdf-1.2:benchmark" [("href", Href b)] [].

Definition marshalVersion (v : VersionElement) : Node :=
  Element "xccdf-1.2:version" [("time", Time v)] (chardata (VersionValue v)).

(** A nil pointer field writes nothing. *)
Definition marshalTitleOrDescription (name : string) (e : option TitleOrDescriptionElement)
  : list Node :=
  match e with
  | None => []
  | Some e => [Element name [("override", FormatBool (Override e))] (chardata (TextValue e))]
  end.

Definition marshalSelect (s : SelectElement) : Node :=
  Element "xccdf-1.2:select"
          [("idref", SelectIDRef s); ("selected", FormatBool (Selected s))] [].

Definition marshalSetValue (v : SetValueElement) : Node :=
  Element "xccdf-1.2:set-value" [("idref", SetValueIDRef v)] (chardata (SetValue v)).

Definition marshalProfile (p : ProfileElement) : Node :=
  Element "xccdf-1.2:Profile"
          ([("id", ProfileID p)] ++ attrOmitEmpty "extends" (Extends p))
          (marshalTitleOrDescription "xccdf-1.2:title" (Title p)
           ++ marshalTitleOrDescription "xccdf-1.2:description" (Description p)
           ++ map marshalSelect (Selections p)
           ++ map marshalSetValue (Values p)).

Definition marshalTailoring (t : TailoringElement) : Node :=
  Element "xccdf-1.2:Tailoring"
          [("xmlns:xccdf-1.2", XMLNamespaceURI t); ("id", TailoringID t)]
          [marshalBenchmark (Benchmark t); marshalVersion (Version t);
           marshalProfile (Profile t)].

(** ** The compiler *)

(** [fmt.Sprintf("xccdf_%s_profile_%s", XCCDFNamespace, tp.Name)] *)
Definition GetXCCDFProfileID (tp : TailoredProfile) : string :=
  "xccdf_" +:+ XCCDFNamespace +:+ "_profile_" +:+ tpName tp.

Definition getTailoringID (tp : TailoredProfile) : string :=
  "xccdf_" +:+ XCCDFNamespace +:+ "_tailoring_" +:+ tpName tp.

(** [rule] is a pointer; reading [rule.ID] through nil panics: [None]. *)
Definition getSelectElementFromCRRule (rule : option Rule) (enable : bool)
  : option SelectElement :=
  match rule with
  | None => None
  | Some rule => Some {| SelectIDRef := ruleID rule; Selected := enable |}
  end.

Fixpoint appendSelections (rules : gmap string Rule) (todo : list RuleReferenceSpec)
         (enable : bool) (selections : list SelectElement) : option (list SelectElement) :=
  match todo with
  | [] => Some selections
  | selection :: todo' =>
      let rule := rules !! refName selection in
      match getSelectElementFromCRRule rule enable with
      | None => None
      | Some el => appendSelections rules todo' enable (selections ++ [el])
      end
  end.

Definition getSelections (tp : TailoredProfile) (rules : gmap string Rule)
  : option (list SelectElement) :=
  selections ← appendSelections rules (EnableRules tp) true [];
  selections ← appendSelections rules (DisableRules tp) false selections;
  appendSelections rules (ManualRules tp) true selections.

Definition getValuesFromVariables (variables : list Variable_) : list SetValueElement :=
  fold_left (fun values varObj =>
               values ++ [{| SetValueIDRef := varID varObj; SetValue := varValue varObj |}])
            variables [].

(** The string the function returns, as its header line and the tree
    that follows it. *)
Record Document : Type := { Header : string; Root : Node }.

Section Compiler.
(** [time.Now().Format(time.RFC3339)] and [filepath.Join]. *)
Variable now : string.
Variable filepathJoin : string -> string -> string.

(** [p] and [pb] are pointers; [None] as the result is a nil-pointer
    panic ([pb] nil, or a selected rule missing from [rules]).
    [xml.MarshalIndent] does not fail on these structs. *)
Definition TailoredProfileToXML (tp : TailoredProfile) (p : option BaseProfile)
           (pb : option ProfileBundle) (rules : gmap string Rule)
           (variables : list Variable_) : option Document :=
  pb ← pb;
  selections ← getSelections tp rules;
  let profile := {| ProfileID := GetXCCDFProfileID tp;
                    Extends := "";
                    Title := None;
                    Description := None;
                    Selections := selections;
                    Values := getValuesFromVariables variables |} in
  let tailoring := {| XMLNamespaceURI := XCCDFURI;
                      TailoringID := getTailoringID tp;
                      Version := {| Time := now; VersionValue := "1" |};
                      Benchmark := {| Href := filepathJoin "/content" (ContentFile pb) |};
                      Profile := profile |} in
  let profile := match p with
                 | Some p => {| ProfileID := ProfileID profile;
                                Extends := baseID p;
                                Title := Title profile;
                                Description := Description profile;
                                Selections := Selections profile;
                                Values := Values profile |}
                 | None => profile
                 end in
  let profile := if negb (String.eqb (SpecTitle tp) "")
                 then {| ProfileID := ProfileID profile;
                         Extends := Extends profile;
                         Title := Some {| Override := true; TextValue := SpecTitle tp |};
                         Description := Description profile;
                         Selections := Selections profile;
                         Values := Values profile |}
                 else profile in
  let profile := if negb (String.eqb (SpecDescription tp) "")
                 then {| ProfileID := ProfileID profile;
                         Extends := Extends profile;
                         Title := Title profile;
                         Description := Some {| Override := true;
                                                TextValue := SpecDescription tp |};
                         Selections := Selections profile;
                         Values := Values profile |}
                 else profile in
  let tailoring := {| XMLNamespaceURI := XMLNamespaceURI tailoring;
                      TailoringID := TailoringID tailoring;
                      Version := Version tailoring;
                      Benchmark := Benchmark tailoring;
                      Profile := profile |} in
  Some {| Header := XMLHeader; Root := marshalTailoring tailoring |}.

End Compiler.

End Xccdf.

(** ** More of [strings] *)

Module GoStringsMore.
Import GoStrings.

(** [s[:n]] *)
Fixpoint take (n : nat) (s : string) : string :=
  match n, s with
  | O, _ => EmptyString
  | S _, EmptyString => EmptyString
  | S k, String c s' => String c (take k s')
  end.

(** [strings.TrimSuffix(s, suffix)]: [s[:len(s)-len(suffix)]] when [s]
    ends with [suffix], [s] itself otherwise. *)
Definition TrimSuffix (s suf : string) : string :=
  if HasSuffix s suf then take (String.length s - String.length suf) s else s.

(** [strings.Contains(s, substr)]: [substr] starts at some index of [s]. *)
Fixpoint Contains (s substr : string) {struct s} : bool :=
  match s with
  | EmptyString => String.prefix substr s
  | String _ s' => String.prefix substr s || Contains s' substr
  end.

(** The table [asciiSpace]: tab, line feed, vertical tab, form feed,
    carriage return and space. *)
Definition isAsciiSpace (c : ascii) : bool :=
  let b := byte c in
  (b =? 9)%nat || (b =? 10)%nat || (b =? 11)%nat || (b =? 12)%nat || (b =? 13)%nat
  || (b =? 32)%nat.

Fixpoint revAppend (s acc : string) : string :=
  match s with
  | EmptyString => acc
  | String c s' => revAppend s' (String c acc)
  end.

Definition reverse (s : string) : string := revAppend s EmptyString.

(** One of the two loops of [strings.TrimSpace]: the string from the
    first byte that is no ASCII space, and whether that byte is outside
    ASCII. *)
Fixpoint skipSpaces (s : string) : string * bool :=
  match s with
  | EmptyString => (EmptyString, false)
  | String c s' =>
      if negb (isASCIIbyte c) then (s, true)
      else if isAsciiSpace c then skipSpaces s'
      else (s, false)
  end.

Section TrimSpace.
(** [strings.TrimFunc(_, unicode.IsSpace)] and
    [strings.TrimRightFunc(_, unicode.IsSpace)], which [TrimSpace]
    falls back to when it meets a byte outside ASCII. *)
Variables trimFuncSpace trimRightFuncSpace : string -> string.

(** [strings.TrimSpace]: the second loop runs from the end, here on
    the reversed string. *)
Definition TrimSpace (s : string) : string :=
  let '(fromStart, wide) := skipSpaces s in
  if wide then trimFuncSpace fromStart
  else
    let '(toStop, wide) := skipSpaces (reverse fromStart) in
    if wide then trimRightFuncSpace (reverse toStop) else reverse toStop.
End TrimSpace.

End GoStringsMore.

(** ** [xmlquery] paths that start with [//] *)

Module XmlQuery.
Import Arf.

(** The nodes below a node, in document order.  A path that starts with
    [//] is evaluated with the node it is called on as the root of the
    navigator, and selects among these. *)
Fixpoint descendants (n : Node) : list Node :=
  match n with
  | Text _ => []
  | Element _ _ children =>
      (fix below (l : list Node) : list Node :=
         match l with
         | [] => []
         | c :: l' => c :: descendants c ++ below l'
         end) children
  end.

(** [n.SelectElements("//name")] and [xmlquery.Find(n, "//name")] *)
Definition Find (n : Node) (name : string) : list Node :=
  List.filter (isElementNamed name) (descendants n).

(** [n.SelectElements("name")]: the child elements so named. *)
Definition SelectElements (n : Node) (name : string) : list Node :=
  match n with
  | Element _ _ children => List.filter (isElementNamed name) children
  | Text _ => []
  end.

Definition hasId (id : string) (n : Node) : bool :=
  match n with
  | Element _ attrs _ =>
      match lookupAttr attrs "id" with
      | Some v => String.eqb v id
      | None => false
      end
  | Text _ => false
  end.

(** [n.SelectElement(`//*[@id="<id>"]`)] for an [id] without a double
    quote: the first element below [n] whose [id] attribute is [id]. *)
Definition SelectElementById (n : Node) (id : string) : option Node :=
  List.find (hasId id) (descendants n).

(** The document node [xmlquery.Parse] returns: it has no name and no
    attributes, and the root element is its child. *)
Definition document (root : Node) : Node := Element "" [] [root].

End XmlQuery.

(** ** pkg/utils/parse_arf_result.go: warnings, OCIL questions *)

Module ArfWarnings.
Import GoStrings GoStringsMore Arf XmlQuery.

Definition ocilCheckType : string := "http://scap.nist.gov/schema/ocil/2".
Definition questionnaireSuffix : string := "_ocil:questionnaire:1".
Definition questionSuffix : string := "_question:question:1".
Definition endPointTag : string := "ocp-api-endpoint".

(** [ResourcePath] as this file declares it. *)
Record ResourcePath : Type := {
  ObjPath : string;
  DumpPath : string;
  Filter : string;
}.

Definition doubleQuote : ascii := "034"%char.

Definition hasDoubleQuote (s : string) : bool :=
  anyByte (Ascii.eqb doubleQuote) s.

(** One turn of the loop of [GetPathFromWarningXML].  The two paths by
    id are written with [fmt.Sprintf] around the id; for an id that
    holds a double quote they are other expressions, which the model
    does not follow: [None]. *)
Definition pathOfCodeNode (warning : Node) (apiPaths : list ResourcePath) (codeNode : Node)
  : option (list ResourcePath) :=
  if Contains (SelectAttr codeNode "class") endPointTag then
    let path := InnerText codeNode in
    if (String.length path =? 0)%nat then Some apiPaths
    else
      let pathID := SelectAttr codeNode "id" in
      if negb (String.eqb pathID "") then
        if hasDoubleQuote pathID then None
        else
          let filterNode := SelectElementById warning ("filter-" +:+ pathID) in
          let dumpNode := SelectElementById warning ("dump-" +:+ pathID) in
          match filterNode, dumpNode with
          | Some filterNode, Some dumpNode =>
              Some (apiPaths ++ [{| ObjPath := path;
                                    DumpPath := InnerText dumpNode;
                                    Filter := InnerText filterNode |}])
          | _, _ =>
              Some (apiPaths ++ [{| ObjPath := path; DumpPath := path; Filter := "" |}])
          end
      else Some (apiPaths ++ [{| ObjPath := path; DumpPath := path; Filter := "" |}])
  else Some apiPaths.

Fixpoint pathsOfCodeNodes (warning : Node) (codeNodes : list Node)
         (apiPaths : list ResourcePath) : option (list ResourcePath) :=
  match codeNodes with
  | [] => Some apiPaths
  | codeNode :: codeNodes' =>
      match pathOfCodeNode warning apiPaths codeNode with
      | None => None
      | Some apiPaths => pathsOfCodeNodes warning codeNodes' apiPaths
      end
  end.

Definition GetPathFromWarningXML (warning : Node) : option (list ResourcePath) :=
  pathsOfCodeNodes warning (Find warning "html:code") [].

Definition warningHasApiObjects (warning : Node) : bool :=
  existsb (fun codeNode => String.eqb (SelectAttr codeNode "class") endPointTag)
          (SelectElements warning "html:code").

Section Warnings.
(** [XmlNodeAsMarkdown] of xml2text.go. *)
Variable XmlNodeAsMarkdown : Node -> string.

(** [getWarningsForRule]; a nil slice and an empty one are both [[]]. *)
Definition getWarningsForRule (rule : Node) : list string :=
  fold_left (fun warnings warn =>
               if warningHasApiObjects warn then warnings
               else warnings ++ [XmlNodeAsMarkdown warn])
            (Find rule "xccdf-1.2:warning") [].
End Warnings.

(** The loop of [getRuleOcilQuestionID]: it stops at the first check of
    the OCIL system, whether or not that check has a content reference. *)
Fixpoint firstOcilRef (checks : list Node) : option Node :=
  match checks with
  | [] => None
  | check :: checks' =>
      if String.eqb (SelectAttr check "system") ocilCheckType
      then SelectElement check "xccdf-1.2:check-content-ref"
      else firstOcilRef checks'
  end.

Definition getRuleOcilQuestionID (rule : Node) : string :=
  match firstOcilRef (Find rule "xccdf-1.2:check") with
  | None => ""
  | Some ocilRefEl =>
      let questionnareName := SelectAttr ocilRefEl "name" in
      if negb (HasSuffix questionnareName questionnaireSuffix) then ""
      else TrimSuffix questionnareName questionnaireSuffix +:+ questionSuffix
  end.

End ArfWarnings.

(** ** pkg/utils/parse_arf_result.go: remediations *)

Module ArfRemediation.
Import GoStrings Arf XmlQuery.

Definition machineConfigFixType : string := "urn:xccdf:fix:script:ignition".
Definition kubernetesFixType : string := "urn:xccdf:fix:script:kubernetes".
Definition dependencyAnnotationKey : string := "complianceascode.io/depends-on".
Definition kubeDependencyAnnotationKey : string := "complianceascode.io/depends-on-obj".
Definition remediationTypeAnnotationKey : string := "complianceascode.io/remediation-type".
Definition enforcementTypeAnnotationKey : string := "complianceascode.io/enforcement-type".
Definition optionalAnnotationKey : string := "complianceascode.io/optional".

Definition isRelevantFix (fix_ : Node) : bool :=
  if String.eqb (SelectAttr fix_ "system") machineConfigFixType then true
  else if String.eqb (SelectAttr fix_ "system") kubernetesFixType then true
  else false.

Section Remediations.
(** What an [unstructured.Unstructured] holds besides its annotations. *)
Variable ObjRest : Type.

(** The object of a fix: [GetAnnotations] reads [objAnnotations], nil
    when the object has none, and [SetAnnotations] writes it. *)
Record Unstructured : Type := {
  objAnnotations : GoMap.t;
  objRest : ObjRest;
}.

Definition SetAnnotations (u : Unstructured) (annotations : gmap string string)
  : Unstructured :=
  {| objAnnotations := Some annotations; objRest := objRest u |}.

(** [ReadObjectsFromYAML] on the text of the fix. *)
Variable ReadObjectsFromYAML : string -> list Unstructured + string.

(** The constants of [compv1alpha1] the remediations are built from. *)
Variables RemediationDependencyAnnotation RemediationObjectDependencyAnnotation
          RemediationOptionalAnnotation RemediationEnforcementTypeAnnotation : string.
Variables ConfigurationRemediation EnforcementRemediation : string.
Variable RemediationPending : string.

Record ComplianceRemediation : Type := {
  remName : string;
  remNamespace : string;
  remAnnotations : gmap string string;
  Apply : bool;
  Type_ : string;
  CurrentObject : Unstructured;
  ApplicationState : string;
}.

Definition hasAnnotation (u : Unstructured) (annotation : string) : bool :=
  match objAnnotations u with
  | None => false
  | Some annotations => bool_decide (is_Some (annotations !! annotation))
  end.

Definition hasDependencyAnnotation (u : Unstructured) : bool :=
  hasAnnotation u dependencyAnnotationKey || hasAnnotation u kubeDependencyAnnotationKey.
Definition hasOptionalAnnotation (u : Unstructured) : bool :=
  hasAnnotation u optionalAnnotationKey.
Definition hasTypeAnnotation (u : Unstructured) : bool :=
  hasAnnotation u remediationTypeAnnotationKey.
Definition hasEnforcementTypeAnnotation (u : Unstructured) : bool :=
  hasAnnotation u enforcementTypeAnnotationKey.

(** The handlers write both the object and the annotations of the
    remediation: they return the two. *)
Definition handleDependencyAnnotation (u : Unstructured) (annotations : gmap string string)
  : Unstructured * gmap string string :=
  let inAnns := GoMap.entries (objAnnotations u) in
  let '(inAnns, annotations) :=
    match inAnns !! dependencyAnnotationKey with
    | Some dependencies =>
        (delete dependencyAnnotationKey inAnns,
         <[RemediationDependencyAnnotation := dependencies]> annotations)
    | None => (inAnns, annotations)
    end in
  let '(inAnns, annotations) :=
    match inAnns !! kubeDependencyAnnotationKey with
    | Some objDeps =>
        (delete kubeDependencyAnnotationKey inAnns,
         <[RemediationObjectDependencyAnnotation := objDeps]> annotations)
    | None => (inAnns, annotations)
    end in
  (SetAnnotations u inAnns, annotations).

Definition handleOptionalAnnotation (u : Unstructured) (annotations : gmap string string)
  : Unstructured * gmap string string :=
  let inAnns := GoMap.entries (objAnnotations u) in
  let '(inAnns, annotations) :=
    match inAnns !! optionalAnnotationKey with
    | Some _ =>
        (delete optionalAnnotationKey inAnns,
         <[RemediationOptionalAnnotation := ""]> annotations)
    | None => (inAnns, annotations)
    end in
  (SetAnnotations u inAnns, annotations).

Definition handleRemediationTypeAnnotation (u : Unstructured) : Unstructured * string :=
  let inAnns := GoMap.entries (objAnnotations u) in
  let remType := default "" (inAnns !! remediationTypeAnnotationKey) in
  let inAnns := delete enforcementTypeAnnotationKey inAnns in
  (SetAnnotations u inAnns, remType).

Definition handleEnforcementTypeAnnotation (u : Unstructured)
           (annotations : gmap string string) : Unstructured * gmap string string :=
  let inAnns := GoMap.entries (objAnnotations u) in
  let '(inAnns, annotations) :=
    match inAnns !! enforcementTypeAnnotationKey with
    | Some typeAnn =>
        (delete enforcementTypeAnnotationKey inAnns,
         <[RemediationEnforcementTypeAnnotation := typeAnn]> annotations)
    | None => (inAnns, annotations)
    end in
  (SetAnnotations u inAnns, annotations).

(** The body of the loop of [remediationsFromString] for the object at
    index [idx]. *)
Definition remediationOfObject (name namespace : string) (idx : nat) (obj : Unstructured)
  : ComplianceRemediation :=
  let annotations : gmap string string := ∅ in
  let '(obj, annotations) :=
    if hasDependencyAnnotation obj then handleDependencyAnnotation obj annotations
    else (obj, annotations) in
  let '(obj, annotations) :=
    if hasOptionalAnnotation obj then handleOptionalAnnotation obj annotations
    else (obj, annotations) in
  let remType := ConfigurationRemediation in
  let '(obj, remType) :=
    if hasTypeAnnotation obj then handleRemediationTypeAnnotation obj
    else (obj, remType) in
  let '(obj, annotations) :=
    if String.eqb remType EnforcementRemediation && hasEnforcementTypeAnnotation obj
    then handleEnforcementTypeAnnotation obj annotations
    else (obj, annotations) in
  let remName :=
    if (idx =? 0)%nat then name
    else name +:+ "-" +:+ CelScanner.Sprintf_d (Z.of_nat idx) in
  {| remName := remName;
     remNamespace := namespace;
     remAnnotations := annotations;
     Apply := false;
     Type_ := remType;
     CurrentObject := obj;
     ApplicationState := RemediationPending |}.

(** [remediationsFromString]; nil and the empty slice are both [[]]. *)
Definition remediationsFromString (name namespace fixContent : string)
  : list ComplianceRemediation :=
  match ReadObjectsFromYAML fixContent with
  | inr _ => []
  | inl objs => imap (remediationOfObject name namespace) objs
  end.

Definition remediationFromFixElement (fix_ : Node) (scanName namespace : string)
  : list ComplianceRemediation :=
  let fixId := SelectAttr fix_ "id" in
  if String.eqb fixId "" then []
  else
    let dnsFriendlyFixId := ReplaceAll fixId "_" "-" in
    let remName := Sprintf_s_dash_s scanName dnsFriendlyFixId in
    remediationsFromString remName namespace (InnerText fix_).

Definition newComplianceRemediation (scanName namespace : string) (rule : Node)
  : list ComplianceRemediation :=
  match List.find isRelevantFix (Find rule "xccdf-1.2:fix") with
  | Some fix_ => remediationFromFixElement fix_ scanName namespace
  | None => []
  end.

End Remediations.

Arguments objAnnotations {ObjRest} _.
Arguments objRest {ObjRest} _.
Arguments remName {ObjRest} _.
Arguments remNamespace {ObjRest} _.
Arguments remAnnotations {ObjRest} _.
Arguments Apply {ObjRest} _.
Arguments Type_ {ObjRest} _.
Arguments CurrentObject {ObjRest} _.
Arguments ApplicationState {ObjRest} _.

End ArfRemediation.

(** ** The xccdf package: names from XCCDF ids *)

Module XccdfNames.
Import GoStrings GoStringsMore.

Definition profileIDPrefix : string := "xccdf_org.ssgproject.content_profile_".
Definition nodeProfileSuffix : string := "-node".
Definition ruleIDPrefix : string := "xccdf_org.ssgproject.content_rule_".
Definition varIDPrefix : string := "xccdf_org.ssgproject.content_value_".
Definition platformLevelSuffix : string := "- Platform level".
Definition nodeLevelSuffix : string := "- Node level".

Section Names.
Variable unicodeToLower : string -> string.
Variables trimFuncSpace trimRightFuncSpace : string -> string.

Definition GetCompositeProfileTitle (title : string) : string :=
  let title := TrimSuffix title nodeLevelSuffix in
  let title := TrimSuffix title platformLevelSuffix in
  let title := TrimSpace trimFuncSpace trimRightFuncSpace title in
  title.

Definition GetProfileNameFromID (id : string) : string :=
  let trimedName := TrimPrefix id profileIDPrefix in
  ToLower unicodeToLower (ReplaceAll trimedName "_" "-").

Definition GetCompositeProfileNameFromID (id : string) : string :=
  let profileName := GetProfileNameFromID id in
  let compositeProfileName := TrimPrefix profileName nodeProfileSuffix in
  compositeProfileName.

Definition GetRuleNameFromID (id : string) : string :=
  let trimedName := TrimPrefix id ruleIDPrefix in
  ToLower unicodeToLower (ReplaceAll trimedName "_" "-").

Definition GetVariableNameFromID (id : string) : string :=
  let trimedName := TrimPrefix id varIDPrefix in
  ToLower unicodeToLower (ReplaceAll trimedName "_" "-").
End Names.

End XccdfNames.

(** ** The API resource collector: which resources a profile needs *)

Module Planner.
Import GoStrings Arf XmlQuery Fetcher.

Definition valuePrefix : string := "xccdf_org.ssgproject.content_value_".

(** The loop of [getExtendedProfileFromTailoring]. *)
Fixpoint extendedProfileOf (nodes : list Node) (tailoredProfile : string) : string :=
  match nodes with
  | [] => ""
  | node :: nodes' =>
      let tailoredProfileID := SelectAttr node "id" in
      if negb (String.eqb tailoredProfileID tailoredProfile)
      then extendedProfileOf nodes' tailoredProfile
      else
        let profileID := SelectAttr node "extends" in
        if negb (String.eqb profileID "") then profileID
        else extendedProfileOf nodes' tailoredProfile
  end.

Definition getExtendedProfileFromTailoring (ds : Node) (tailoredProfile : string) : string :=
  extendedProfileOf (Find ds "xccdf-1.2:Profile") tailoredProfile.

Section Paths.
(** [n.OutputXML(false)] and [html.UnescapeString]. *)
Variable OutputXML : Node -> string.
Variable UnescapeString : string -> string.
(** [getPathFromWarningXML]: what [utils.GetPathFromWarningXML] returns
    for the warning and the values, its error being logged only. *)
Variable getPathFromWarningXML : Node -> gmap string string -> list ResourcePath.
Variable range : GoMap.RangeOrder.
(** [os.Getenv("POD_NAMESPACE")] and [os.Getenv("POD_NAME")]. *)
Variables POD_NAMESPACE POD_NAME : string.

(** The default of one [value] element of a [Value]. *)
Definition collectDefault (variable : Node) (valuesList : gmap string string) (val : Node)
  : gmap string string :=
  if String.eqb (SelectAttr val "hidden") "true" then valuesList
  else if String.eqb (SelectAttr val "selector") "" then
    if HasPrefix (SelectAttr variable "id") valuePrefix
    then <[TrimPrefix (SelectAttr variable "id") valuePrefix
           := UnescapeString (OutputXML val)]> valuesList
    else valuesList
  else valuesList.

Definition collectSetValue (valuesList : gmap string string) (variable : Node)
  : gmap string string :=
  if HasPrefix (SelectAttr variable "idref") valuePrefix
  then <[TrimPrefix (SelectAttr variable "idref") valuePrefix
         := UnescapeString (OutputXML variable)]> valuesList
  else valuesList.

(** The body of the loop over the two definitions. *)
Definition collectValues (valuesList : gmap string string) (def : Node)
  : gmap string string :=
  let allValues := Find def "xccdf-1.2:Value" in
  let valuesList :=
    fold_left (fun valuesList variable =>
                 fold_left (collectDefault variable) (Find variable "xccdf-1.2:value")
                           valuesList)
              allValues valuesList in
  let allSetValues := Find def "xccdf-1.2:set-value" in
  fold_left collectSetValue allSetValues valuesList.

Definition overrideValues (valuesList : gmap string string) (overrideValueList : GoMap.t)
  : gmap string string :=
  match overrideValueList with
  | None => valuesList
  | Some overrides =>
      fold_left (fun (valuesList : gmap string string) '(k, v) =>
                   match valuesList !! k with
                   | Some _ => <[k := v]> valuesList
                   | None => valuesList
                   end)
                (range overrides) valuesList
  end.

Definition selectedOfProfile (selectedChecks : list string) (node : Node) : list string :=
  fold_left (fun selectedChecks check =>
               if negb (String.eqb (SelectAttr check "selected") "true")
               then selectedChecks
               else
                 let idRef := SelectAttr check "idref" in
                 if negb (String.eqb idRef "") then selectedChecks ++ [idRef]
                 else selectedChecks)
            (Find node "xccdf-1.2:select") selectedChecks.

Definition selectedChecksOf (profileDefs : Node) (profile : string) : list string :=
  fold_left (fun selectedChecks node =>
               let profileID := SelectAttr node "id" in
               if negb (String.eqb profileID profile) then selectedChecks
               else selectedOfProfile selectedChecks node)
            (Find profileDefs "xccdf-1.2:Profile") [].

(** The loop over the warnings of a rule: the paths of the first
    warning that has some. *)
Fixpoint firstWarningPaths (warningObjs : list Node) (valuesList : gmap string string)
  : option (list ResourcePath) :=
  match warningObjs with
  | [] => None
  | warn :: warningObjs' =>
      let apiPaths := getPathFromWarningXML warn valuesList in
      if (length apiPaths =? 0)%nat then firstWarningPaths warningObjs' valuesList
      else Some apiPaths
  end.

Definition pathsOfCheck (checkDefinitions : list Node) (valuesList : gmap string string)
           (out : list ResourcePath) (checkID : string) : list ResourcePath :=
  match List.find (fun rule => String.eqb (SelectAttr rule "id") checkID)
                  checkDefinitions with
  | None => out
  | Some found =>
      match firstWarningPaths (Find found "xccdf-1.2:warning") valuesList with
      | Some apiPaths => out ++ apiPaths
      | None => out
      end
  end.

Definition getResourcePaths (profileDefs ruleDefs : Node) (profile : string)
           (overrideValueList : GoMap.t) : list ResourcePath * gmap string string :=
  let out : list ResourcePath := [] in
  let valuesList : gmap string string := ∅ in
  let defs := [ruleDefs; profileDefs] in
  let valuesList := fold_left collectValues defs valuesList in
  let valuesList := overrideValues valuesList overrideValueList in
  let selectedChecks := selectedChecksOf profileDefs profile in
  let checkDefinitions := Find ruleDefs "xccdf-1.2:Rule" in
  if (length checkDefinitions =? 0)%nat then (out, valuesList)
  else (fold_left (pathsOfCheck checkDefinitions valuesList) selectedChecks out,
        valuesList).

(** The objects every scan stages. *)
Definition alwaysStaged : list ResourcePath :=
  let same (p : string) :=
    {| ObjPath := p; DumpPath := p; Filter := ""; SuppressWarning := false |} in
  [ same "/version";
    same "/apis/config.openshift.io/v1/clusteroperators/openshift-apiserver";
    same "/apis/config.openshift.io/v1/infrastructures/cluster";
    same "/apis/config.openshift.io/v1/networks/cluster";
    same "/api/v1/nodes";
    {| ObjPath := "/api/v1/namespaces/" +:+ POD_NAMESPACE +:+ "/pods/" +:+ POD_NAME;
       DumpPath := "/api/v1/namespaces/openshift-compliance/pods/api-checks-pod";
       Filter := ""; SuppressWarning := false |} ].

(** [FigureResources] with the data stream loaded and the tailoring
    loaded or nil: the value it leaves in [c.resources]. *)
Definition FigureResources (dataStream : Node) (tailoring : option Node)
           (profile : string) : list ResourcePath :=
  let found := alwaysStaged in
  let effectiveProfile := profile in
  let valuesList : GoMap.t := None in
  let fromDataStream (found : list ResourcePath) (effectiveProfile : string)
                     (valuesList : GoMap.t) :=
    let '(selected, _) :=
      getResourcePaths dataStream dataStream effectiveProfile valuesList in
    found ++ selected in
  match tailoring with
  | Some tailoring =>
      let '(selected, valuesList) := getResourcePaths tailoring dataStream profile None in
      let found := found ++ selected in
      let effectiveProfile := getExtendedProfileFromTailoring tailoring profile in
      if String.eqb effectiveProfile "" then found
      else fromDataStream found effectiveProfile (Some valuesList)
  | None => fromDataStream found effectiveProfile valuesList
  end.

End Paths.

End Planner.

(** ** The xccdf package: manual rules *)

Module XccdfManual.
Import GoStrings Xccdf.

Definition GetManualRules (tp : TailoredProfile) : list string :=
  fold_left (fun ruleList selection => ruleList ++ [refName selection])
            (ManualRules tp) [].

(** [manualRules] may be the nil slice: [None]. *)
Definition IsManualRule (ruleName : string) (manualRules : option (list string)) : bool :=
  match manualRules with
  | None => false
  | Some manualRules =>
      existsb (fun manualRule => HasSuffix manualRule ruleName) manualRules
  end.

End XccdfManual.

(** ** The CEL scanner's resource fetcher: which resources a rule needs *)

Module CelFetcher.
Import Fetcher.

(** [v1alpha1.KubeResource], the input of a rule. *)
Record KubeResource : Type := {
  krName : string;
  APIGroup : string;
  Version : string;
  Resource : string;
  krNamespace : string;
}.

(** A [v1alpha1.Variable] with what its [GroupVersionKind()] returns. *)
Record Variable_ : Type := {
  varName : string;
  varNamespace : string;
  varValue : string;
  gvkGroup : string;
  gvkVersion : string;
  gvkKind : string;
}.

(** What [figureResources] returns beside the nil error. *)
Record Figured : Type := {
  found : list ResourcePath;
  foundMap : gmap string string;
  variableResultMap : gmap string string;
}.

Section Figure.
(** [DeriveResourcePath(gvr, namespace)] on the group, version and
    resource of [gvr]. *)
Variable DeriveResourcePath : string -> string -> string -> string -> string.

(** The loop over the variables for one input. *)
Definition variablesOfInput (input : KubeResource) (variables : list Variable_)
           (variableResultMap : gmap string string) : gmap string string :=
  fold_left (fun (variableResultMap : gmap string string) variable =>
               if String.eqb (APIGroup input) (gvkGroup variable)
                  && String.eqb (Version input) (gvkVersion variable)
               then
                 if String.eqb (Resource input)
                               (gvkKind variable +:+ "/" +:+ varName variable)
                    && String.eqb (krNamespace input) (varNamespace variable)
                 then <[krName input := varValue variable]> variableResultMap
                 else variableResultMap
               else variableResultMap)
            variables variableResultMap.

Definition figureResources (inputs : list KubeResource) (variables : list Variable_)
  : Figured :=
  fold_left (fun st input =>
               let variableResultMap :=
                 variablesOfInput input variables (variableResultMap st) in
               let objPath := DeriveResourcePath (APIGroup input) (Version input)
                                                 (Resource input) (krNamespace input) in
               {| found := found st ++ [{| ObjPath := objPath; DumpPath := objPath;
                                           Filter := ""; SuppressWarning := false |}];
                  foundMap := <[objPath := krName input]> (foundMap st);
                  variableResultMap := variableResultMap |})
            inputs
            {| found := []; foundMap := ∅; variableResultMap := ∅ |}.
End Figure.

End CelFetcher.

(** ** [path.Base], and where the collector saves what it fetched *)

Module Saver.
Import GoStrings GoStringsMore.

Definition isSlash (c : ascii) : bool := Ascii.eqb c "/"%char.

(** [for len(path) > 0 && path[len(path)-1] == '/'] strips the slashes
    at the end of the path: here those at the start of the reversed
    path. *)
Fixpoint dropSlashes (reversed : string) : string :=
  match reversed with
  | EmptyString => EmptyString
  | String c reversed' => if isSlash c then dropSlashes reversed' else reversed
  end.

(** [path[i+1:]] for the last index [i] of a slash, and the whole path
    when it has none: the bytes of the reversed path before its first
    slash. *)
Fixpoint untilSlash (reversed : string) : string :=
  match reversed with
  | EmptyString => EmptyString
  | String c reversed' => if isSlash c then EmptyString else String c (untilSlash reversed')
  end.

(** [path.Base] *)
Definition Base (path : string) : string :=
  if String.eqb path "" then "."
  else
    let path := reverse (untilSlash (dropSlashes (reverse path))) in
    if String.eqb path "" then "/" else path.

Section Save.
(** [path.Dir] and [path.Join]. *)
Variable pathDir : string -> string.
Variable pathJoin : string -> string -> string.

Definition getSaveDirectoryAndFileName (rootDir apiPath : string)
  : (string * string) + string :=
  let base := Base apiPath in
  if String.eqb base "." || String.eqb base "/"
  then inr ("bad object path: " +:+ apiPath)
  else
    let subDirs := pathDir apiPath in
    if String.eqb subDirs "." then inr ("bad object path: " +:+ apiPath)
    else inl (pathJoin rootDir subDirs, base).
End Save.

End Saver.

(** * The claims' own notions, and sample inputs *)

Module SpecWords.
Import GoStrings.

(** *** XML nodes *)

(** The attribute an element carries under a name, if any. *)
Definition attrOf (n : Arf.Node) (name : string) : option string :=
  match n with
  | Arf.Element _ attrs _ => Arf.lookupAttr attrs name
  | Arf.Text _ => None
  end.

(** *** The object name, in the words of the specification *)

Fixpoint stripPrefix (pre s : string) : option string :=
  match pre, s with
  | EmptyString, _ => Some s
  | String _ _, EmptyString => None
  | String a pre', String b s' => if Ascii.eqb a b then stripPrefix pre' s' else None
  end.

(** "the prefix xccdf_org.ssgproject.content_rule_ stripped" *)
Definition withoutRulePrefix (R : string) : string :=
  default R (stripPrefix "xccdf_org.ssgproject.content_rule_" R).

Definition dashForUnderscore (c : ascii) : ascii :=
  if Ascii.eqb c "_"%char then "-"%char else c.

(** "every underscore replaced by a dash" *)
Definition underscoresToDashes (s : string) : string := mapBytes dashForUnderscore s.

(** "dns(R)": strip, replace, lower-case. *)
Definition dns (unicodeToLower : string -> string) (R : string) : string :=
  ToLower unicodeToLower (underscoresToDashes (withoutRulePrefix R)).

(** *** Operator keys win *)


(** *** Results of a CEL scan *)

Definition isFail (r : CelScanner.CheckResult) : Prop :=
  CelScanner.Status r = CelScanner.CheckResultFail.
Definition isError (r : CelScanner.CheckResult) : Prop :=
  CelScanner.Status r = CelScanner.CheckResultError.
Definition isPass (r : CelScanner.CheckResult) : Prop :=
  CelScanner.Status r = CelScanner.CheckResultPass.

(** *** Streaming errors the collector passes over *)

Definition nonFatal (err : GoErrors.error) : bool :=
  GoErrors.IsNoMatchError err || GoErrors.IsForbidden err || GoErrors.IsNotFound err.

(** *** What a turn of the collector leaves behind *)

Section Collector.
Variables IgnFile IgnRest McRest : Type.
Variable ParseAndConvertConfig : string -> Fetcher.IgnConfig IgnFile IgnRest + GoErrors.error.
Variable jsonMarshalIgn : Fetcher.IgnConfig IgnFile IgnRest -> string + GoErrors.error.
Variables Query JsonObject Other YamlMap : Type.
Variable gojqParse : string -> Query + GoErrors.error.
Variable jsonUnmarshal : string -> JsonObject + GoErrors.error.
Variable gojqRun : Query -> JsonObject -> list (Fetcher.jqItem (Fetcher.jqValue Other)).
Variable yamlUnmarshal : string -> YamlMap + GoErrors.error.
Variable jsonMarshalYaml : YamlMap -> string + GoErrors.error.
Variable jsonMarshal : Fetcher.jqValue Other -> string + GoErrors.error.
Variable streamDispatcher : string -> Fetcher.resourceStreamer.
Variable rfClients : Fetcher.resourceFetcherClients McRest.
Variable fuel : nat.

Abbreviation fetchOf :=
  (Fetcher.fetch IgnFile IgnRest McRest ParseAndConvertConfig jsonMarshalIgn
                 Query JsonObject Other YamlMap gojqParse jsonUnmarshal gojqRun
                 yamlUnmarshal jsonMarshalYaml jsonMarshal streamDispatcher rfClients fuel).
Abbreviation fetchLoopOf :=
  (Fetcher.fetchLoop IgnFile IgnRest McRest ParseAndConvertConfig jsonMarshalIgn
                     Query JsonObject Other YamlMap gojqParse jsonUnmarshal gojqRun
                     yamlUnmarshal jsonMarshalYaml jsonMarshal streamDispatcher rfClients
                     fuel).

(** After the paths [before], the path [rpath] does not make the fetch
    fail and leaves the map [m'] and the warnings [w']: these, and no
    error, are what [fetch] returns for the plan that ends with
    [rpath]; the rest of a longer plan is fetched from there; whatever
    the fetch of a longer plan returns holds the warnings [w'] and,
    under every key that is no dump path of a later path, what [m']
    holds; and the fetch of a longer plan returns an error exactly
    when the fetch of that plan without [rpath] does, and then the
    same one. *)
Definition goesOnWith (before : list Fetcher.ResourcePath) (rpath : Fetcher.ResourcePath)
           (m' : gmap string string) (w' : list string) : Prop :=
  fetchOf (before ++ [rpath])
  = Some {| Fetcher.found := Some m'; Fetcher.fetchWarnings := w';
            Fetcher.fetchErr := None |}
  /\ (forall after,
         fetchOf (before ++ rpath :: after)
         = fetchLoopOf after {| Fetcher.results := m'; Fetcher.warnings := w' |})
  /\ (forall after r,
         fetchOf (before ++ rpath :: after) = Some r ->
         w' `prefix_of` Fetcher.fetchWarnings r
         /\ forall found', Fetcher.found r = Some found' ->
                           forall k, k ∉ map Fetcher.DumpPath after ->
                                     found' !! k = m' !! k)
  /\ (forall after r,
         fetchOf (before ++ after) = Some r ->
         exists r', fetchOf (before ++ rpath :: after) = Some r'
                    /\ Fetcher.fetchErr r' = Fetcher.fetchErr r).
End Collector.

(** *** Pages of MachineConfigs *)

Section Pages.
Variables IgnFile IgnRest McRest : Type.
Variable ParseAndConvertConfig : string -> Fetcher.IgnConfig IgnFile IgnRest + GoErrors.error.
Variable jsonMarshalIgn : Fetcher.IgnConfig IgnFile IgnRest -> string + GoErrors.error.

(** [mc'] is [mc] with the files of its Ignition payload removed: a
    MachineConfig without a payload is left as it is; otherwise the
    payload is the parsed one, re-serialized without storage files. *)
Definition strippedOf (mc mc' : Fetcher.MachineConfig McRest) : Prop :=
  Fetcher.mcName mc' = Fetcher.mcName mc
  /\ Fetcher.mcRest mc' = Fetcher.mcRest mc
  /\ if (0 <? String.length (Fetcher.ConfigRaw mc))%nat
     then exists ign,
         ParseAndConvertConfig (Fetcher.ConfigRaw mc) = inl ign
         /\ jsonMarshalIgn {| Fetcher.StorageFiles := [];
                              Fetcher.ignRest := Fetcher.ignRest ign |}
            = inl (Fetcher.ConfigRaw mc')
     else Fetcher.ConfigRaw mc' = Fetcher.ConfigRaw mc.

(** The server hands out [pages], one per list call of limit 5, the
    first for the continue token [token], each next one for the token
    of the page before it, and only the last with an empty token. *)
Fixpoint servedFrom (rfClients : Fetcher.resourceFetcherClients McRest) (token : string)
         (pages : list (Fetcher.MachineConfigList McRest)) : Prop :=
  match pages with
  | [] => False
  | page :: rest =>
      Fetcher.clientListMachineConfigs rfClients
        {| Fetcher.Limit := 5; Fetcher.Continue := token |} = inl page
      /\ match rest with
         | [] => Fetcher.ListMetaContinue page = ""
         | _ :: _ => Fetcher.ListMetaContinue page <> ""
                     /\ servedFrom rfClients (Fetcher.ListMetaContinue page) rest
         end
  end.

Definition itemsOf (pages : list (Fetcher.MachineConfigList McRest))
  : list (Fetcher.MachineConfig McRest) :=
  concat (map Fetcher.Items pages).

(** The list the streamer serializes. *)
Definition listOf (items : list (Fetcher.MachineConfig McRest))
  : Fetcher.MachineConfigList McRest :=
  {| Fetcher.TypeMeta := ""; Fetcher.ListMetaContinue := "";
     Fetcher.ListMetaRest := ""; Fetcher.Items := items |}.
End Pages.

(** *** Duplicates in a selection list *)

(** The first name of [todo] that occurs in [seen] or earlier in [todo]. *)
Fixpoint firstRepeatedFrom (seen todo : list string) : option string :=
  match todo with
  | [] => None
  | n :: todo' =>
      if existsb (fun s => String.eqb s n) seen then Some n
      else firstRepeatedFrom (seen ++ [n]) todo'
  end.

Definition firstRepeated (names : list string) : option string :=
  firstRepeatedFrom [] names.

Fixpoint suffixes (s : string) : list string :=
  s :: match s with
       | EmptyString => []
       | String _ s' => suffixes s'
       end.

(** A message mentions a name when the name occurs in it. *)
Definition mentions (msg name : string) : bool :=
  existsb (String.prefix name) (suffixes msg).

(** *** The tailoring document *)

Definition selectNode (selected : bool) (idref : string) : Arf.Node :=
  Arf.Element "xccdf-1.2:select"
              [("idref", idref); ("selected", if selected then "true" else "false")] [].

Definition textOf (s : string) : list Arf.Node :=
  if String.eqb s "" then [] else [Arf.Text s].

Definition setValueNode (v : Xccdf.Variable_) : Arf.Node :=
  Arf.Element "xccdf-1.2:set-value" [("idref", Xccdf.varID v)] (textOf (Xccdf.varValue v)).

(** The title or description child, written when the text is not empty. *)
Definition overrideNode (name text : string) : list Arf.Node :=
  if String.eqb text "" then []
  else [Arf.Element name [("override", "true")] [Arf.Text text]].

(** [ids] are the XCCDF ids of the rules the selections name, in order. *)
Definition resolves (rules : gmap string Xccdf.Rule)
           (sels : list Xccdf.RuleReferenceSpec) (ids : list string) : Prop :=
  Forall2 (fun sel id => exists r, rules !! Xccdf.refName sel = Some r /\ Xccdf.ruleID r = id)
          sels ids.

(** The [Profile] child of a tailoring root. *)
Definition profileOf (root : Arf.Node) : option Arf.Node :=
  Arf.SelectElement root "xccdf-1.2:Profile".

End SpecWords.

Module Samples.
Import Arf.

Definition passResult : Node :=
  Element "rule-result" [("idref", "xccdf_org.ssgproject.content_rule_a")]
          [Element "result" [] [Text "fixed"]].

Definition notSelectedResult : Node :=
  Element "rule-result" [("idref", "xccdf_org.ssgproject.content_rule_a")]
          [Element "result" [] [Text "notselected"]].

(** A rule whose severity attribute is present and empty. *)
Definition ruleWithEmptySeverity : Node := Element "xccdf-1.2:Rule" [("severity", "")] [].

Definition exampleTargetLabels : GoMap.t :=
  Some (<["compliance.openshift.io/scan-name" := "my-scan"]>
          (<["compliance.openshift.io/check-status" := "FAIL"]> ∅)).

Definition exampleRuleLabels : GoMap.t :=
  Some (<["compliance.openshift.io/check-status" := "PASS"]>
          (<["weakness_score" := "9.5"]> ∅)).

(** *** CEL scanner *)

Definition failed : CelScanner.CheckResult :=
  {| CelScanner.ID := "rule-a"; CelScanner.Status := CelScanner.CheckResultFail;
     CelScanner.Message := ""; CelScanner.ResultWarnings := [] |}.

Definition errored : CelScanner.CheckResult :=
  {| CelScanner.ID := "rule-b"; CelScanner.Status := CelScanner.CheckResultError;
     CelScanner.Message := ""; CelScanner.ResultWarnings := [] |}.

Definition passed : CelScanner.CheckResult :=
  {| CelScanner.ID := "rule-c"; CelScanner.Status := CelScanner.CheckResultPass;
     CelScanner.Message := ""; CelScanner.ResultWarnings := [] |}.

(** A check result that already carries a label under the status key. *)
Definition resultWithStatusLabel : CelScanner.ComplianceCheckResult :=
  {| CelScanner.ccrName := "scan-rule-a";
     CelScanner.ccrLabels := Some {[ "compliance.openshift.io/check-status" := "PASS" ]};
     CelScanner.ccrAnnotations := None;
     CelScanner.ccrStatus := "FAIL";
     CelScanner.ccrSeverity := "high" |}.

Definition ref (name : string) : CelScanner.RuleReferenceSpec :=
  {| CelScanner.refName := name; CelScanner.refRationale := "" |}.

(** A tailored profile that selects a rule the cluster does not have and
    then selects another rule twice. *)
Definition tpMissingThenDuplicate : CelScanner.TailoredProfile :=
  {| CelScanner.tpName := "tp"; CelScanner.tpNamespace := "openshift-compliance";
     CelScanner.EnableRules := [ref "missing-rule"; ref "dup-rule"];
     CelScanner.DisableRules := [ref "dup-rule"];
     CelScanner.ManualRules := [];
     CelScanner.SetValues := [] |}.

(** A tailored profile that selects a rule twice, in a cluster that has
    every rule. *)
Definition tpDuplicate : CelScanner.TailoredProfile :=
  {| CelScanner.tpName := "tp"; CelScanner.tpNamespace := "openshift-compliance";
     CelScanner.EnableRules := [ref "rule-a"; ref "dup-rule"];
     CelScanner.DisableRules := [];
     CelScanner.ManualRules := [ref "dup-rule"];
     CelScanner.SetValues :=
       [ {| CelScanner.valName := "v"; CelScanner.valRationale := "";
            CelScanner.valValue := "1" |};
         {| CelScanner.valName := "v"; CelScanner.valRationale := "";
            CelScanner.valValue := "2" |} ] |}.

(** A cluster without the CustomRule [missing-rule]. *)
Definition clusterWithoutMissingRule (namespace name : string) : unit + GoErrors.error :=
  if String.eqb name "missing-rule"
  then inr (GoErrors.StatusError "NotFound"
              "customrules.compliance.openshift.io missing-rule not found")
  else inl tt.

Definition scanConfig : CelScanner.celConfig :=
  {| CelScanner.Profile := "tp"; CelScanner.Tailoring := "tailoring.xml";
     CelScanner.NameSpace := "openshift-compliance"; CelScanner.ScanName := "scan";
     CelScanner.ApiResourcePath := "/kubernetes-api-resources";
     CelScanner.CheckResultDir := "/reports"; CelScanner.CCRGeneration := true |}.

(** A tailored profile that selects two different rules. *)
Definition tpTwoRules : CelScanner.TailoredProfile :=
  {| CelScanner.tpName := "tp"; CelScanner.tpNamespace := "openshift-compliance";
     CelScanner.EnableRules := [ref "rule-a"; ref "rule-c"];
     CelScanner.DisableRules := [];
     CelScanner.ManualRules := [];
     CelScanner.SetValues := [] |}.

Definition joinWithSlash (dir file : string) : string := dir +:+ "/" +:+ file.

Definition clusterWithEverything {A : Type} (a : A) (namespace name : string)
  : A + GoErrors.error := inl a.

(** *** Collector *)

Definition oauthPath : Fetcher.ResourcePath :=
  {| Fetcher.ObjPath := "/apis/config.openshift.io/v1/oauths/cluster";
     Fetcher.DumpPath := "/apis/config.openshift.io/v1/oauths/cluster";
     Fetcher.Filter := "";
     Fetcher.SuppressWarning := false |}.

Definition notFound : GoErrors.error :=
  GoErrors.StatusError "NotFound" "the server could not find the requested resource".

(** An API server without the OAuth object and without MachineConfigs. *)
Definition clientsWithoutOAuth : Fetcher.resourceFetcherClients unit :=
  {| Fetcher.restGetStream uri :=
       if String.eqb uri "/apis/config.openshift.io/v1/oauths/cluster"
       then inr notFound else inl (inl "{}");
     Fetcher.clientListMachineConfigs _ :=
       inl {| Fetcher.TypeMeta := "MachineConfigList"; Fetcher.ListMetaContinue := "";
              Fetcher.ListMetaRest := ""; Fetcher.Items := [] |};
     Fetcher.schemeEncode _ := inl "{}" |}.

Definition machineConfigsPath : Fetcher.ResourcePath :=
  {| Fetcher.ObjPath := "/apis/machineconfiguration.openshift.io/v1/machineconfigs";
     Fetcher.DumpPath := "/apis/machineconfiguration.openshift.io/v1/machineconfigs";
     Fetcher.Filter := "";
     Fetcher.SuppressWarning := false |}.

(** What listing a kind the server does not serve fails with. *)
Definition noMachineConfigKind : GoErrors.error :=
  GoErrors.NoKindMatchError
    ("no matches for kind MachineConfig "
     +:+ "in version machineconfiguration.openshift.io/v1").

(** An API server without the OAuth object that does not serve the
    MachineConfig kind. *)
Definition clientsWithoutMachineConfigs : Fetcher.resourceFetcherClients unit :=
  {| Fetcher.restGetStream uri :=
       if String.eqb uri "/apis/config.openshift.io/v1/oauths/cluster"
       then inr notFound else inl (inl "{}");
     Fetcher.clientListMachineConfigs _ := inr noMachineConfigKind;
     Fetcher.schemeEncode _ := inl "{}" |}.

Definition configMapPath : Fetcher.ResourcePath :=
  {| Fetcher.ObjPath := "/api/v1/namespaces/openshift-config/configmaps/settings";
     Fetcher.DumpPath := "/api/v1/namespaces/openshift-config/configmaps/settings";
     Fetcher.Filter := ".data";
     Fetcher.SuppressWarning := false |}.

(** [json.Marshal] of a jq value whose dynamic type is not modelled further:
    JSON null for nil. *)
Definition marshalSample (v : Fetcher.jqValue string) : string + GoErrors.error :=
  match v with
  | Fetcher.VNil => inl "null"
  | Fetcher.VString val => inl val
  | Fetcher.VOther json => inl json
  end.


(** A run that yields two objects. *)
Definition runYieldsTwo (q obj : unit) : list (Fetcher.jqItem (Fetcher.jqValue string)) :=
  [Fetcher.JqValue (Fetcher.VOther "{}"); Fetcher.JqValue (Fetcher.VOther "[]")].


Definition noYaml (s : string) : unit + GoErrors.error :=
  inr (GoErrors.ErrorString "yaml: unmarshal errors").

(** Ignition payloads of the samples: the raw bytes name the files after
    a bar, as in [etc|/etc/motd,/etc/hosts]. *)
Fixpoint beforeBar (raw : string) : string :=
  match raw with
  | EmptyString => EmptyString
  | String c raw' => if Ascii.eqb c "|"%char then EmptyString else String c (beforeBar raw')
  end.

Definition parseSample (raw : string) : Fetcher.IgnConfig string string + GoErrors.error :=
  inl {| Fetcher.StorageFiles := [GoStrings.drop (String.length (beforeBar raw)) raw];
         Fetcher.ignRest := beforeBar raw |}.

Definition marshalIgnSample (ign : Fetcher.IgnConfig string string)
  : string + GoErrors.error :=
  inl (fold_left String.append (Fetcher.StorageFiles ign) (Fetcher.ignRest ign)).

Definition mc (name raw : string) : Fetcher.MachineConfig unit :=
  {| Fetcher.mcName := name; Fetcher.ConfigRaw := raw; Fetcher.mcRest := tt |}.

Definition firstPage : Fetcher.MachineConfigList unit :=
  {| Fetcher.TypeMeta := "MachineConfigList";
     Fetcher.ListMetaContinue := "page-2"; Fetcher.ListMetaRest := "";
     Fetcher.Items := [mc "00-master" "a|/etc/motd"; mc "01-empty" ""] |}.

Definition lastPage : Fetcher.MachineConfigList unit :=
  {| Fetcher.TypeMeta := "MachineConfigList";
     Fetcher.ListMetaContinue := ""; Fetcher.ListMetaRest := "";
     Fetcher.Items := [mc "99-worker" "b|/etc/hosts"] |}.

(** A server with three MachineConfigs, handed out in two pages. *)
Definition clientsTwoPages : Fetcher.resourceFetcherClients unit :=
  {| Fetcher.restGetStream _ := inl (inl "{}");
     Fetcher.clientListMachineConfigs opts :=
       if String.eqb (Fetcher.Continue opts) "" then inl firstPage else inl lastPage;
     Fetcher.schemeEncode l :=
       inl (fold_left (fun out m => out +:+ Fetcher.mcName m +:+ "=" +:+ Fetcher.ConfigRaw m
                                    +:+ ";")
                      (Fetcher.Items l) "") |}.

(** *** Tailoring *)

Definition tpSample : Xccdf.TailoredProfile :=
  {| Xccdf.tpName := "my-tp"; Xccdf.SpecTitle := "My profile";
     Xccdf.SpecDescription := "";
     Xccdf.EnableRules := [ {| Xccdf.refName := "ocp4-rule-a"; Xccdf.refRationale := "" |} ];
     Xccdf.DisableRules := [ {| Xccdf.refName := "ocp4-rule-b"; Xccdf.refRationale := "" |} ];
     Xccdf.ManualRules := [] |}.

Definition rulesSample : gmap string Xccdf.Rule :=
  <["ocp4-rule-a" := {| Xccdf.ruleID := "xccdf_org.ssgproject.content_rule_a" |}]>
    (<["ocp4-rule-b" := {| Xccdf.ruleID := "xccdf_org.ssgproject.content_rule_b" |}]> ∅).

Definition variablesSample : list Xccdf.Variable_ :=
  [ {| Xccdf.varID := "xccdf_org.ssgproject.content_value_v"; Xccdf.varValue := "42" |} ].

Definition bundleSample : Xccdf.ProfileBundle := {| Xccdf.ContentFile := "ssg-ocp4-ds.xml" |}.

Definition baseSample : Xccdf.BaseProfile :=
  {| Xccdf.baseID := "xccdf_org.ssgproject.content_profile_cis" |}.

(** A base profile whose id is the empty string. *)
Definition baseWithoutID : Xccdf.BaseProfile := {| Xccdf.baseID := "" |}.

End Samples.

(** * Further notions and sample inputs *)

Module CacheWords.
Import GoStrings RuleMetadata.

(** The map has an entry whose key is not operator-managed. *)
Definition hasCustomKey (m : GoMap.t) : bool :=
  existsb (fun kv : string * string => negb (IsOperatorManagedKey kv.1))
          (map_to_list (GoMap.entries m)).

(** The Rule is annotated with the name and carries a custom label or a
    custom annotation. *)
Definition indexedAs (name : string) (rule : Rule) : bool :=
  negb (String.eqb name "")
  && String.eqb (GoMap.getOrZero (Annotations rule) RuleIDAnnotationKey) name
  && (hasCustomKey (Labels rule) || hasCustomKey (Annotations rule)).

(** The last Rule of the list indexed under the name. *)
Definition lastIndexedAs (name : string) (ruleList : list Rule) : option Rule :=
  last (List.filter (indexedAs name) ruleList).

Definition onlyOperatorKeys (m : GoMap.t) : Prop :=
  forall k, GoMap.get m k <> None -> IsOperatorManagedKey k = true.

End CacheWords.

Module CacheSamples.
Import RuleMetadata.

Definition operatorOnlyTarget : GoMap.t :=
  Some (<["compliance.openshift.io/scan-name" := "my-scan"]>
        (<["compliance.openshift.io/check-status" := "FAIL"]> ∅)).

Definition ruleLabelsWithCustom : GoMap.t :=
  Some (<["weakness_score" := "9.5"]>
        (<["compliance.openshift.io/check-status" := "PASS"]> ∅)).

(** A Rule annotated with its name that carries a custom label. *)
Definition annotatedRule (score : string) : Rule :=
  {| Labels := Some (<["weakness_score" := score]> ∅);
     Annotations := Some (<["compliance.openshift.io/rule" := "ocp4-api-server-audit"]> ∅) |}.

End CacheSamples.

Module ScanWords.
Import CelScanner.

(** The result failed or could not be evaluated. *)
Definition decisive (r : CheckResult) : bool :=
  bool_decide (Status r = CheckResultFail) || bool_decide (Status r = CheckResultError).

Definition lastDecisive (results : list CheckResult) : option CheckResult :=
  last (List.filter decisive results).

Section Cluster.
Variables CustomRuleSpec VariableSpec : Type.
Variable getCustomRuleObject : string -> string -> CustomRuleSpec + GoErrors.error.
Variable getVariableObject : string -> string -> (VariableSpec * string) + GoErrors.error.

(** The rule is the CustomRule of the namespace that the selection
    names. *)
Definition fetchedRule (namespace : string) (selection : RuleReferenceSpec)
           (rule : CustomRule CustomRuleSpec) : Prop :=
  crName _ rule = refName selection
  /\ crNamespace _ rule = namespace
  /\ getCustomRuleObject namespace (refName selection) = inl (crSpec _ rule).

(** The variable is the Variable of the namespace that the setting
    names, with the value of the setting in place of its own. *)
Definition fetchedVariable (namespace : string) (sVar : VariableValueSpec)
           (variable : Variable_ VariableSpec) : Prop :=
  varName _ variable = valName sVar
  /\ varNamespace _ variable = namespace
  /\ varValue _ variable = valValue sVar
  /\ exists own, getVariableObject namespace (valName sVar)
                 = inl (varSpec _ variable, own).
End Cluster.

End ScanWords.

Module FetchWords.
Import GoStrings GoErrors Fetcher.

Section Collector.
Variables IgnFile IgnRest McRest : Type.
Variable ParseAndConvertConfig : string -> IgnConfig IgnFile IgnRest + error.
Variable jsonMarshalIgn : IgnConfig IgnFile IgnRest -> string + error.
Variables Query JsonObject Other YamlMap : Type.
Variable gojqParse : string -> Query + error.
Variable jsonUnmarshal : string -> JsonObject + error.
Variable gojqRun : Query -> JsonObject -> list (jqItem (jqValue Other)).
Variable yamlUnmarshal : string -> YamlMap + error.
Variable jsonMarshalYaml : YamlMap -> string + error.
Variable jsonMarshal : jqValue Other -> string + error.
Variable streamDispatcher : string -> resourceStreamer.
Variable rfClients : resourceFetcherClients McRest.
Variable fuel : nat.

(** What streaming the object of the path gives. *)
Definition streamed (rpath : ResourcePath) : option ((string + error) + error) :=
  Stream IgnFile IgnRest McRest ParseAndConvertConfig jsonMarshalIgn
         (streamDispatcher (ObjPath rpath)) fuel rfClients.

Definition filtered (rpath : ResourcePath) (body : string) : string * option error :=
  filter Query JsonObject Other YamlMap gojqParse jsonUnmarshal gojqRun
         yamlUnmarshal jsonMarshalYaml jsonMarshal body (Filter rpath).

(** The content is what the path leaves under its dump path: the
    placeholder of a missing object, the body of the object, or the
    body as the filter of the path rewrites it. *)
Definition contentOf (rpath : ResourcePath) (content : string) : Prop :=
  (exists err, streamed rpath = Some (inr err) /\ IsNotFound err = true
               /\ content = "# kube-api-error=" +:+ ReasonForError err)
  \/ (exists body, streamed rpath = Some (inl (inl body)) /\ body <> ""
                   /\ content = if String.eqb (Filter rpath) "" then body
                                else (filtered rpath body).1).

(** The warning is one the path gives rise to: the object could not
    be fetched and the path does not suppress warnings, or the filter
    of the path gave no value or more than one. *)
Definition warningOf (rpath : ResourcePath) (warning : string) : Prop :=
  (SuppressWarning rpath = false
   /\ exists err, streamed rpath = Some (inr err)
                  /\ (IsNoMatchError err || IsForbidden err || IsNotFound err) = true
                  /\ warning = "could not fetch " +:+ ObjPath rpath +:+ ": "
                               +:+ Error err)
  \/ (Filter rpath <> ""
      /\ exists body ferr,
          streamed rpath = Some (inl (inl body))
          /\ (filtered rpath body).2 = Some ferr
          /\ ((Is ferr MoreThanOneObjErr = true /\ warning = Error ferr)
              \/ (Is ferr NullValErr = true
                  /\ warning = "couldn't filter '" +:+ body +:+ "': " +:+ Error ferr))).
End Collector.

End FetchWords.

Module NameWords.
Import GoStrings.

(** The name is made of ASCII bytes and has neither an upper-case
    letter nor an underscore. *)
Definition dnsFriendly (s : string) : bool :=
  allBytes isASCIIbyte s
  && negb (anyByte isUpperByte s)
  && negb (anyByte (Ascii.eqb "_"%char) s).

End NameWords.

Module WarningWords.
Import GoStrings GoStringsMore Arf XmlQuery ArfWarnings.

(** The code element names an API endpoint and has text. *)
Definition endpointWithText (codeNode : Node) : bool :=
  Contains (SelectAttr codeNode "class") endPointTag
  && negb (String.eqb (InnerText codeNode) "").

(** The code element has an id, and the warning holds the elements whose
    ids are [filter-] and [dump-] followed by that id: [filterNode] and
    [dumpNode] are the first elements below the warning with these ids. *)
Definition locates (warning codeNode filterNode dumpNode : Node) : Prop :=
  SelectAttr codeNode "id" <> ""
  /\ SelectElementById warning ("filter-" +:+ SelectAttr codeNode "id") = Some filterNode
  /\ SelectElementById warning ("dump-" +:+ SelectAttr codeNode "id") = Some dumpNode.

(** The path is the one the code element of the warning stands for: the
    object path is the text of the element; when the element has an id
    and the warning holds both elements it refers to, filter and dump
    path are the texts of these; otherwise the dump path is the object
    path and there is no filter. *)
Definition pathOf (warning codeNode : Node) (p : ResourcePath) : Prop :=
  ObjPath p = InnerText codeNode
  /\ (forall filterNode dumpNode,
         locates warning codeNode filterNode dumpNode ->
         Filter p = InnerText filterNode /\ DumpPath p = InnerText dumpNode)
  /\ ((forall filterNode dumpNode, ~ locates warning codeNode filterNode dumpNode) ->
      DumpPath p = ObjPath p /\ Filter p = "").

End WarningWords.

Module WarningSamples.
Import Arf.

(** A warning that names an endpoint with a filter and a dump location. *)
Definition filteredWarning : Node :=
  Element "xccdf-1.2:warning" [("category", "general")]
    [ Element "html:code" [("class", "ocp-api-endpoint"); ("id", "oauth")]
              [Text "/apis/config.openshift.io/v1/oauths/cluster"];
      Element "html:code" [("class", "ocp-api-filter"); ("id", "filter-oauth")]
              [Text ".spec"];
      Element "html:code" [("class", "ocp-dump-location"); ("id", "dump-oauth")]
              [Text "/apis/config.openshift.io/v1/oauths/cluster#spec"] ].

(** A rule whose OCIL check refers to a questionnaire. *)
Definition ocilRule : Node :=
  Element "xccdf-1.2:Rule" [("id", "xccdf_org.ssgproject.content_rule_audit")]
    [ Element "xccdf-1.2:check" [("system", "http://oval.mitre.org/XMLSchema/oval-definitions-5")]
              [Element "xccdf-1.2:check-content-ref" [("name", "oval:audit:def:1")] []];
      Element "xccdf-1.2:check" [("system", "http://scap.nist.gov/schema/ocil/2")]
              [Element "xccdf-1.2:check-content-ref"
                       [("name", "ocil:ssg-audit_ocil:questionnaire:1")] []] ].

End WarningSamples.

Module RemediationSamples.
Import Arf ArfRemediation.

(** An object that depends on another remediation, is optional, is an
    enforcement remediation and names its enforcement type. *)
Definition gatekeeperObject : Unstructured unit :=
  {| objAnnotations :=
       Some (<["complianceascode.io/depends-on" := "xccdf_org.ssgproject.content_rule_a"]>
             (<["complianceascode.io/optional" := ""]>
              (<["complianceascode.io/remediation-type" := "Enforcement"]>
               (<["complianceascode.io/enforcement-type" := "gatekeeper"]> ∅))));
     objRest := tt |}.

Definition plainObject : Unstructured unit := {| objAnnotations := None; objRest := tt |}.

Definition readTwoObjects (fixContent : string) : list (Unstructured unit) + string :=
  inl [plainObject; gatekeeperObject].

(** A rule with a fix for another system before the Kubernetes fix. *)
Definition ruleWithFix : Node :=
  Element "xccdf-1.2:Rule" [("id", "xccdf_org.ssgproject.content_rule_audit")]
    [ Element "xccdf-1.2:fix" [("system", "urn:xccdf:fix:script:sh"); ("id", "audit_sh")]
              [Text "echo"];
      Element "xccdf-1.2:fix"
              [("system", "urn:xccdf:fix:script:kubernetes"); ("id", "audit_Profile")]
              [Text "---"] ].

End RemediationSamples.

Module PlanWords.
Import Arf XmlQuery Fetcher.

Definition nonEmpty (s : string) : bool := negb (String.eqb s "").

Section Paths.
Variable getPathFromWarningXML : Node -> gmap string string -> list ResourcePath.

(** The path is one that a warning of a Rule of the data stream
    stands for, under some values of the variables. *)
Definition fromRuleOf (dataStream : Node) (p : ResourcePath) : Prop :=
  exists rule warn valuesList,
    rule ∈ Find dataStream "xccdf-1.2:Rule"
    /\ warn ∈ Find rule "xccdf-1.2:warning"
    /\ p ∈ getPathFromWarningXML warn valuesList.
End Paths.

End PlanWords.

Module PlanSamples.
Import Arf Fetcher.

(** A data stream with one rule that names an endpoint, one variable
    with a default, and a profile that selects the rule. *)
Definition dataStreamSample : Node :=
  XmlQuery.document
    (Element "xccdf-1.2:Benchmark" []
       [ Element "xccdf-1.2:Profile" [("id", "xccdf_org.ssgproject.content_profile_cis")]
                 [ Element "xccdf-1.2:select"
                           [("idref", "xccdf_org.ssgproject.content_rule_a");
                            ("selected", "true")] [] ];
         Element "xccdf-1.2:Value" [("id", "xccdf_org.ssgproject.content_value_v")]
                 [ Element "xccdf-1.2:value" [] [Text "10"] ];
         Element "xccdf-1.2:Rule" [("id", "xccdf_org.ssgproject.content_rule_a")]
                 [ Element "xccdf-1.2:warning" []
                           [ Element "html:code" [("class", "ocp-api-endpoint")]
                                     [Text "/apis/config.openshift.io/v1/oauths/cluster"] ] ] ]).

(** The text of a node without markup, standing for [OutputXML(false)]
    on the samples. *)
Definition textOutput (n : Node) : string := InnerText n.

(** One path per warning: the text of the warning. *)
Definition pathOfText (warn : Node) (valuesList : gmap string string)
  : list ResourcePath :=
  if String.eqb (InnerText warn) "" then []
  else [ {| ObjPath := InnerText warn; DumpPath := InnerText warn; Filter := "";
            SuppressWarning := false |} ].

End PlanSamples.

Module CelFetcherWords.
Import Fetcher CelFetcher.

Section Figure.
Variable DeriveResourcePath : string -> string -> string -> string -> string.

Definition pathOfInput (input : KubeResource) : string :=
  DeriveResourcePath (APIGroup input) (Version input) (Resource input)
                     (krNamespace input).

(** The variable stands for the input: same group and version, the
    resource of the input is the kind and the name of the variable
    joined by a slash, and both are of the same namespace. *)
Definition standsFor (input : KubeResource) (variable : Variable_) : bool :=
  String.eqb (APIGroup input) (gvkGroup variable)
  && String.eqb (Version input) (gvkVersion variable)
  && String.eqb (Resource input) (gvkKind variable +:+ "/" +:+ varName variable)
  && String.eqb (krNamespace input) (varNamespace variable).

(** The values set for an input name, in the order the loops meet
    them: input by input, and variable by variable for each. *)
Definition valuesFor (name : string) (inputs : list KubeResource)
           (variables : list Variable_) : list string :=
  flat_map (fun input =>
              if String.eqb (krName input) name
              then map varValue (List.filter (standsFor input) variables)
              else [])
           inputs.

Definition plain (path : string) : ResourcePath :=
  {| ObjPath := path; DumpPath := path; Filter := ""; SuppressWarning := false |}.
End Figure.

End CelFetcherWords.

Module CelFetcherSamples.
Import CelFetcher.

Definition slashPath (group version resource namespace : string) : string :=
  "/apis/" +:+ group +:+ "/" +:+ version +:+ "/namespaces/" +:+ namespace
  +:+ "/" +:+ resource.

Definition podsInput (name : string) : KubeResource :=
  {| krName := name; APIGroup := "apps"; Version := "v1"; Resource := "deployments";
     krNamespace := "default" |}.

End CelFetcherSamples.

(** * Theorems *)

(** ** Facts about the string helpers *)

Module GoStringsFacts.
Import GoStrings SpecWords.

Lemma app_String (c : ascii) (s t : string) : String c s +:+ t = String c (s +:+ t).
Proof. reflexivity. Qed.

Lemma app_empty (t : string) : "" +:+ t = t.
Proof. reflexivity. Qed.

Lemma prefix_app (p s : string) : String.prefix p (p +:+ s) = true.
Proof.
  induction p as [|c p IH]; [by destruct s|].
  rewrite app_String. simpl. by destruct (ascii_dec c c).
Qed.

Lemma drop_app (p s : string) : drop (String.length p) (p +:+ s) = s.
Proof. induction p as [|c p IH]; [done|]. rewrite app_String. simpl. exact IH. Qed.

Lemma prefix_split (p s : string) :
  String.prefix p s = true -> s = p +:+ drop (String.length p) s.
Proof.
  revert s; induction p as [|c p IH]; intros s H; [done|].
  destruct s as [|d s]; [done|]. simpl in H.
  destruct (ascii_dec c d) as [->|]; [|done].
  rewrite app_String. simpl. f_equal. by apply IH.
Qed.

(** [TrimPrefix] removes the prefix of a string that starts with it. *)
Lemma TrimPrefix_app (p s : string) : TrimPrefix (p +:+ s) p = s.
Proof. unfold TrimPrefix, HasPrefix. by rewrite prefix_app, drop_app. Qed.

(** and leaves the other strings alone. *)
Lemma TrimPrefix_other (p s : string) :
  (forall rest, s <> p +:+ rest) -> TrimPrefix s p = s.
Proof.
  intros H. unfold TrimPrefix, HasPrefix.
  destruct (String.prefix p s) eqn:E; [|done].
  exfalso. eapply H, prefix_split, E.
Qed.

(** Replacing the one-byte string "_" by "-" rewrites byte by byte. *)
Lemma ReplaceAll_underscore (s : string) :
  ReplaceAll s "_" "-" = mapBytes dashForUnderscore s.
Proof.
  unfold ReplaceAll.
  induction s as [|c s IH]; [done|].
  cbn [replaceFrom mapBytes String.prefix String.length Nat.sub].
  unfold dashForUnderscore at 1.
  destruct (ascii_dec "_"%char c) as [<-|Hne].
  - rewrite IH. by destruct s.
  - destruct (Ascii.eqb_spec c "_"%char) as [->|_]; [done|]. by rewrite IH.
Qed.

Lemma lowerByte_not_upper (c : ascii) : isUpperByte c = false -> lowerByte c = c.
Proof. unfold lowerByte. by intros ->. Qed.

(** On an ASCII string [ToLower] is the byte-wise lowering, whatever the
    Unicode tables are. *)
Lemma ToLower_ascii (u : string -> string) (s : string) :
  allBytes isASCIIbyte s = true -> ToLower u s = mapBytes lowerByte s.
Proof.
  intros H. unfold ToLower. rewrite H.
  destruct (anyByte isUpperByte s) eqn:E; [done|].
  clear H. induction s as [|c s IH]; simpl in *; [done|].
  apply orb_false_iff in E as [E1 E2].
  by rewrite lowerByte_not_upper, <- IH.
Qed.

End GoStringsFacts.

(** ** The aggregator: status, severity and names of check results *)

Module ArfFacts.
Import GoStrings GoStringsFacts Arf SpecWords Samples.

Ltac case_eqb :=
  repeat match goal with
         | |- context [String.eqb ?a ?b] => destruct (String.eqb_spec a b)
         end.

Lemma SelectAttr_attrOf (n : Node) (name : string) :
  SelectAttr n name = default "" (attrOf n name).
Proof. by destruct n. Qed.

Lemma stripPrefix_TrimPrefix (pre s : string) :
  default s (stripPrefix pre s) = TrimPrefix s pre.
Proof.
  unfold TrimPrefix, HasPrefix.
  assert (G : forall s, stripPrefix pre s
                        = if String.prefix pre s then Some (drop (String.length pre) s)
                          else None).
  { clear s. induction pre as [|a pre IH]; intros s; [by destruct s|].
    destruct s as [|b s]; [done|]. simpl.
    destruct (ascii_dec a b) as [->|Hne].
    - rewrite Ascii.eqb_refl. apply IH.
    - by destruct (Ascii.eqb_spec a b). }
  rewrite G. by destruct (String.prefix pre s).
Qed.

Section Aggregation.
Variable unicodeToLower : string -> string.
Variable getWarningsForRule : Node -> list string.
Variable getInstructionsForRule : Node -> string.
Variable Remediation : Type.
Variable newComplianceRemediation : string -> string -> Node -> list Remediation.

Abbreviation newCheckResult := (newComplianceCheckResult unicodeToLower getWarningsForRule).
Abbreviation parseOne :=
  (parseRuleResult unicodeToLower getWarningsForRule getInstructionsForRule
                   Remediation newComplianceRemediation).

Lemma status_of_text (result resultEl : Node) :
  SelectElement result "result" = Some resultEl ->
  mapComplianceCheckResultStatus result
  = let t := InnerText resultEl in
    if String.eqb t "pass" || String.eqb t "fixed" then inl CheckResultPass
    else if String.eqb t "fail" then inl CheckResultFail
    else if String.eqb t "error" || String.eqb t "unknown" then inl CheckResultError
    else if String.eqb t "notchecked" then inl CheckResultManual
    else if String.eqb t "informational" then inl CheckResultInfo
    else if String.eqb t "notapplicable" then inl CheckResultNotApplicable
    else if String.eqb t "notselected" then inl CheckResultNoResult
    else inr ("couldn't match " +:+ t +:+ " to a known state").
Proof. intros H. unfold mapComplianceCheckResultStatus. by rewrite H. Qed.

(** C1. For a rule-result element whose [result] child has text [t], the
    status mapping yields Pass exactly for pass and fixed, Fail exactly
    for fail, Error exactly for error and unknown, Manual exactly for
    notchecked, Info exactly for informational and NotApplicable
    exactly for notapplicable; an object that is produced carries the
    mapped status; and for notselected no ComplianceCheckResult is
    produced and the aggregation loop appends nothing. *)
Theorem status_mapping_table (result resultEl : Node) :
  SelectElement result "result" = Some resultEl ->
  let t := InnerText resultEl in
  (mapComplianceCheckResultStatus result = inl CheckResultPass
   <-> t = "pass" \/ t = "fixed") /\
  (mapComplianceCheckResultStatus result = inl CheckResultFail <-> t = "fail") /\
  (mapComplianceCheckResultStatus result = inl CheckResultError
   <-> t = "error" \/ t = "unknown") /\
  (mapComplianceCheckResultStatus result = inl CheckResultManual <-> t = "notchecked") /\
  (mapComplianceCheckResultStatus result = inl CheckResultInfo <-> t = "informational") /\
  (mapComplianceCheckResultStatus result = inl CheckResultNotApplicable
   <-> t = "notapplicable") /\
  (forall rule ruleIdRef instructions scanName namespace ccr,
      newCheckResult result rule ruleIdRef instructions scanName namespace
      = inl (Some ccr) ->
      mapComplianceCheckResultStatus result = inl (Status ccr)
      /\ Status ccr <> CheckResultNoResult) /\
  (t = "notselected" ->
   (forall rule ruleIdRef instructions scanName namespace,
       newCheckResult result rule ruleIdRef instructions scanName namespace = inl None)
   /\ (forall scanName namespace ruleTable,
          parseOne scanName namespace ruleTable result = None)).
Proof.
  intros Hel t.
  pose proof (status_of_text result resultEl Hel) as Hmap.
  fold t in Hmap. cbv zeta in Hmap.
  repeat split.
  1-12: rewrite Hmap; clear Hmap; try (intros [-> | ->]); try (intros ->);
    try reflexivity; case_eqb; simpl; intros; try discriminate; tauto.
  - unfold newComplianceCheckResult in H.
    destruct (mapComplianceCheckResultStatus result) as [st|]; [|discriminate].
    destruct (decide (st = CheckResultNoResult)); [discriminate|].
    destruct (mapComplianceCheckResultSeverity rule); [|discriminate].
    by injection H as <-.
  - unfold newComplianceCheckResult in H.
    destruct (mapComplianceCheckResultStatus result) as [st|]; [|discriminate].
    destruct (decide (st = CheckResultNoResult)); [discriminate|].
    destruct (mapComplianceCheckResultSeverity rule); [|discriminate].
    by injection H as <-.
  - intros rule ruleIdRef instructions scanName namespace.
    unfold newComplianceCheckResult. rewrite Hmap, H. reflexivity.
  - intros scanName namespace ruleTable. unfold parseRuleResult.
    destruct (String.eqb _ ""); [done|].
    destruct (ruleTable !! _); [|done].
    unfold newComplianceCheckResult. rewrite Hmap, H. reflexivity.
Qed.

(** C2. The object name is the scan name, a dash and dns(R): R without
    the rule prefix, underscores turned into dashes, lower-cased; and
    the name depends on the pair (S, R) only. *)
Theorem check_result_name (S R : string) :
  nameFromId unicodeToLower S R = S +:+ "-" +:+ dns unicodeToLower R
  /\ (forall S' R', S' = S -> R' = R ->
                    nameFromId unicodeToLower S' R' = nameFromId unicodeToLower S R).
Proof.
  split.
  - unfold nameFromId, dns, Sprintf_s_dash_s, withoutRulePrefix, underscoresToDashes.
    by rewrite ReplaceAll_underscore, stripPrefix_TrimPrefix.
  - by intros S' R' -> ->.
Qed.

(** On an ASCII identifier dns(R) is computed byte by byte. *)
Lemma dns_ascii (R : string) :
  allBytes isASCIIbyte R = true ->
  dns unicodeToLower R
  = mapBytes (fun c => lowerByte (dashForUnderscore c)) (withoutRulePrefix R).
Proof.
  intros HR. unfold dns, underscoresToDashes.
  assert (Hdrop : forall n s, allBytes isASCIIbyte s = true ->
                              allBytes isASCIIbyte (drop n s) = true).
  { induction n as [|n IH]; intros s Hs; [by destruct s|].
    destruct s as [|c s]; [done|]. simpl in *.
    apply andb_true_iff in Hs as [_ Hs]. by apply IH. }
  assert (Hstrip : allBytes isASCIIbyte (withoutRulePrefix R) = true).
  { unfold withoutRulePrefix. rewrite stripPrefix_TrimPrefix.
    unfold TrimPrefix. destruct (HasPrefix _ _); [by apply Hdrop|done]. }
  rewrite ToLower_ascii.
  - generalize (withoutRulePrefix R). intros s.
    induction s as [|c s IH]; simpl; [done|]. by rewrite IH.
  - revert Hstrip. generalize (withoutRulePrefix R). intros s.
    induction s as [|c s IH]; simpl; [done|].
    intros [Hc Hs]%andb_true_iff. rewrite IH by done.
    rewrite andb_true_r. unfold dashForUnderscore.
    by destruct (Ascii.eqb c "_"%char).
Qed.

(** C9, as amended. The severity mapping returns an error exactly when
    the rule node has no severity attribute or an empty one; every
    non-empty severity other than unknown, info, low, medium and high
    maps to unknown without an error, and then a rule-result whose
    status is mapped to a result yields a check result of severity
    unknown. *)
Theorem severity_mapping (rule : Node) :
  ((exists err, mapComplianceCheckResultSeverity rule = inr err)
   <-> attrOf rule "severity" = None \/ attrOf rule "severity" = Some "") /\
  (forall s, attrOf rule "severity" = Some s -> s <> "" ->
             s <> "unknown" -> s <> "info" -> s <> "low" -> s <> "medium" ->
             s <> "high" ->
             mapComplianceCheckResultSeverity rule = inl CheckResultSeverityUnknown
             /\ forall result st ruleIdRef instructions scanName namespace,
                 mapComplianceCheckResultStatus result = inl st ->
                 st <> CheckResultNoResult ->
                 exists ccr,
                   newCheckResult result rule ruleIdRef instructions scanName namespace
                   = inl (Some ccr)
                   /\ Severity ccr = CheckResultSeverityUnknown /\ Status ccr = st).
Proof.
  assert (Hunk : forall s, attrOf rule "severity" = Some s -> s <> "" ->
             s <> "unknown" -> s <> "info" -> s <> "low" -> s <> "medium" ->
             s <> "high" ->
             mapComplianceCheckResultSeverity rule = inl CheckResultSeverityUnknown).
  { intros s Hs. unfold mapComplianceCheckResultSeverity.
    rewrite SelectAttr_attrOf, Hs. simpl. intros. case_eqb; congruence. }
  split; [split|].
  - intros [err Herr]. unfold mapComplianceCheckResultSeverity in Herr.
    rewrite SelectAttr_attrOf in Herr.
    destruct (attrOf rule "severity") as [s|]; [|by left]. right. simpl in Herr.
    destruct (String.eqb_spec s ""); [by subst|].
    revert Herr. case_eqb; discriminate.
  - intros H. unfold mapComplianceCheckResultSeverity. rewrite SelectAttr_attrOf.
    destruct H as [-> | ->]; simpl; eauto.
  - intros s Hs H0 H1 H2 H3 H4 H5. split; [by eapply Hunk|].
    intros result st ruleIdRef instructions scanName namespace Hst Hne.
    unfold newComplianceCheckResult. rewrite Hst.
    destruct (decide (st = CheckResultNoResult)); [done|].
    rewrite (Hunk s) by done. eauto.
Qed.

End Aggregation.

Lemma status_mapping_table_witness :
  mapComplianceCheckResultStatus passResult = inl CheckResultPass
  /\ parseRuleResult (fun s => s) (fun _ => []) (fun _ => "") unit (fun _ _ _ => [])
                     "scan" "ns" (<["xccdf_org.ssgproject.content_rule_a" :=
                                     Element "Rule" [("severity", "low")] []]> ∅)
                     notSelectedResult = None.
Proof.
  split.
  - apply (status_mapping_table (fun s => s) (fun _ => []) (fun _ => "") unit
                                (fun _ _ _ => []) passResult
                                (Element "result" [] [Text "fixed"]) eq_refl).
    by right.
  - apply (status_mapping_table (fun s => s) (fun _ => []) (fun _ => "") unit
                                (fun _ _ _ => []) notSelectedResult
                                (Element "result" [] [Text "notselected"]) eq_refl).
    reflexivity.
Defined.

Example nameFromId_example :
  nameFromId (fun s => s) "ocp4-cis" "xccdf_org.ssgproject.content_rule_API_server_Audit"
  = "ocp4-cis-api-server-audit".
Proof. reflexivity. Qed.

Example nameFromId_no_prefix :
  nameFromId (fun s => s) "scan" "Other_Rule" = "scan-other-rule".
Proof. reflexivity. Qed.

(** C9 as stated fails: the node has a severity attribute, and the
    mapping returns an error. *)
Lemma severity_error_despite_attribute :
  attrOf ruleWithEmptySeverity "severity" = Some ""
  /\ mapComplianceCheckResultSeverity ruleWithEmptySeverity
     = inr "result node has no 'severity' attribute".
Proof. split; reflexivity. Qed.

Lemma severity_mapping_witness :
  mapComplianceCheckResultSeverity (Element "xccdf-1.2:Rule" [("severity", "critical")] [])
  = inl CheckResultSeverityUnknown.
Proof.
  refine (proj1 (proj2 (severity_mapping (fun s => s) (fun _ => [])
                          (Element "xccdf-1.2:Rule" [("severity", "critical")] []))
                       "critical" eq_refl _ _ _ _ _ _)); discriminate.
Defined.

End ArfFacts.

(** ** Merging the metadata of a Rule into a check result *)

Module RuleMetadataFacts.
Import GoStrings RuleMetadata SpecWords Samples.

Lemma entries_len_0 (m : GoMap.t) : GoMap.len m = 0 -> GoMap.entries m = ∅.
Proof. unfold GoMap.len. apply map_size_empty_inv. Qed.

Lemma enumerates_list_to_map (range : GoMap.RangeOrder) (m : gmap string string) :
  GoMap.enumerates range ->
  NoDup (range m).*1 /\ (list_to_map (range m) : gmap string string) = m.
Proof.
  intros Hr. pose proof (Hr m) as Hp.
  assert (Hnd : NoDup (range m).*1).
  { rewrite Hp. apply NoDup_fst_map_to_list. }
  split; [done|].
  rewrite (list_to_map_proper _ _ Hnd Hp). apply list_to_map_to_list.
Qed.

(** The loop of [mergeIfNotExists], over any sequence of entries. *)
Lemma merge_loop_lookup (l : list (string * string)) (dst : gmap string string) (k : string) :
  fold_left (fun (dst : gmap string string) '(k, v) =>
               match dst !! k with Some _ => dst | None => <[k := v]> dst end) l dst !! k
  = match dst !! k with
    | Some x => Some x
    | None => (list_to_map l : gmap string string) !! k
    end.
Proof.
  revert dst. induction l as [|[k' v'] l IH]; intros dst; simpl.
  - rewrite lookup_empty. by destruct (dst !! k).
  - rewrite IH. destruct (decide (k' = k)) as [->|Hne].
    + destruct (dst !! k) eqn:E; [by rewrite E|].
      by rewrite !lookup_insert_eq.
    + destruct (dst !! k') eqn:E'; [by rewrite lookup_insert_ne|].
      by rewrite !lookup_insert_ne.
Qed.

(** The loop of [filterCustomKeys], over entries with distinct keys. *)
Lemma filter_loop_lookup (l : list (string * string)) (acc : gmap string string)
      (k : string) :
  NoDup l.*1 ->
  fold_left (fun (result : gmap string string) '(k, v) =>
               if negb (IsOperatorManagedKey k) then <[k := v]> result else result) l acc !! k
  = if IsOperatorManagedKey k then acc !! k
    else match (list_to_map l : gmap string string) !! k with
         | Some v => Some v
         | None => acc !! k
         end.
Proof.
  revert acc. induction l as [|[k' v'] l IH]; intros acc Hnd; simpl.
  - rewrite lookup_empty. by destruct (IsOperatorManagedKey k).
  - apply NoDup_cons in Hnd as [Hk' Hnd]. simpl in Hk'. rewrite IH by done.
    destruct (decide (k' = k)) as [->|Hne].
    + rewrite lookup_insert_eq.
      rewrite (not_elem_of_list_to_map_1 _ _ Hk').
      destruct (IsOperatorManagedKey k); simpl; [done|].
      by rewrite lookup_insert_eq.
    + rewrite (lookup_insert_ne (list_to_map l)) by done.
      destruct (IsOperatorManagedKey k'); simpl; [done|].
      by rewrite lookup_insert_ne.
Qed.

Section Range.
Variable range : GoMap.RangeOrder.
Hypothesis range_enumerates : GoMap.enumerates range.

(** [filterCustomKeys] keeps exactly the entries whose key is not
    operator-managed. *)
Lemma filterCustomKeys_get (m : GoMap.t) (k : string) :
  GoMap.get (filterCustomKeys range m) k
  = if IsOperatorManagedKey k then None else GoMap.get m k.
Proof.
  unfold filterCustomKeys, GoMap.get.
  destruct (Nat.eqb_spec (GoMap.len m) 0) as [H0|_].
  { rewrite (entries_len_0 _ H0). simpl. rewrite lookup_empty.
    by destruct (IsOperatorManagedKey k). }
  destruct (enumerates_list_to_map range (GoMap.entries m) range_enumerates)
    as [Hnd Hl].
  pose proof (filter_loop_lookup (range (GoMap.entries m)) ∅ k Hnd) as Hf.
  rewrite Hl, lookup_empty in Hf.
  match goal with |- context [Nat.eqb (size ?r) 0] => set (res := r) in * end.
  assert (Hres : res !! k = if IsOperatorManagedKey k then None
                            else GoMap.entries m !! k).
  { rewrite Hf. destruct (IsOperatorManagedKey k); [done|].
    by destruct (GoMap.entries m !! k). }
  destruct (Nat.eqb_spec (size res) 0) as [Hs|_]; simpl; [|done].
  apply map_size_empty_inv in Hs. rewrite Hs in Hres.
  by rewrite <- Hres.
Qed.

(** [mergeIfNotExists] reads as the target where the target has the
    key, and as the source elsewhere. *)
Lemma mergeIfNotExists_get (dst src : GoMap.t) (k : string) :
  GoMap.get (mergeIfNotExists range dst src) k
  = match GoMap.get dst k with
    | Some x => Some x
    | None => GoMap.get src k
    end.
Proof.
  unfold mergeIfNotExists, GoMap.get.
  destruct (Nat.eqb_spec (GoMap.len src) 0) as [H0|_].
  { rewrite (entries_len_0 _ H0), lookup_empty.
    by destruct (GoMap.entries dst !! k). }
  simpl. rewrite merge_loop_lookup.
  destruct (enumerates_list_to_map range (GoMap.entries src) range_enumerates)
    as [_ ->].
  by destruct dst.
Qed.





(** Copying a map that lacks a key leaves the label of that key alone. *)
Lemma copyInto_other (labels : gmap string string) (src : GoMap.t) (k : string) :
  GoMap.get src k = None -> CelScanner.copyInto range labels src !! k = labels !! k.
Proof.
  unfold GoMap.get, CelScanner.copyInto. destruct src as [m|]; simpl; [|done].
  intros Hk.
  assert (Hnot : forall v, (k, v) ∉ range m).
  { intros v Hin. rewrite (range_enumerates m) in Hin.
    apply elem_of_map_to_list in Hin. congruence. }
  revert labels. induction (range m) as [|[k' v'] l IH]; intros labels; [done|].
  simpl. rewrite IH.
  - apply lookup_insert_ne. intros ->. apply (Hnot v'). by left.
  - intros v Hin. apply (Hnot v). by right.
Qed.

(** When the labels a result carries are the custom part of a rule's
    labels, the labels the CEL scanner emits have the operator's values
    under the operator's three keys. *)
Lemma cel_operator_labels_kept
      (scanLabel statusLabel severityLabel : string)
      (result : CelScanner.ComplianceCheckResult) (scanName : string)
      (ruleLabels : GoMap.t) :
  IsOperatorManagedKey scanLabel = true ->
  IsOperatorManagedKey statusLabel = true ->
  IsOperatorManagedKey severityLabel = true ->
  scanLabel <> statusLabel -> scanLabel <> severityLabel ->
  statusLabel <> severityLabel ->
  CelScanner.ccrLabels result = filterCustomKeys range ruleLabels ->
  let labels := CelScanner.getCheckResultLabels scanLabel statusLabel severityLabel
                                                range result scanName in
  labels !! scanLabel = Some scanName
  /\ labels !! statusLabel = Some (CelScanner.ccrStatus result)
  /\ labels !! severityLabel = Some (CelScanner.ccrSeverity result).
Proof.
  intros H1 H2 H3 N12 N13 N23 Hcustom labels. unfold labels, CelScanner.getCheckResultLabels.
  rewrite Hcustom.
  rewrite !copyInto_other by (by rewrite filterCustomKeys_get; rewrite ?H1, ?H2, ?H3).
  rewrite lookup_insert_eq.
  rewrite (lookup_insert_ne _ severityLabel statusLabel) by done.
  rewrite lookup_insert_eq.
  rewrite (lookup_insert_ne _ severityLabel scanLabel) by done.
  rewrite (lookup_insert_ne _ statusLabel scanLabel) by done.
  by rewrite lookup_insert_eq.
Qed.

(** The labels the CEL scanner builds for a check result survive the
    merge as well. *)
Lemma cel_labels_survive_merge
      (scanLabel statusLabel severityLabel : string)
      (result : CelScanner.ComplianceCheckResult) (scanName : string)
      (rule : GoMap.t) (k v : string) :
  let labels := CelScanner.getCheckResultLabels scanLabel statusLabel severityLabel
                                                range result scanName in
  labels !! k = Some v ->
  GoMap.get (mergeIfNotExists range (Some labels) (filterCustomKeys range rule)) k
  = Some v.
Proof. intros labels Hk. rewrite mergeIfNotExists_get. unfold GoMap.get. simpl. by rewrite Hk. Qed.

End Range.



Example merged_carries_custom_label :
  GoMap.get (MergeCustomMetadata map_to_list exampleTargetLabels
               (GetCustomMetadata map_to_list exampleRuleLabels None).1 None None).1
            "weakness_score" = Some "9.5".
Proof. vm_compute. reflexivity. Qed.

End RuleMetadataFacts.

(** ** The CEL scanner: exit code and duplicate selections *)

Module CelScannerFacts.
Import GoStrings GoErrors CelScanner SpecWords Samples.

Lemma exitCodeOf_snoc (results : list CheckResult) (r : CheckResult) :
  exitCodeOf (results ++ [r]) = exitCodeStep (exitCodeOf results) r.
Proof. unfold exitCodeOf. by rewrite fold_left_app. Qed.

(** The exit code is decided by the last result that is Fail or Error. *)
Lemma exitCodeOf_values (results : list CheckResult) :
  (exitCodeOf results = 0%Z /\ Forall (fun r => ~ isFail r /\ ~ isError r) results)
  \/ (exitCodeOf results = 2%Z /\ Exists isFail results)
  \/ (exitCodeOf results = (-1)%Z /\ Exists isError results).
Proof.
  induction results as [|r results IH] using rev_ind.
  - left. by split.
  - rewrite exitCodeOf_snoc. unfold exitCodeStep.
    destruct (decide (Status r = CheckResultFail)) as [Hf|Hf].
    { right; left. split; [done|]. apply Exists_app. right. by constructor. }
    destruct (decide (Status r = CheckResultError)) as [He|He].
    { right; right. split; [done|]. apply Exists_app. right. by constructor. }
    destruct IH as [[H0 Hall]|[[H2 Hex]|[H1 Hex]]].
    + left. split; [done|]. apply Forall_app. split; [done|]. by constructor.
    + right; left. split; [done|]. apply Exists_app. by left.
    + right; right. split; [done|]. apply Exists_app. by left.
Qed.

Lemma exitCodeOf_clean (results : list CheckResult) :
  Forall (fun r => ~ isFail r /\ ~ isError r) results -> exitCodeOf results = 0%Z.
Proof.
  intros Hall.
  destruct (exitCodeOf_values results) as [[H _]|[[_ Hex]|[_ Hex]]]; [done| |].
  all: apply Exists_exists in Hex as (r & Hin & Hr).
  all: rewrite Forall_forall in Hall; destruct (Hall r Hin); contradiction.
Qed.

Lemma exitCodeOf_fail_only (results : list CheckResult) :
  Exists isFail results -> ~ Exists isError results -> exitCodeOf results = 2%Z.
Proof.
  intros Hf Hne.
  destruct (exitCodeOf_values results) as [[_ Hall]|[[H _]|[_ Hex]]]; [|done|done].
  apply Exists_exists in Hf as (r & Hin & Hr).
  rewrite Forall_forall in Hall. destruct (Hall r Hin). contradiction.
Qed.

Lemma exitCodeOf_error_only (results : list CheckResult) :
  Exists isError results -> ~ Exists isFail results -> exitCodeOf results = (-1)%Z.
Proof.
  intros He Hnf.
  destruct (exitCodeOf_values results) as [[_ Hall]|[[_ Hex]|[H _]]]; [|done|done].
  apply Exists_exists in He as (r & Hin & Hr).
  rewrite Forall_forall in Hall. destruct (Hall r Hin). contradiction.
Qed.

(** C4 as stated fails: with a Fail before an Error the code is -1 and
    not 2, with an Error before a Fail it is 2 and not -1. *)
Lemma exit_code_depends_on_order :
  (Exists isFail [failed; errored] /\ exitCodeOf [failed; errored] <> 2%Z)
  /\ (Exists isError [errored; failed] /\ exitCodeOf [errored; failed] <> (-1)%Z).
Proof.
  split; (split; [|by vm_compute]).
  - by apply Exists_cons_hd.
  - by apply Exists_cons_hd.
Qed.

(** The labels of the CEL scanner are assembled by assignment: a label
    the result already carries replaces the one set before it. *)
Example result_labels_are_copied_last :
  getCheckResultLabels "compliance.openshift.io/scan-name"
                       "compliance.openshift.io/check-status"
                       "compliance.openshift.io/check-severity"
                       map_to_list resultWithStatusLabel "scan"
  !! "compliance.openshift.io/check-status" = Some "PASS".
Proof. by vm_compute. Qed.

Section Command.
Variables CustomRuleSpec VariableSpec : Type.
Variable getTailoredProfileObject : string -> string -> TailoredProfile + error.
Variable getCustomRuleObject : string -> string -> CustomRuleSpec + error.
Variable getVariableObject : string -> string -> (VariableSpec * string) + error.
Variable Scan : list (CustomRule CustomRuleSpec) -> list (Variable_ VariableSpec)
                -> string -> list CheckResult + error.
Variable SaveResults : string -> list CheckResult -> option error.
Variable generateComplianceCheckResults : list CheckResult -> option error.
Variable WriteFile : string -> string -> option error.
Variable filepathJoin : string -> string -> string.

Abbreviation run :=
  (runPlatformScan CustomRuleSpec VariableSpec getTailoredProfileObject
                   getCustomRuleObject getVariableObject Scan SaveResults
                   generateComplianceCheckResults WriteFile filepathJoin).
Abbreviation selectedCustomRules :=
  (getSelectedCustomRules CustomRuleSpec getCustomRuleObject).
Abbreviation setVariablesOf := (getSetVariables VariableSpec getVariableObject).

(** A run that ends in the exit_code file has gone through every step. *)
Lemma run_Exit0 (config : celConfig) (path file : string) :
  run config = Exit0 path file ->
  exists tp selectedRules setVars results,
    getTailoredProfileObject (NameSpace config) (Profile config) = inl tp
    /\ selectedCustomRules tp = inl selectedRules
    /\ setVariablesOf tp = inl setVars
    /\ Scan selectedRules setVars (ApiResourcePath config) = inl results
    /\ path = filepathJoin (CheckResultDir config) "exit_code"
    /\ file = Sprintf_d (exitCodeOf results).
Proof.
  unfold runPlatformScan, getTailoredProfile, saveExitCode.
  destruct (String.eqb (Profile config) ""); [done|].
  destruct (String.eqb (Tailoring config) ""); [done|].
  destruct (getTailoredProfileObject _ _) as [tp|] eqn:Etp; [|done].
  destruct (getSelectedCustomRules _ _ tp) as [rules|] eqn:Erules; [|done].
  destruct (getSetVariables _ _ tp) as [vars|] eqn:Evars; [|done].
  destruct (Scan rules vars _) as [results|] eqn:Escan; [|done].
  destruct (SaveResults _ results); [done|].
  destruct (if CCRGeneration config then _ else _); [done|].
  destruct (WriteFile _ _); [done|].
  intros [= <- <-]. by exists tp, rules, vars, results.
Qed.

(** A scan whose steps all succeed records the exit code of its results. *)
Lemma run_records_exit_code (config : celConfig) (tp : TailoredProfile)
      (selectedRules : list (CustomRule CustomRuleSpec))
      (setVars : list (Variable_ VariableSpec)) (results : list CheckResult) :
  Profile config <> "" -> Tailoring config <> "" ->
  getTailoredProfileObject (NameSpace config) (Profile config) = inl tp ->
  selectedCustomRules tp = inl selectedRules ->
  setVariablesOf tp = inl setVars ->
  Scan selectedRules setVars (ApiResourcePath config) = inl results ->
  SaveResults (filepathJoin (CheckResultDir config) "result.xml") results = None ->
  (CCRGeneration config = true -> generateComplianceCheckResults results = None) ->
  WriteFile (filepathJoin (CheckResultDir config) "exit_code")
            (Sprintf_d (exitCodeOf results)) = None ->
  run config = Exit0 (filepathJoin (CheckResultDir config) "exit_code")
                     (Sprintf_d (exitCodeOf results)).
Proof.
  intros Hp Ht Htp Hrules Hvars Hscan Hsave Hgen Hwrite.
  unfold runPlatformScan, getTailoredProfile, saveExitCode.
  apply String.eqb_neq in Hp, Ht. rewrite Hp, Ht, Htp, Hrules, Hvars, Hscan, Hsave.
  destruct (CCRGeneration config); [rewrite Hgen by done|]; by rewrite Hwrite.
Qed.

(** C4, as amended. When a platform scan ends by recording its exit
    code, the exit_code file holds the code of the results the scan
    returned: 0 when no result is Fail or Error, in particular when all
    are Pass; 2 when some result is Fail and none is Error; -1 when some
    result is Error and none is Fail. *)
Theorem exit_code_recorded (config : celConfig) (path file : string) :
  run config = Exit0 path file ->
  exists selectedRules setVars results,
    Scan selectedRules setVars (ApiResourcePath config) = inl results
    /\ path = filepathJoin (CheckResultDir config) "exit_code"
    /\ file = Sprintf_d (exitCodeOf results)
    /\ (Forall isPass results -> exitCodeOf results = 0%Z /\ file = "0")
    /\ (Forall (fun r => ~ isFail r /\ ~ isError r) results ->
        exitCodeOf results = 0%Z /\ file = "0")
    /\ (Exists isFail results -> ~ Exists isError results ->
        exitCodeOf results = 2%Z /\ file = "2")
    /\ (Exists isError results -> ~ Exists isFail results ->
        exitCodeOf results = (-1)%Z /\ file = "-1").
Proof.
  intros Hrun.
  destruct (run_Exit0 config path file Hrun)
    as (tp & rules & vars & results & _ & _ & _ & Hscan & -> & ->).
  exists rules, vars, results.
  assert (Hclean : Forall (fun r => ~ isFail r /\ ~ isError r) results ->
                   exitCodeOf results = 0%Z /\ Sprintf_d (exitCodeOf results) = "0").
  { intros H. by rewrite (exitCodeOf_clean results H). }
  assert (Hpass : Forall isPass results ->
                  Forall (fun r => ~ isFail r /\ ~ isError r) results).
  { intros H. eapply Forall_impl; [exact H|].
    unfold isPass, isFail, isError. intros r ->. by split. }
  repeat split; try done.
  - by apply Hclean, Hpass.
  - by apply Hclean, Hpass.
  - by apply Hclean.
  - by apply Hclean.
  - by apply exitCodeOf_fail_only.
  - by rewrite exitCodeOf_fail_only.
  - by apply exitCodeOf_error_only.
  - by rewrite exitCodeOf_error_only.
Qed.

End Command.

Lemma exit_code_recorded_witness :
  exists results : list CheckResult,
    Exists isFail results /\ ~ Exists isError results
    /\ exitCodeOf results = 2%Z /\ Sprintf_d (exitCodeOf results) = "2".
Proof.
  destruct (exit_code_recorded unit unit
              (fun _ _ => inl tpTwoRules) (clusterWithEverything tt)
              (clusterWithEverything (tt, ""))
              (fun _ _ _ => inl [passed; failed; passed])
              (fun _ _ => None) (fun _ => None) (fun _ _ => None) joinWithSlash
              scanConfig "/reports/exit_code" "2" eq_refl)
    as (rules & vars & results & Hscan & _ & Hfile & _ & _ & Hfail & _).
  injection Hscan as <-.
  exists [passed; failed; passed].
  assert (Hf : Exists isFail [passed; failed; passed]).
  { apply Exists_cons_tl, Exists_cons_hd. reflexivity. }
  assert (He : ~ Exists isError [passed; failed; passed]).
  { intros H. apply Exists_exists in H as (r & Hin & Hr).
    repeat (apply elem_of_cons in Hin as [->|Hin]; [discriminate Hr|]).
    by apply elem_of_nil in Hin. }
  split; [exact Hf|]. split; [exact He|].
  split; [exact (proj1 (Hfail Hf He))|]. by rewrite <- Hfile.
Defined.

Lemma existsb_names {A : Type} (f : A -> string) (l : list A) (n : string) :
  existsb (fun x => String.eqb (f x) n) l = existsb (fun s => String.eqb s n) (map f l).
Proof. induction l as [|x l IH]; simpl; [done|]. by rewrite IH. Qed.

Lemma existsb_eqb_false (seen : list string) (n : string) :
  existsb (fun s => String.eqb s n) seen = false -> n ∉ seen.
Proof.
  intros H Hin. apply not_true_iff_false in H. apply H.
  apply existsb_exists. exists n. split; [by apply list_elem_of_In|].
  apply String.eqb_refl.
Qed.

Lemma firstRepeatedFrom_None (seen todo : list string) :
  NoDup seen -> firstRepeatedFrom seen todo = None -> NoDup (seen ++ todo).
Proof.
  revert seen. induction todo as [|n todo IH]; intros seen Hnd H; simpl in *.
  - by rewrite app_nil_r.
  - destruct (existsb _ seen) eqn:E; [done|].
    apply existsb_eqb_false in E.
    replace (seen ++ n :: todo) with ((seen ++ [n]) ++ todo) by by rewrite <- app_assoc.
    apply IH; [|done].
    apply NoDup_app. split; [done|]. split; [|apply NoDup_singleton].
    intros x Hx ->%list_elem_of_singleton. done.
Qed.

Lemma mentions_infix (a n b : string) : mentions (a +:+ n +:+ b) n = true.
Proof.
  assert (Hhd : forall s, suffixes s
                          = s :: match s with
                                 | EmptyString => []
                                 | String _ s' => suffixes s'
                                 end) by (by intros []).
  unfold mentions. induction a as [|c a IH].
  - change ("" +:+ n +:+ b) with (n +:+ b).
    rewrite Hhd. cbn [existsb]. by rewrite GoStringsFacts.prefix_app.
  - change (String c a +:+ n +:+ b) with (String c (a +:+ n +:+ b)).
    rewrite Hhd. cbn [existsb]. rewrite IH. apply orb_true_r.
Qed.

Section Duplicates.
Variables CustomRuleSpec VariableSpec : Type.
Variable getCustomRuleObject : string -> string -> CustomRuleSpec + error.
Variable getVariableObject : string -> string -> (VariableSpec * string) + error.

Abbreviation selectFrom := (selectRules CustomRuleSpec getCustomRuleObject).
Abbreviation setFrom := (setVariables VariableSpec getVariableObject).
Abbreviation ruleName := (crName CustomRuleSpec).
Abbreviation variableName := (varName VariableSpec).

(** Rules are returned only for a list without a repeated name, one
    rule per name and in the order of the list. *)
Lemma selectRules_inl (namespace : string) (todo : list RuleReferenceSpec)
      (selected rules : list (CustomRule CustomRuleSpec)) :
  selectFrom namespace todo selected = inl rules ->
  firstRepeatedFrom (map ruleName selected) (map refName todo) = None
  /\ map ruleName rules = map ruleName selected ++ map refName todo.
Proof.
  revert selected. induction todo as [|sel todo IH]; intros selected H; simpl in *.
  - injection H as <-. by rewrite app_nil_r.
  - rewrite <- existsb_names.
    destruct (existsb _ selected); [done|].
    destruct (getCustomRuleObject namespace (refName sel)) as [spec|]; [|done].
    apply IH in H as [H1 H2]. rewrite map_app in H1, H2. simpl in *.
    split; [done|]. by rewrite H2, <- app_assoc.
Qed.

Lemma setVariables_inl (namespace : string) (todo : list VariableValueSpec)
      (setVars vars : list (Variable_ VariableSpec)) :
  setFrom namespace todo setVars = inl vars ->
  firstRepeatedFrom (map variableName setVars) (map valName todo) = None
  /\ map variableName vars = map variableName setVars ++ map valName todo.
Proof.
  revert setVars. induction todo as [|sVar todo IH]; intros setVars H; simpl in *.
  - injection H as <-. by rewrite app_nil_r.
  - rewrite <- existsb_names.
    destruct (existsb _ setVars); [done|].
    destruct (getVariableObject namespace (valName sVar)) as [[spec v]|]; [|done].
    apply IH in H as [H1 H2]. rewrite map_app in H1, H2. simpl in *.
    split; [done|]. by rewrite H2, <- app_assoc.
Qed.

(** When every rule can be fetched, the outcome is decided by the first
    repeated name. *)
Lemma selectRules_fetchable (namespace : string) (todo : list RuleReferenceSpec)
      (selected : list (CustomRule CustomRuleSpec)) :
  (forall name, name ∈ map refName todo ->
                exists spec, getCustomRuleObject namespace name = inl spec) ->
  match firstRepeatedFrom (map ruleName selected) (map refName todo) with
  | Some n => selectFrom namespace todo selected
              = inr (ErrorString ("Rule '" +:+ n +:+ "' appears twice in selections"))
  | None => exists rules, selectFrom namespace todo selected = inl rules
  end.
Proof.
  revert selected. induction todo as [|sel todo IH]; intros selected Hget; simpl in *.
  - by exists selected.
  - rewrite <- existsb_names.
    destruct (existsb _ selected); [done|].
    destruct (Hget (refName sel)) as [spec ->]; [by left|].
    specialize (IH (selected ++ [{| crName := refName sel; crNamespace := namespace;
                                    crSpec := spec |}])).
    rewrite map_app in IH. apply IH.
    intros name Hin. apply Hget. by right.
Qed.

End Duplicates.

(** C10 as stated fails: the selections name dup-rule twice, yet the
    error comes from fetching missing-rule, selected before the second
    dup-rule, and does not mention dup-rule. *)
Lemma duplicate_error_may_not_name_it :
  ~ NoDup (map refName (selections tpMissingThenDuplicate))
  /\ firstRepeated (map refName (selections tpMissingThenDuplicate)) = Some "dup-rule"
  /\ exists err,
      getSelectedCustomRules unit clusterWithoutMissingRule tpMissingThenDuplicate = inr err
      /\ Error err
         = "Fetching rule: customrules.compliance.openshift.io missing-rule not found"
      /\ mentions (Error err) "dup-rule" = false.
Proof.
  split; [|split].
  - intros H. apply NoDup_cons in H as [_ H]. apply NoDup_cons in H as [H _].
    apply H. by left.
  - reflexivity.
  - eexists. split; [reflexivity|]. split; [reflexivity|]. by vm_compute.
Qed.

Section Rejection.
Variables CustomRuleSpec VariableSpec : Type.
Variable getTailoredProfileObject : string -> string -> TailoredProfile + error.
Variable getCustomRuleObject : string -> string -> CustomRuleSpec + error.
Variable getVariableObject : string -> string -> (VariableSpec * string) + error.
Variable Scan : list (CustomRule CustomRuleSpec) -> list (Variable_ VariableSpec)
                -> string -> list CheckResult + error.
Variable SaveResults : string -> list CheckResult -> option error.
Variable generateComplianceCheckResults : list CheckResult -> option error.
Variable WriteFile : string -> string -> option error.
Variable filepathJoin : string -> string -> string.

Abbreviation scanRun :=
  (runPlatformScan CustomRuleSpec VariableSpec getTailoredProfileObject
                   getCustomRuleObject getVariableObject Scan SaveResults
                   generateComplianceCheckResults WriteFile filepathJoin).
Abbreviation rulesOf := (getSelectedCustomRules CustomRuleSpec getCustomRuleObject).
Abbreviation variablesOf := (getSetVariables VariableSpec getVariableObject).

(** C10, as amended. When the concatenated selections of a tailored
    profile (enable, disable, manual) repeat a rule name, rule
    gathering returns an error and no rules, and when every selected
    rule can be fetched that error names the first repeated rule;
    a variable name repeated in setValues makes variable gathering
    return an error; what either returns without an error has one
    object per name, the names being distinct; and a platform scan of
    such a profile ends in FATAL before it scans. *)
Theorem duplicate_selections_rejected (tp : TailoredProfile) :
  let names := map refName (selections tp) in
  let variables := map valName (SetValues tp) in
  (~ NoDup names -> exists err, rulesOf tp = inr err)
  /\ (forall n, firstRepeated names = Some n ->
                (forall name, name ∈ names ->
                              exists spec, getCustomRuleObject (tpNamespace tp) name
                                           = inl spec) ->
                rulesOf tp
                = inr (ErrorString ("Rule '" +:+ n +:+ "' appears twice in selections"))
                /\ mentions ("Rule '" +:+ n +:+ "' appears twice in selections") n
                   = true)
  /\ (~ NoDup variables -> exists err, variablesOf tp = inr err)
  /\ (forall rules, rulesOf tp = inl rules ->
                    NoDup names /\ map (crName CustomRuleSpec) rules = names)
  /\ (forall vars, variablesOf tp = inl vars ->
                   NoDup variables /\ map (varName VariableSpec) vars = variables)
  /\ (forall config,
         getTailoredProfileObject (NameSpace config) (Profile config) = inl tp ->
         ~ NoDup names \/ ~ NoDup variables ->
         exists msg, scanRun config = Fatal msg).
Proof.
  intros names variables.
  assert (Hrules : forall rules, rulesOf tp = inl rules ->
                     NoDup names /\ map (crName CustomRuleSpec) rules = names).
  { intros rules H. apply selectRules_inl in H as [H1 H2]. split; [|done].
    by apply (firstRepeatedFrom_None [] names (NoDup_nil_2)). }
  assert (Hvars : forall vars, variablesOf tp = inl vars ->
                    NoDup variables /\ map (varName VariableSpec) vars = variables).
  { intros vars H. apply setVariables_inl in H as [H1 H2]. split; [|done].
    by apply (firstRepeatedFrom_None [] variables (NoDup_nil_2)). }
  assert (Hdup : ~ NoDup names -> exists err, rulesOf tp = inr err).
  { intros Hnd. destruct (rulesOf tp) as [rules|err] eqn:E; [|by eexists].
    by destruct (Hrules rules eq_refl). }
  assert (Hdupv : ~ NoDup variables -> exists err, variablesOf tp = inr err).
  { intros Hnd. destruct (variablesOf tp) as [vars|err] eqn:E; [|by eexists].
    by destruct (Hvars vars eq_refl). }
  refine (conj Hdup (conj _ (conj Hdupv (conj Hrules (conj Hvars _))))).
  - intros n H H0. split; [|apply mentions_infix].
    pose proof (selectRules_fetchable CustomRuleSpec getCustomRuleObject
                  (tpNamespace tp) (selections tp) [] H0) as Hf.
    simpl in Hf. fold names in Hf. unfold firstRepeated in H. by rewrite H in Hf.
  - intros config Htp Hnd.
    unfold runPlatformScan, getTailoredProfile.
    destruct (String.eqb (Profile config) ""); [by eexists|].
    destruct (String.eqb (Tailoring config) ""); [by eexists|].
    rewrite Htp.
    destruct (rulesOf tp) as [rules|err] eqn:Er; [|by eexists].
    destruct (variablesOf tp) as [vars|err] eqn:Ev; [|by eexists].
    destruct Hnd as [Hnd|Hnd]; exfalso.
    + apply Hdup in Hnd as [err Herr]. congruence.
    + apply Hdupv in Hnd as [err Herr]. congruence.
Qed.

End Rejection.

Lemma duplicate_selections_rejected_witness :
  getSelectedCustomRules unit (clusterWithEverything tt) tpDuplicate
  = inr (ErrorString "Rule 'dup-rule' appears twice in selections")
  /\ exists err, getSetVariables unit (clusterWithEverything (tt, "")) tpDuplicate = inr err.
Proof.
  pose proof (duplicate_selections_rejected unit unit
                (fun _ _ => inl tpDuplicate) (clusterWithEverything tt)
                (clusterWithEverything (tt, "")) (fun _ _ _ => inl [])
                (fun _ _ => None) (fun _ => None) (fun _ _ => None) joinWithSlash
                tpDuplicate) as (_ & Hname & Hvars & _).
  split.
  - apply (Hname "dup-rule" eq_refl). intros name _. by exists tt.
  - apply Hvars. intros H. apply NoDup_cons in H as [H _]. apply H. by left.
Defined.

End CelScannerFacts.

(** ** The API resource collector *)

Module FetcherFacts.
Import GoStrings GoErrors Fetcher SpecWords Samples.

Lemma IsNotFound_reason (err : error) :
  IsNotFound err = true -> ReasonForError err = "NotFound".
Proof. unfold IsNotFound. apply String.eqb_eq. Qed.

Section Collector.
Variables IgnFile IgnRest McRest : Type.
Variable ParseAndConvertConfig : string -> IgnConfig IgnFile IgnRest + error.
Variable jsonMarshalIgn : IgnConfig IgnFile IgnRest -> string + error.
Variables Query JsonObject Other YamlMap : Type.
Variable gojqParse : string -> Query + error.
Variable jsonUnmarshal : string -> JsonObject + error.
Variable gojqRun : Query -> JsonObject -> list (jqItem (jqValue Other)).
Variable yamlUnmarshal : string -> YamlMap + error.
Variable jsonMarshalYaml : YamlMap -> string + error.
Variable jsonMarshal : jqValue Other -> string + error.
Variable streamDispatcher : string -> resourceStreamer.
Variable rfClients : resourceFetcherClients McRest.
Variable fuel : nat.

Abbreviation stream := (Stream IgnFile IgnRest McRest ParseAndConvertConfig jsonMarshalIgn).
Abbreviation filterBody :=
  (filter Query JsonObject Other YamlMap gojqParse jsonUnmarshal gojqRun
          yamlUnmarshal jsonMarshalYaml jsonMarshal).
Abbreviation marshalValue :=
  (marshalFiltered Other YamlMap yamlUnmarshal jsonMarshalYaml jsonMarshal).
Abbreviation fetchOne :=
  (fetchPath IgnFile IgnRest McRest ParseAndConvertConfig jsonMarshalIgn
             Query JsonObject Other YamlMap gojqParse jsonUnmarshal gojqRun
             yamlUnmarshal jsonMarshalYaml jsonMarshal streamDispatcher rfClients fuel).
Abbreviation fetchFrom :=
  (fetchLoop IgnFile IgnRest McRest ParseAndConvertConfig jsonMarshalIgn
             Query JsonObject Other YamlMap gojqParse jsonUnmarshal gojqRun
             yamlUnmarshal jsonMarshalYaml jsonMarshal streamDispatcher rfClients fuel).
Abbreviation fetchAll :=
  (fetch IgnFile IgnRest McRest ParseAndConvertConfig jsonMarshalIgn
         Query JsonObject Other YamlMap gojqParse jsonUnmarshal gojqRun
         yamlUnmarshal jsonMarshalYaml jsonMarshal streamDispatcher rfClients fuel).
Abbreviation goesOn :=
  (goesOnWith IgnFile IgnRest McRest ParseAndConvertConfig jsonMarshalIgn
              Query JsonObject Other YamlMap gojqParse jsonUnmarshal gojqRun
              yamlUnmarshal jsonMarshalYaml jsonMarshal streamDispatcher rfClients fuel).

Lemma fetchPath_stream_error (rpath : ResourcePath) (st : fetchState) (err : error) :
  stream (streamDispatcher (ObjPath rpath)) fuel rfClients = Some (inr err) ->
  fetchOne rpath st
  = if nonFatal err
    then Some ({| results := if IsNotFound err
                             then <[DumpPath rpath := "# kube-api-error=" +:+ ReasonForError err]>
                                    (results st)
                             else results st;
                  warnings := if SuppressWarning rpath then warnings st
                              else warnings st ++ ["could not fetch " +:+ ObjPath rpath
                                                   +:+ ": " +:+ Error err] |}, None)
    else Some (st, Some (Errorf_w "streaming URIs failed: " err)).
Proof.
  intros H. unfold fetchPath, nonFatal. rewrite H.
  destruct (IsNoMatchError err || IsForbidden err || IsNotFound err); [|done].
  by destruct (SuppressWarning rpath).
Qed.

(** A turn only appends to the warnings, and it writes under the dump
    path of its path only. *)
Lemma fetchPath_frame (rpath : ResourcePath) (st st' : fetchState) (oerr : option error) :
  fetchOne rpath st = Some (st', oerr) ->
  warnings st `prefix_of` warnings st'
  /\ forall k, k <> DumpPath rpath -> results st' !! k = results st !! k.
Proof.
  unfold fetchPath.
  destruct (stream _ _ _) as [[[body|e]|e]|]; [| | |done].
  - destruct (String.length body =? 0)%nat; [by intros [= <- <-]|].
    destruct (negb _).
    + destruct (filterBody _ _) as [fb [ferr|]].
      * destruct (Is ferr MoreThanOneObjErr); [|destruct (Is ferr NullValErr)];
          intros [= <- <-]; simpl;
          (split; [first [done | by eexists]
                  |intros k Hk; by rewrite ?lookup_insert_ne]).
      * intros [= <- <-]. simpl. split; [done|].
        intros k Hk. by rewrite lookup_insert_ne.
    + intros [= <- <-]. simpl. split; [done|].
      intros k Hk. by rewrite lookup_insert_ne.
  - by intros [= <- <-].
  - destruct (_ || _); [|by intros [= <- <-]].
    intros [= <- <-]. simpl. split.
    + destruct (negb _); [by eexists|done].
    + intros k Hk. destruct (IsNotFound e); [|done]. by rewrite lookup_insert_ne.
Qed.

(** So does the loop: what [fetch] returns holds the warnings it had,
    and under a key that is no dump path of the plan what it had. *)
Lemma fetchLoop_frame (objects : list ResourcePath) (st : fetchState) (r : fetchResult) :
  fetchFrom objects st = Some r ->
  warnings st `prefix_of` fetchWarnings r
  /\ forall m, found r = Some m ->
               forall k, k ∉ map DumpPath objects -> m !! k = results st !! k.
Proof.
  revert st. induction objects as [|p objects IH]; intros st; simpl.
  - intros [= <-]. simpl. split; [done|]. by intros m [= <-].
  - destruct (fetchOne p st) as [[st' [e|]]|] eqn:E; [| |done].
    + intros [= <-]. simpl. split; [|done]. by apply fetchPath_frame in E as [? _].
    + intros Hr. apply fetchPath_frame in E as [Hw Hk].
      apply IH in Hr as [Hw' Hk']. split; [by etrans|].
      intros m Hm k Hnot. apply not_elem_of_cons in Hnot as [Hne Hnot].
      rewrite (Hk' m Hm k Hnot). by apply Hk.
Qed.

(** The turns of the paths that follow start from what the turns
    before them left. *)
Lemma fetchLoop_app (before after : list ResourcePath) (st : fetchState)
      (m : gmap string string) (w : list string) :
  fetchFrom before st
  = Some {| found := Some m; fetchWarnings := w; fetchErr := None |} ->
  fetchFrom (before ++ after) st = fetchFrom after {| results := m; warnings := w |}.
Proof.
  revert st. induction before as [|p before IH]; intros st; simpl.
  - intros [= <- <-]. by destruct st.
  - destruct (fetchOne p st) as [[st' [e|]]|]; [done| |done]. apply IH.
Qed.

(** Whether a turn ends in an error, and in which, does not depend on
    what the turns before it left. *)
Lemma fetchPath_error_of_path (rpath : ResourcePath) (st1 st1' st2 : fetchState)
      (oerr : option error) :
  fetchOne rpath st1 = Some (st1', oerr) ->
  exists st2', fetchOne rpath st2 = Some (st2', oerr).
Proof.
  unfold fetchPath.
  destruct (stream _ _ _) as [[[body|e]|e]|]; [| | |done].
  - destruct (String.length body =? 0)%nat; [intros [= <- <-]; by eexists|].
    destruct (negb _); [|intros [= <- <-]; by eexists].
    destruct (filterBody _ _) as [fb [ferr|]]; [|intros [= <- <-]; by eexists].
    destruct (Is ferr MoreThanOneObjErr); [|destruct (Is ferr NullValErr)];
      intros [= <- <-]; by eexists.
  - intros [= <- <-]. by eexists.
  - destruct (_ || _); intros [= <- <-]; by eexists.
Qed.

Lemma fetchLoop_error_of_plan (objects : list ResourcePath) (st1 st2 : fetchState)
      (r : fetchResult) :
  fetchFrom objects st1 = Some r ->
  exists r', fetchFrom objects st2 = Some r' /\ fetchErr r' = fetchErr r.
Proof.
  revert st1 st2. induction objects as [|p objects IH]; intros st1 st2; simpl.
  - intros [= <-]. by eexists.
  - destruct (fetchOne p st1) as [[st1' oerr]|] eqn:E; [|done].
    destruct (fetchPath_error_of_path p st1 st1' st2 oerr E) as [st2' ->].
    destruct oerr as [e|].
    + intros [= <-]. by eexists.
    + apply IH.
Qed.

(** A turn that ends without an error, after the turns of [before]. *)
Lemma fetch_turn (before : list ResourcePath) (rpath : ResourcePath)
      (m : gmap string string) (w : list string) (st' : fetchState) :
  fetchAll before = Some {| found := Some m; fetchWarnings := w; fetchErr := None |} ->
  fetchOne rpath {| results := m; warnings := w |} = Some (st', None) ->
  goesOn before rpath (results st') (warnings st').
Proof.
  intros Hb Hp.
  assert (Hgo : forall after, fetchAll (before ++ rpath :: after) = fetchFrom after st').
  { intros after. unfold fetch. rewrite (fetchLoop_app _ _ _ m w Hb). simpl.
    by rewrite Hp. }
  assert (Hst : {| results := results st'; warnings := warnings st' |} = st')
    by by destruct st'.
  unfold goesOnWith. rewrite Hst.
  split; [by rewrite Hgo|]. split; [exact Hgo|]. split.
  - intros after r Hr. rewrite Hgo in Hr. by apply fetchLoop_frame in Hr.
  - intros after r Hr. rewrite Hgo. unfold fetch in Hr.
    rewrite (fetchLoop_app _ _ _ m w Hb) in Hr.
    by eapply fetchLoop_error_of_plan.
Qed.

(** A turn that ends in an error, after the turns of [before], ends
    the fetch of every plan that goes on from there in that error. *)
Lemma fetch_turn_error (before after : list ResourcePath) (rpath : ResourcePath)
      (m : gmap string string) (w : list string) (st' : fetchState) (e : error) :
  fetchAll before = Some {| found := Some m; fetchWarnings := w; fetchErr := None |} ->
  fetchOne rpath {| results := m; warnings := w |} = Some (st', Some e) ->
  fetchAll (before ++ rpath :: after)
  = Some {| found := None; fetchWarnings := warnings st'; fetchErr := Some e |}.
Proof.
  intros Hb Hp. unfold fetch. rewrite (fetchLoop_app _ _ _ m w Hb). simpl.
  by rewrite Hp.
Qed.

(** A turn that ends in an error ends the whole fetch in that error. *)
Lemma fetchLoop_error (objects : list ResourcePath) (rpath : ResourcePath)
      (st : fetchState) (r : fetchResult) :
  rpath ∈ objects ->
  (forall st, exists err, fetchOne rpath st = Some (st, Some err)) ->
  fetchFrom objects st = Some r ->
  found r = None /\ exists err, fetchErr r = Some err.
Proof.
  intros Hin Hfatal. revert st.
  induction objects as [|p objects IH]; intros st Hr; [by apply elem_of_nil in Hin|].
  simpl in Hr.
  destruct (fetchOne p st) as [[st' [e|]]|] eqn:E; [| |done].
  - injection Hr as <-. simpl. eauto.
  - apply elem_of_cons in Hin as [->|Hin]; [|by eapply IH].
    destruct (Hfatal st) as [err Herr]. congruence.
Qed.

(** A plan whose every path fails with a non-fatal streaming error is
    fetched without an error, and a placeholder that is stored stays. *)
Lemma fetchLoop_non_fatal (objects : list ResourcePath) (st : fetchState) :
  Forall (fun rpath => exists err,
              stream (streamDispatcher (ObjPath rpath)) fuel rfClients = Some (inr err)
              /\ nonFatal err = true) objects ->
  exists m w,
    fetchFrom objects st
    = Some {| found := Some m; fetchWarnings := w; fetchErr := None |}
    /\ forall k, results st !! k = Some "# kube-api-error=NotFound" ->
                 m !! k = Some "# kube-api-error=NotFound".
Proof.
  revert st. induction objects as [|p objects IH]; intros st Hall; simpl.
  - eauto.
  - apply Forall_cons in Hall as [(err & Hs & Hnf) Hall].
    rewrite (fetchPath_stream_error p st err Hs), Hnf.
    match goal with |- context [fetchFrom objects ?s] =>
      destruct (IH s Hall) as (m & w & Hm & Hkeep) end.
    exists m, w. split; [exact Hm|]. intros k Hk. apply Hkeep. simpl.
    destruct (IsNotFound err) eqn:E; [|done].
    rewrite (IsNotFound_reason err E).
    destruct (decide (k = DumpPath p)) as [->|Hne].
    + by rewrite lookup_insert_eq.
    + by rewrite lookup_insert_ne.
Qed.

(** Wrapping an error that is passed over leaves it one. *)
Lemma nonFatal_wrapped (pre : string) (err : error) :
  nonFatal err = true -> nonFatal (Errorf_w pre err) = true.
Proof. done. Qed.

(** C5. When streaming a planned path fails with NotFound, Forbidden
    or a no-match error, after the paths before it were fetched, the
    path does not make the fetch fail: the fetch of the plan that ends
    with the path returns no error, the map it had with, for NotFound
    and only then, the placeholder stored under the dump path, and the
    warnings it had with, unless the path suppresses warnings, the
    warning about the path appended; the rest of a longer plan is
    fetched from there, so whatever that fetch returns holds these
    warnings and, in its map, these entries under every key that is no
    dump path of a later path, and it returns an error only when the
    plan without the path does; and when every later path fails in
    this way too, the fetch returns a map with the placeholder and no
    error.  Any other streaming error makes the fetch return that
    error, wrapped, no map and the warnings recorded so far; and every
    fetch whose plan holds the path returns an error. *)
Theorem stream_errors (before : list ResourcePath) (rpath : ResourcePath) (err : error)
        (m : gmap string string) (w : list string) :
  stream (streamDispatcher (ObjPath rpath)) fuel rfClients = Some (inr err) ->
  fetchAll before = Some {| found := Some m; fetchWarnings := w; fetchErr := None |} ->
  (nonFatal err = true ->
   let m' := if IsNotFound err
             then <[DumpPath rpath := "# kube-api-error=NotFound"]> m else m in
   let w' := if SuppressWarning rpath then w
             else w ++ ["could not fetch " +:+ ObjPath rpath +:+ ": " +:+ Error err] in
   goesOn before rpath m' w'
   /\ (forall after,
          Forall (fun p => exists e,
                      stream (streamDispatcher (ObjPath p)) fuel rfClients = Some (inr e)
                      /\ nonFatal e = true) after ->
          exists found' w'',
            fetchAll (before ++ rpath :: after)
            = Some {| found := Some found'; fetchWarnings := w''; fetchErr := None |}
            /\ w' `prefix_of` w''
            /\ (IsNotFound err = true ->
                found' !! DumpPath rpath = Some "# kube-api-error=NotFound")))
  /\ (nonFatal err = false ->
      (forall after,
          fetchAll (before ++ rpath :: after)
          = Some {| found := None; fetchWarnings := w;
                    fetchErr := Some (Errorf_w "streaming URIs failed: " err) |})
      /\ (forall objects r, rpath ∈ objects -> fetchAll objects = Some r ->
                            found r = None /\ exists e, fetchErr r = Some e)).
Proof.
  intros Hs Hb. split; intros Hnf.
  - intros m' w'.
    pose proof (fetchPath_stream_error rpath {| results := m; warnings := w |} err Hs)
      as Hp.
    rewrite Hnf in Hp. cbn [results warnings] in Hp.
    assert (Hm' : (if IsNotFound err
                   then <[DumpPath rpath := "# kube-api-error=" +:+ ReasonForError err]> m
                   else m) = m').
    { unfold m'. destruct (IsNotFound err) eqn:E; [|done].
      by rewrite (IsNotFound_reason err E). }
    rewrite Hm' in Hp. fold w' in Hp.
    pose proof (fetch_turn before rpath m w _ Hb Hp) as Hturn.
    cbn [results warnings] in Hturn.
    split; [exact Hturn|].
    destruct Hturn as (_ & Hgo & Hlater & _).
    intros after Hall.
    destruct (fetchLoop_non_fatal after {| results := m'; warnings := w' |} Hall)
      as (found' & w'' & Hr & Hkeep).
    exists found', w''. rewrite Hgo. split; [exact Hr|].
    rewrite <- Hgo in Hr. apply Hlater in Hr as [Hw _]. split; [exact Hw|].
    intros Hnot. apply Hkeep. simpl. unfold m'. rewrite Hnot.
    by rewrite lookup_insert_eq.
  - assert (Hp : forall st, fetchOne rpath st
                            = Some (st, Some (Errorf_w "streaming URIs failed: " err))).
    { intros st. rewrite (fetchPath_stream_error rpath st err Hs). by rewrite Hnf. }
    split.
    + intros after.
      exact (fetch_turn_error before after rpath m w _ _ Hb (Hp _)).
    + intros objects r Hin Hr. eapply fetchLoop_error; [exact Hin| |exact Hr].
      intros st. eexists. apply Hp.
Qed.


Lemma eqb_empty_false (s : string) : s <> "" -> String.eqb s "" = false.
Proof. intros H. by apply String.eqb_neq. Qed.



Abbreviation stripped := (strippedOf IgnFile IgnRest McRest ParseAndConvertConfig
                                     jsonMarshalIgn).
Abbreviation filterItems := (filterMcItems IgnFile IgnRest McRest ParseAndConvertConfig
                                           jsonMarshalIgn).
Abbreviation pagesLoop := (mcStreamLoop IgnFile IgnRest McRest ParseAndConvertConfig
                                        jsonMarshalIgn).

(** [filterMcList] succeeds exactly on lists whose payloads parse and
    serialize, and then strips every item, in order. *)
Lemma filterMcItems_inl (items out out' : list (MachineConfig McRest)) :
  filterItems items out = inl out' ->
  exists items', Forall2 stripped items items' /\ out' = out ++ items'.
Proof.
  revert out. induction items as [|mc items IH]; intros out H; simpl in H.
  - injection H as <-. exists []. split; [constructor|by rewrite app_nil_r].
  - destruct (0 <? String.length (ConfigRaw mc))%nat eqn:Eraw.
    + destruct (ParseAndConvertConfig (ConfigRaw mc)) as [ign|] eqn:Eparse; [|done].
      destruct (jsonMarshalIgn _) as [raw|] eqn:Eraw'; [|done].
      apply IH in H as (items' & Hall & ->).
      eexists (_ :: items'). rewrite <- app_assoc. split; [|done].
      constructor; [|done]. unfold strippedOf. rewrite Eraw. simpl.
      split; [done|]. split; [done|]. by exists ign.
    + apply IH in H as (items' & Hall & ->).
      exists (mc :: items'). rewrite <- app_assoc. split; [|done].
      constructor; [|done]. unfold strippedOf. by rewrite Eraw.
Qed.

Lemma filterMcItems_stripped (items items' out : list (MachineConfig McRest)) :
  Forall2 stripped items items' -> filterItems items out = inl (out ++ items').
Proof.
  intros Hall. revert out.
  induction Hall as [|mc mc' items items' (Hn & Hr & Hraw) Hall IH]; intros out; simpl.
  - by rewrite app_nil_r.
  - destruct (0 <? String.length (ConfigRaw mc))%nat.
    + destruct Hraw as (ign & -> & ->). rewrite IH, <- app_assoc.
      destruct mc'; simpl in *. by subst.
    + rewrite IH, <- app_assoc. destruct mc, mc'; simpl in *. by subst.
Qed.

Lemma listOpts_continue (token : string) :
  (if negb (String.eqb token "")
   then {| Limit := Limit {| Limit := pageSize; Continue := "" |}; Continue := token |}
   else {| Limit := pageSize; Continue := "" |})
  = {| Limit := 5; Continue := token |}.
Proof. by destruct (String.eqb_spec token "") as [->|]. Qed.

(** The loop takes the pages the server hands out, in order, and stops
    after the page with the empty token. *)
Lemma mcStreamLoop_served (rf : resourceFetcherClients McRest)
      (pages : list (MachineConfigList McRest)) :
  forall (n : nat) (token : string) (acc items' : list (MachineConfig McRest)),
    servedFrom McRest rf token pages ->
    Forall2 stripped (itemsOf McRest pages) items' ->
    length pages <= n ->
    pagesLoop rf n token acc = Some (inl (acc ++ items')).
Proof.
  induction pages as [|page rest IH]; intros n token acc items' Hserved Hall Hn;
    [done|].
  destruct n as [|n]; [simpl in Hn; lia|].
  destruct Hserved as [Hlist Hrest].
  unfold itemsOf in Hall. simpl in Hall.
  apply Forall2_app_inv_l in Hall as (batch & later & Hbatch & Hlater & ->).
  simpl. rewrite listOpts_continue, Hlist.
  unfold filterMcList. rewrite (filterMcItems_stripped _ _ [] Hbatch). simpl.
  destruct rest as [|next rest].
  - rewrite Hrest. simpl. inversion Hlater; subst. by rewrite app_nil_r.
  - destruct Hrest as [Hne Hserved].
    rewrite (eqb_empty_false _ Hne).
    rewrite (IH n (ListMetaContinue page) (acc ++ batch) later Hserved Hlater)
      by (simpl in *; lia).
    by rewrite <- app_assoc.
Qed.

Lemma mcStreamLoop_inl (rf : resourceFetcherClients McRest) :
  forall (n : nat) (token : string) (acc items : list (MachineConfig McRest)),
    pagesLoop rf n token acc = Some (inl items) ->
    exists pages items',
      servedFrom McRest rf token pages /\ length pages <= n
      /\ Forall2 stripped (itemsOf McRest pages) items' /\ items = acc ++ items'.
Proof.
  induction n as [|n IH]; intros token acc items H; [done|].
  simpl in H. rewrite listOpts_continue in H.
  destruct (clientListMachineConfigs rf _) as [page|] eqn:Hlist; [|done].
  unfold filterMcList in H.
  destruct (filterItems (Items page) []) as [batch|] eqn:Hbatch; [|done].
  apply filterMcItems_inl in Hbatch as (batch' & Hall & ->). simpl in H.
  destruct (String.eqb_spec (ListMetaContinue page) "") as [Hlast|Hmore].
  - injection H as <-. exists [page], batch'.
    split; [done|]. split; [simpl; lia|]. split; [|done].
    unfold itemsOf. simpl. by rewrite app_nil_r.
  - apply IH in H as (pages & later & Hserved & Hlen & Hlater & ->).
    exists (page :: pages), (batch' ++ later).
    split; [|split; [simpl; lia|split]].
    + split; [done|]. destruct pages; [done|]. by split.
    + unfold itemsOf. simpl. by apply Forall2_app.
    + by rewrite <- app_assoc.
Qed.

(** C7. Exactly the MachineConfig list URI is dispatched to the
    MachineConfig streamer, every other URI to a plain streaming GET of
    that URI.  What the MachineConfig streamer returns is the
    serialization of the items of the pages the server hands out for
    limit 5, from the empty continue token up to the first page with an
    empty token, every item with a non-empty Ignition payload carrying
    that payload without its storage files and every other item
    unchanged; and when the server hands out such pages whose payloads
    parse, the streamer returns after the last page. *)
Theorem machine_configs_streamed (rf : resourceFetcherClients McRest) :
  (forall uri, getStreamerFn uri = mcStreamer <-> uri = machineConfigsURI)
  /\ (forall uri n, uri <> machineConfigsURI ->
                    getStreamerFn uri = uriStreamer uri
                    /\ stream (getStreamerFn uri) n rf = Some (restGetStream rf uri))
  /\ (forall n buf,
         stream (getStreamerFn machineConfigsURI) n rf = Some (inl (inl buf)) ->
         exists pages items',
           servedFrom McRest rf "" pages
           /\ Forall2 stripped (itemsOf McRest pages) items'
           /\ schemeEncode rf (listOf McRest items') = inl buf)
  /\ (forall pages items' n,
         servedFrom McRest rf "" pages ->
         Forall2 stripped (itemsOf McRest pages) items' ->
         length pages <= n ->
         stream (getStreamerFn machineConfigsURI) n rf
         = Some (match schemeEncode rf (listOf McRest items') with
                 | inl buf => inl (inl buf)
                 | inr err => inr (Errorf_w "failed to serialize MC list: " err)
                 end)).
Proof.
  split; [|split; [|split]].
  - intros uri. unfold getStreamerFn.
    destruct (String.eqb_spec uri machineConfigsURI); split; done.
  - intros uri n Hne. unfold getStreamerFn.
    by destruct (String.eqb_spec uri machineConfigsURI).
  - intros n buf. change (getStreamerFn machineConfigsURI) with mcStreamer.
    unfold Stream.
    destruct (pagesLoop rf n "" []) as [[items|]|] eqn:Hloop; [|done|done].
    apply mcStreamLoop_inl in Hloop as (pages & items' & Hs & _ & Hall & ->).
    simpl. destruct (schemeEncode rf _) as [b|] eqn:Henc; [|done].
    intros [= <-]. by exists pages, items'.
  - intros pages items' n Hs Hall Hn.
    change (getStreamerFn machineConfigsURI) with mcStreamer. unfold Stream.
    rewrite (mcStreamLoop_served rf pages n "" [] items' Hs Hall Hn). simpl.
    unfold listOf. by destruct (schemeEncode rf _).
Qed.

End Collector.

(** The MachineConfig kind is not served and the OAuth object is not
    there: both are passed over, with a warning each and the placeholder
    for the OAuth object. *)
Lemma stream_errors_witness :
  fetch unit unit unit (fun _ => inr (ErrorString "no ignition"))
        (fun _ => inr (ErrorString "no ignition"))
        unit unit unit unit (fun _ => inl tt) (fun _ => inl tt) (fun _ _ => [])
        (fun _ => inl tt) (fun _ => inl "{}") (fun _ => inl "null")
        getStreamerFn clientsWithoutMachineConfigs 1 ([machineConfigsPath] ++ [oauthPath])
  = Some {| found := Some {[ "/apis/config.openshift.io/v1/oauths/cluster"
                             := "# kube-api-error=NotFound" ]};
            fetchWarnings :=
              ["could not fetch /apis/machineconfiguration.openshift.io/v1/machineconfigs: "
               +:+ "failed to list MachineConfigs: no matches for kind MachineConfig "
               +:+ "in version machineconfiguration.openshift.io/v1"]
              ++ ["could not fetch /apis/config.openshift.io/v1/oauths/cluster: "
                  +:+ "the server could not find the requested resource"];
            fetchErr := None |}.
Proof.
  exact (proj1 (proj1 (proj1 (stream_errors unit unit unit
           (fun _ => inr (ErrorString "no ignition"))
           (fun _ => inr (ErrorString "no ignition"))
           unit unit unit unit (fun _ => inl tt) (fun _ => inl tt) (fun _ _ => [])
           (fun _ => inl tt) (fun _ => inl "{}") (fun _ => inl "null")
           getStreamerFn clientsWithoutMachineConfigs 1
           [machineConfigsPath] oauthPath notFound ∅
           ["could not fetch /apis/machineconfiguration.openshift.io/v1/machineconfigs: "
            +:+ "failed to list MachineConfigs: no matches for kind MachineConfig "
            +:+ "in version machineconfiguration.openshift.io/v1"]
           eq_refl eq_refl) eq_refl))).
Defined.



Lemma machine_configs_streamed_witness :
  Stream string string unit parseSample marshalIgnSample
         (getStreamerFn machineConfigsURI) 2 clientsTwoPages
  = Some (inl (inl "00-master=a;01-empty=;99-worker=b;")).
Proof.
  rewrite (proj2 (proj2 (proj2
             (machine_configs_streamed string string unit parseSample marshalIgnSample
                                       clientsTwoPages)))
             [firstPage; lastPage]
             [mc "00-master" "a"; mc "01-empty" ""; mc "99-worker" "b"] 2).
  - reflexivity.
  - simpl. split; [reflexivity|]. split; [discriminate|]. split; reflexivity.
  - unfold itemsOf. simpl.
    repeat (apply Forall2_cons; split); try apply Forall2_nil.
    all: unfold strippedOf; simpl; repeat split; eauto.
  - simpl. lia.
Defined.

Example two_pages_streamed :
  Stream string string unit parseSample marshalIgnSample
         (getStreamerFn "/apis/machineconfiguration.openshift.io/v1/machineconfigs")
         2 clientsTwoPages
  = Some (inl (inl "00-master=a;01-empty=;99-worker=b;")).
Proof. reflexivity. Qed.

Example one_turn_is_not_enough :
  Stream string string unit parseSample marshalIgnSample mcStreamer 1 clientsTwoPages = None.
Proof. reflexivity. Qed.

End FetcherFacts.

(** ** The tailoring compiler *)

Module XccdfFacts.
Import Arf Xccdf SpecWords Samples.

Lemma appendSelections_Some (rules : gmap string Rule) (todo : list RuleReferenceSpec)
      (enable : bool) (acc out : list SelectElement) :
  appendSelections rules todo enable acc = Some out ->
  exists ids, resolves rules todo ids
              /\ out = acc ++ map (fun id => {| SelectIDRef := id; Selected := enable |}) ids.
Proof.
  revert acc. induction todo as [|sel todo IH]; intros acc H; simpl in H.
  - injection H as <-. exists []. split; [constructor|by rewrite app_nil_r].
  - destruct (rules !! refName sel) as [r|] eqn:Er; [|done]. simpl in H.
    apply IH in H as (ids & Hall & ->).
    exists (ruleID r :: ids). split; [constructor; eauto|].
    by rewrite <- app_assoc.
Qed.

Lemma appendSelections_is_Some (rules : gmap string Rule) (todo : list RuleReferenceSpec)
      (enable : bool) (acc : list SelectElement) :
  is_Some (appendSelections rules todo enable acc)
  <-> forall sel, sel ∈ todo -> is_Some (rules !! refName sel).
Proof.
  revert acc. induction todo as [|sel todo IH]; intros acc; simpl.
  - split; [|by eauto]. intros _ sel Hin. by apply elem_of_nil in Hin.
  - destruct (rules !! refName sel) as [r|] eqn:Er; simpl.
    + rewrite IH. split.
      * intros H sel' [->|Hin]%elem_of_cons; [by rewrite Er|by apply H].
      * intros H sel' Hin. apply H. by right.
    + split; [by intros [? ?]|].
      intros H. specialize (H sel ltac:(by left)). rewrite Er in H. by destruct H.
Qed.

Lemma getValuesFromVariables_map (variables : list Variable_) :
  getValuesFromVariables variables
  = map (fun v => {| SetValueIDRef := varID v; SetValue := varValue v |}) variables.
Proof.
  unfold getValuesFromVariables.
  assert (G : forall acc,
             fold_left (fun values varObj =>
                          values ++ [{| SetValueIDRef := varID varObj;
                                        SetValue := varValue varObj |}]) variables acc
             = acc ++ map (fun v => {| SetValueIDRef := varID v; SetValue := varValue v |})
                          variables).
  { induction variables as [|v variables IH]; intros acc; simpl.
    - by rewrite app_nil_r.
    - by rewrite IH, <- app_assoc. }
  apply G.
Qed.

Lemma getSelections_Some (tp : TailoredProfile) (rules : gmap string Rule)
      (sels : list SelectElement) :
  getSelections tp rules = Some sels ->
  exists enabled disabled manual,
    resolves rules (EnableRules tp) enabled
    /\ resolves rules (DisableRules tp) disabled
    /\ resolves rules (ManualRules tp) manual
    /\ map marshalSelect sels
       = map (selectNode true) enabled ++ map (selectNode false) disabled
         ++ map (selectNode true) manual.
Proof.
  unfold getSelections. intros H.
  destruct (appendSelections rules (EnableRules tp) true []) as [s1|] eqn:E1; [|done].
  simpl in H.
  destruct (appendSelections rules (DisableRules tp) false s1) as [s2|] eqn:E2; [|done].
  simpl in H.
  apply appendSelections_Some in E1 as (enabled & H1 & ->).
  apply appendSelections_Some in E2 as (disabled & H2 & ->).
  apply appendSelections_Some in H as (manual & H3 & ->).
  exists enabled, disabled, manual. repeat (split; [done|]).
  rewrite !map_app, !map_map. simpl. by rewrite <- app_assoc.
Qed.

Lemma getSelections_is_Some (tp : TailoredProfile) (rules : gmap string Rule) :
  is_Some (getSelections tp rules)
  <-> forall sel, sel ∈ EnableRules tp ++ DisableRules tp ++ ManualRules tp ->
                  is_Some (rules !! refName sel).
Proof.
  unfold getSelections.
  pose proof (appendSelections_is_Some rules (EnableRules tp) true []) as H1.
  destruct (appendSelections rules (EnableRules tp) true []) as [s1|]; simpl.
  - pose proof (appendSelections_is_Some rules (DisableRules tp) false s1) as H2.
    destruct (appendSelections rules (DisableRules tp) false s1) as [s2|]; simpl.
    + rewrite appendSelections_is_Some. split.
      * intros H3 sel [Hin|[Hin|Hin]%elem_of_app]%elem_of_app.
        -- by apply H1.
        -- by apply H2.
        -- by apply H3.
      * intros H sel Hin. apply H. apply elem_of_app. right. apply elem_of_app. by right.
    + split; [by intros [? ?]|]. intros H. apply H2.
      intros sel Hin. apply H. apply elem_of_app. right. apply elem_of_app. by left.
  - split; [by intros [? ?]|]. intros H. apply H1.
    intros sel Hin. apply H. apply elem_of_app. by left.
Qed.

Section Compiler.
Variable now : string.
Variable filepathJoin : string -> string -> string.

Abbreviation toXML := (TailoredProfileToXML now filepathJoin).

(** C8, as amended. The compiler returns a document exactly when the
    bundle is given and every selected rule is among the rules.  The
    root of the document is the Tailoring element with the XCCDF 1.2
    namespace and the id of the tailored profile; its children are the
    benchmark, the version and one Profile with the profile id of the
    tailored profile, whose extends attribute is the id of the base
    profile when a base profile with a non-empty id is given and is
    absent otherwise; the children of the Profile are the title and the
    description, where the tailored profile has them, then one select
    with selected=true per enableRules entry, one with selected=false
    per disableRules entry, one with selected=true per manualRules
    entry, each with the id of the rule the entry names, and then one
    set-value per variable. *)
Theorem tailoring_document (tp : TailoredProfile) (p : option BaseProfile)
        (pb : option ProfileBundle) (rules : gmap string Rule)
        (variables : list Variable_) :
  (is_Some (toXML tp p pb rules variables)
   <-> is_Some pb
       /\ forall sel, sel ∈ EnableRules tp ++ DisableRules tp ++ ManualRules tp ->
                      is_Some (rules !! refName sel))
  /\ forall doc,
      toXML tp p pb rules variables = Some doc ->
      exists benchmark version enabled disabled manual,
        Header doc = XMLHeader
        /\ isElementNamed "xccdf-1.2:benchmark" benchmark = true
        /\ isElementNamed "xccdf-1.2:version" version = true
        /\ resolves rules (EnableRules tp) enabled
        /\ resolves rules (DisableRules tp) disabled
        /\ resolves rules (ManualRules tp) manual
        /\ Root doc
           = Element "xccdf-1.2:Tailoring"
               [("xmlns:xccdf-1.2", "http://checklists.nist.gov/xccdf/1.2");
                ("id", "xccdf_compliance.openshift.io_tailoring_" +:+ tpName tp)]
               [benchmark; version;
                Element "xccdf-1.2:Profile"
                  (("id", "xccdf_compliance.openshift.io_profile_" +:+ tpName tp)
                     :: match p with
                        | Some base => if String.eqb (baseID base) "" then []
                                       else [("extends", baseID base)]
                        | None => []
                        end)
                  (overrideNode "xccdf-1.2:title" (SpecTitle tp)
                   ++ overrideNode "xccdf-1.2:description" (SpecDescription tp)
                   ++ map (selectNode true) enabled
                   ++ map (selectNode false) disabled
                   ++ map (selectNode true) manual
                   ++ map setValueNode variables)].
Proof.
  split.
  - unfold TailoredProfileToXML. destruct pb as [b|]; simpl.
    + rewrite <- getSelections_is_Some.
      destruct (getSelections tp rules); simpl.
      * split; eauto.
      * split; [by intros [? ?] | by intros [_ [? ?]]].
    + split; [by intros [? ?]|]. by intros [[? ?] _].
  - intros doc H. unfold TailoredProfileToXML in H.
    destruct pb as [b|]; [|done]. simpl in H.
    destruct (getSelections tp rules) as [sels|] eqn:Esel; [|done]. simpl in H.
    apply getSelections_Some in Esel as (enabled & disabled & manual & H1 & H2 & H3 & Hmap).
    injection H as <-.
    exists (marshalBenchmark {| Href := filepathJoin "/content" (ContentFile b) |}),
           (marshalVersion {| Time := now; VersionValue := "1" |}),
           enabled, disabled, manual.
    split; [reflexivity|]. split; [reflexivity|]. split; [reflexivity|].
    repeat (split; [done|]).
    assert (Hvals : map marshalSetValue (getValuesFromVariables variables)
                    = map setValueNode variables).
    { rewrite getValuesFromVariables_map, map_map. reflexivity. }
    unfold marshalTailoring, marshalProfile, attrOmitEmpty, overrideNode,
      marshalTitleOrDescription, chardata.
    destruct p as [base|];
      destruct (String.eqb (SpecTitle tp) "") eqn:Et;
      destruct (String.eqb (SpecDescription tp) "") eqn:Ed;
      cbn -[String.eqb getValuesFromVariables].
    all: rewrite ?Et, ?Ed, Hvals, Hmap, <- ?app_assoc.
    all: try destruct (String.eqb (baseID base) ""); reflexivity.
Qed.

End Compiler.

(** C8 as stated fails: a base profile is given, its id is the empty
    string, and the Profile has no extends attribute at all. *)
Lemma extends_absent_for_empty_base_id :
  exists doc profile,
    TailoredProfileToXML "2024-05-01T10:00:00Z" joinWithSlash tpSample
                         (Some baseWithoutID) (Some bundleSample)
                         rulesSample variablesSample = Some doc
    /\ profileOf (Root doc) = Some profile
    /\ attrOf profile "extends" = None
    /\ attrOf profile "extends" <> Some (baseID baseWithoutID).
Proof.
  eexists _, _. split; [by vm_compute|]. split; [reflexivity|]. split; [reflexivity|done].
Qed.

Lemma tailoring_document_witness :
  exists doc benchmark version,
    TailoredProfileToXML "2024-05-01T10:00:00Z" joinWithSlash tpSample
                         (Some baseSample) (Some bundleSample)
                         rulesSample variablesSample = Some doc
    /\ Root doc
       = Element "xccdf-1.2:Tailoring"
           [("xmlns:xccdf-1.2", "http://checklists.nist.gov/xccdf/1.2");
            ("id", "xccdf_compliance.openshift.io_tailoring_my-tp")]
           [benchmark; version;
            Element "xccdf-1.2:Profile"
              [("id", "xccdf_compliance.openshift.io_profile_my-tp");
               ("extends", "xccdf_org.ssgproject.content_profile_cis")]
              [Element "xccdf-1.2:title" [("override", "true")] [Text "My profile"];
               selectNode true "xccdf_org.ssgproject.content_rule_a";
               selectNode false "xccdf_org.ssgproject.content_rule_b";
               Element "xccdf-1.2:set-value"
                       [("idref", "xccdf_org.ssgproject.content_value_v")] [Text "42"]]].
Proof.
  assert (Hsome : is_Some (TailoredProfileToXML "2024-05-01T10:00:00Z" joinWithSlash
                             tpSample (Some baseSample) (Some bundleSample)
                             rulesSample variablesSample)).
  { vm_compute. by eexists. }
  destruct Hsome as [doc Hdoc].
  destruct (proj2 (tailoring_document "2024-05-01T10:00:00Z" joinWithSlash tpSample
                     (Some baseSample) (Some bundleSample) rulesSample variablesSample)
                  doc Hdoc)
    as (benchmark & version & enabled & disabled & manual & _ & _ & _ & He & Hd & Hm & Hroot).
  apply Forall2_cons_inv_l in He as (ida & ra & (r & Hr & <-) & ->%Forall2_nil_inv_l & ->).
  apply Forall2_cons_inv_l in Hd as (idb & rb & (r' & Hr' & <-) & ->%Forall2_nil_inv_l & ->).
  apply Forall2_nil_inv_l in Hm as ->.
  vm_compute in Hr. injection Hr as <-.
  vm_compute in Hr'. injection Hr' as <-.
  exists doc, benchmark, version. split; [exact Hdoc|]. rewrite Hroot. reflexivity.
Defined.

End XccdfFacts.

(** * Further properties of the modelled code *)

Module RuleMetadataMore.
Import GoStrings RuleMetadata CacheWords CacheSamples.
Import RuleMetadataFacts.

Lemma hasCustomKey_spec (m : GoMap.t) :
  hasCustomKey m = false <-> onlyOperatorKeys m.
Proof.
  unfold hasCustomKey, onlyOperatorKeys, GoMap.get. split.
  - intros H k Hk. destruct (GoMap.entries m !! k) as [v|] eqn:E; [|done].
    destruct (IsOperatorManagedKey k) eqn:Ek; [done|].
    assert (Hin : In (k, v) (map_to_list (GoMap.entries m))).
    { apply list_elem_of_In, elem_of_map_to_list, E. }
    assert (Ht : existsb (fun kv : string * string => negb (IsOperatorManagedKey kv.1))
                         (map_to_list (GoMap.entries m)) = true).
    { apply existsb_exists. exists (k, v). split; [done|]. simpl. by rewrite Ek. }
    congruence.
  - intros H. apply not_true_is_false. intros Ht.
    apply existsb_exists in Ht as [[k v] [Hin Hk]]. simpl in Hk.
    apply list_elem_of_In, elem_of_map_to_list in Hin.
    rewrite (H k) in Hk; [done|]. by rewrite Hin.
Qed.

Lemma gomap_ext (x y : GoMap.t) :
  x <> Some ∅ -> y <> Some ∅ ->
  (forall k, GoMap.get x k = GoMap.get y k) -> x = y.
Proof.
  unfold GoMap.get. intros Hx Hy H. destruct x as [a|], y as [b|]; simpl in H.
  - f_equal. by apply map_eq.
  - exfalso. apply Hx. f_equal. apply map_eq. intros k. by rewrite H.
  - exfalso. apply Hy. f_equal. apply map_eq. intros k. by rewrite <- H.
  - done.
Qed.

Section Range.
Variable range : GoMap.RangeOrder.
Hypothesis range_enumerates : GoMap.enumerates range.

Lemma filterCustomKeys_entries (m : GoMap.t) :
  GoMap.entries (filterCustomKeys range m)
  = filter (fun kv : string * string => IsOperatorManagedKey kv.1 = false)
           (GoMap.entries m).
Proof.
  apply map_eq. intros k.
  pose proof (filterCustomKeys_get range range_enumerates m k) as Hg.
  unfold GoMap.get in Hg. rewrite Hg.
  destruct (IsOperatorManagedKey k) eqn:Ek.
  - symmetry. apply map_lookup_filter_None. right. intros v _. simpl. congruence.
  - destruct (GoMap.entries m !! k) as [v|] eqn:E.
    + symmetry. by apply map_lookup_filter_Some.
    + symmetry. apply map_lookup_filter_None. by left.
Qed.

Lemma filterCustomKeys_not_empty (m : GoMap.t) :
  filterCustomKeys range m <> Some ∅.
Proof.
  unfold filterCustomKeys. destruct (GoMap.len m =? 0)%nat; [done|].
  match goal with |- context [Nat.eqb (size ?r) 0] => set (res := r) end.
  destruct (Nat.eqb_spec (size res) 0) as [Hs|Hs]; [done|].
  intros [= He]. rewrite He in Hs. by rewrite map_size_empty in Hs.
Qed.

Lemma filterCustomKeys_None (m : GoMap.t) :
  filterCustomKeys range m = None <-> onlyOperatorKeys m.
Proof.
  split.
  - intros Hn k Hk.
    pose proof (filterCustomKeys_get range range_enumerates m k) as Hg.
    rewrite Hn in Hg. unfold GoMap.get at 1 in Hg. simpl in Hg.
    rewrite lookup_empty in Hg.
    destruct (IsOperatorManagedKey k); [done|]. congruence.
  - intros Hop. destruct (filterCustomKeys range m) as [r|] eqn:E; [|done].
    exfalso. apply (filterCustomKeys_not_empty m). rewrite E. f_equal.
    apply map_eq. intros k. rewrite lookup_empty.
    pose proof (filterCustomKeys_get range range_enumerates m k) as Hg.
    rewrite E in Hg. unfold GoMap.get at 1 in Hg. simpl in Hg. rewrite Hg.
    destruct (IsOperatorManagedKey k) eqn:Ek; [done|].
    destruct (GoMap.get m k) eqn:Em; [|done].
    rewrite (Hop k) in Ek; [done|]. by rewrite Em.
Qed.

(** X1. For every map and every iteration order, [filterCustomKeys]
    never returns an empty map: it returns nil exactly when no key of
    the map is a custom one, and otherwise a map that holds exactly
    the entries of the input whose key has no operator prefix. *)
Theorem custom_keys_exactly (m : GoMap.t) :
  filterCustomKeys range m <> Some ∅
  /\ (filterCustomKeys range m = None <-> onlyOperatorKeys m)
  /\ GoMap.entries (filterCustomKeys range m)
     = filter (fun kv : string * string => IsOperatorManagedKey kv.1 = false)
              (GoMap.entries m).
Proof.
  split; [apply filterCustomKeys_not_empty|].
  split; [apply filterCustomKeys_None|apply filterCustomKeys_entries].
Qed.

Lemma mergeIfNotExists_union (dst src : GoMap.t) :
  mergeIfNotExists range dst src
  = if (GoMap.len src =? 0)%nat then dst
    else Some (GoMap.entries dst ∪ GoMap.entries src).
Proof.
  pose proof (fun k => mergeIfNotExists_get range range_enumerates dst src k) as Hg.
  unfold mergeIfNotExists in *. destruct (GoMap.len src =? 0)%nat; [done|].
  f_equal. apply map_eq. intros k. specialize (Hg k). unfold GoMap.get in Hg.
  simpl in Hg. rewrite Hg. rewrite lookup_union.
  destruct (GoMap.entries dst !! k), (GoMap.entries src !! k); done.
Qed.

(** X2. For every iteration order, [mergeIfNotExists] returns the
    target itself, nil included, when the source is nil or empty;
    otherwise it returns a non-nil map that is the union of the two
    in which the target's entries win.  Merging the same source a
    second time changes nothing. *)
Theorem merge_is_target_biased_union (dst src : GoMap.t) :
  mergeIfNotExists range dst src
  = (if (GoMap.len src =? 0)%nat then dst
     else Some (GoMap.entries dst ∪ GoMap.entries src))
  /\ mergeIfNotExists range (mergeIfNotExists range dst src) src
     = mergeIfNotExists range dst src.
Proof.
  split; [apply mergeIfNotExists_union|].
  rewrite !mergeIfNotExists_union.
  destruct (GoMap.len src =? 0)%nat; [done|].
  f_equal. simpl. rewrite <- (assoc_L (∪)). by rewrite map_union_idemp.
Qed.

(** X3. Round trip: when every key of the target is operator-managed,
    the custom metadata of a Rule that was merged into the target is
    read back from the merged map by [filterCustomKeys] unchanged. *)
Theorem custom_metadata_round_trip (target rule : GoMap.t) :
  onlyOperatorKeys target ->
  filterCustomKeys range
    (mergeIfNotExists range target (filterCustomKeys range rule))
  = filterCustomKeys range rule.
Proof.
  intros Hop. apply gomap_ext; try apply filterCustomKeys_not_empty.
  intros k.
  rewrite !(filterCustomKeys_get range range_enumerates),
          (mergeIfNotExists_get range range_enumerates),
          (filterCustomKeys_get range range_enumerates).
  destruct (IsOperatorManagedKey k) eqn:Ek; [done|].
  destruct (GoMap.get target k) eqn:Et; [|done].
  rewrite (Hop k) in Ek; [done|]. by rewrite Et.
Qed.

Lemma len_custom_pos (m : GoMap.t) :
  (0 <? GoMap.len (filterCustomKeys range m))%nat = hasCustomKey m.
Proof.
  destruct (hasCustomKey m) eqn:Eh.
  - apply Nat.ltb_lt. destruct (filterCustomKeys range m) as [r|] eqn:E.
    + unfold GoMap.len. simpl.
      destruct (decide (size r = 0)) as [Hs|Hs]; [|lia].
      apply map_size_empty_inv in Hs. subst r.
      by destruct (filterCustomKeys_not_empty m).
    + apply filterCustomKeys_None, hasCustomKey_spec in E. congruence.
  - apply hasCustomKey_spec, filterCustomKeys_None in Eh. by rewrite Eh.
Qed.

Lemma cache_loop_lookup (name : string) (ruleList : list Rule)
      (acc : RuleMetadataCache) :
  let cache := fold_left
    (fun cache rule =>
       let ruleAnnotationVal := GoMap.getOrZero (Annotations rule) RuleIDAnnotationKey in
       if String.eqb ruleAnnotationVal "" then cache
       else
         let '(cl, ca) := GetCustomMetadata range (Labels rule) (Annotations rule) in
         if (0 <? GoMap.len cl)%nat || (0 <? GoMap.len ca)%nat
         then {| customLabels := <[ruleAnnotationVal := cl]> (customLabels cache);
                 customAnnotations := <[ruleAnnotationVal := ca]> (customAnnotations cache) |}
         else cache) ruleList acc in
  (customLabels cache !! name, customAnnotations cache !! name)
  = match lastIndexedAs name ruleList with
    | Some rule => (Some (filterCustomKeys range (Labels rule)),
                    Some (filterCustomKeys range (Annotations rule)))
    | None => (customLabels acc !! name, customAnnotations acc !! name)
    end.
Proof.
  revert acc. unfold lastIndexedAs.
  induction ruleList as [|rule l IH]; intros acc; [done|].
  cbn [fold_left List.filter]. cbv zeta in IH. cbv zeta. rewrite IH. clear IH.
  unfold GetCustomMetadata, indexedAs at 2. rewrite !len_custom_pos.
  set (val := GoMap.getOrZero (Annotations rule) RuleIDAnnotationKey).
  set (custom := hasCustomKey (Labels rule) || hasCustomKey (Annotations rule)).
  destruct (String.eqb_spec val name) as [Hv|Hv].
  - destruct (String.eqb_spec name "") as [Hn|Hn]; simpl.
    { rewrite Hv. destruct (String.eqb_spec name ""); [done|done]. }
    destruct custom; simpl.
    + rewrite last_cons. destruct (last _); [done|].
      rewrite Hv. destruct (String.eqb_spec name ""); [done|].
      by cbn [customLabels customAnnotations]; rewrite !lookup_insert_eq.
    + destruct (last _); [done|]. by destruct (String.eqb val "").
  - rewrite andb_false_r. simpl. destruct (last _); [done|].
    destruct (String.eqb val ""); [done|]. destruct custom; [|done].
    by cbn [customLabels customAnnotations]; rewrite !lookup_insert_ne.
Qed.

(** X4. For every list of Rule objects and every name, the cache built
    from the list hands out the custom labels and annotations of the
    last Rule that is annotated with that non-empty name and carries a
    custom label or annotation; where there is no such Rule, and on
    the nil cache, it hands out two nil maps. *)
Theorem cache_lookup (ruleList : list Rule) (name : string) :
  GetCustomMetadataForRule (Some (NewRuleMetadataCache range ruleList)) name
  = match lastIndexedAs name ruleList with
    | Some rule => GetCustomMetadata range (Labels rule) (Annotations rule)
    | None => (None, None)
    end
  /\ GetCustomMetadataForRule None name = (None, None).
Proof.
  split; [|done]. unfold GetCustomMetadataForRule, NewRuleMetadataCache.
  match goal with
  | |- (default None (customLabels ?c !! _), _) = _ => set (cache := c)
  end.
  assert (H : (customLabels cache !! name, customAnnotations cache !! name)
              = match lastIndexedAs name ruleList with
                | Some rule => (Some (filterCustomKeys range (Labels rule)),
                                Some (filterCustomKeys range (Annotations rule)))
                | None => (None, None)
                end).
  { pose proof (cache_loop_lookup name ruleList
                    {| customLabels := ∅; customAnnotations := ∅ |}) as H.
    cbn [customLabels customAnnotations] in H. rewrite !lookup_empty in H.
    exact H. }
  destruct (lastIndexedAs name ruleList); injection H as H1 H2;
    unfold GetCustomMetadata;
    exact (f_equal2 pair (f_equal (default None) H1) (f_equal (default None) H2)).
Qed.

End Range.

Lemma custom_keys_exactly_witness :
  filterCustomKeys map_to_list operatorOnlyTarget = None
  /\ GoMap.get (filterCustomKeys map_to_list ruleLabelsWithCustom) "weakness_score"
     = Some "9.5".
Proof.
  destruct (custom_keys_exactly map_to_list (fun m => reflexivity _) operatorOnlyTarget)
    as (_ & Hnil & _).
  destruct (custom_keys_exactly map_to_list (fun m => reflexivity _) ruleLabelsWithCustom)
    as (_ & _ & Hentries).
  split.
  - apply Hnil. intros k Hk. unfold GoMap.get, operatorOnlyTarget in Hk. simpl in Hk.
    destruct (decide (k = "compliance.openshift.io/scan-name")) as [->|N1]; [reflexivity|].
    destruct (decide (k = "compliance.openshift.io/check-status")) as [->|N2];
      [reflexivity|].
    exfalso. apply Hk.
    rewrite lookup_insert_ne by done. rewrite lookup_insert_ne by done. apply lookup_empty.
  - unfold GoMap.get. rewrite Hentries. reflexivity.
Defined.

Lemma merge_is_target_biased_union_witness :
  mergeIfNotExists map_to_list None ruleLabelsWithCustom = ruleLabelsWithCustom
  /\ mergeIfNotExists map_to_list operatorOnlyTarget None = operatorOnlyTarget.
Proof.
  split.
  - rewrite (proj1 (merge_is_target_biased_union map_to_list (fun m => reflexivity _)
                      None ruleLabelsWithCustom)).
    reflexivity.
  - rewrite (proj1 (merge_is_target_biased_union map_to_list (fun m => reflexivity _)
                      operatorOnlyTarget None)).
    reflexivity.
Defined.

Lemma cache_lookup_witness :
  GetCustomMetadataForRule
    (Some (NewRuleMetadataCache map_to_list [annotatedRule "9.5"; annotatedRule "7.0"]))
    "ocp4-api-server-audit"
  = GetCustomMetadata map_to_list (Labels (annotatedRule "7.0"))
                      (Annotations (annotatedRule "7.0")).
Proof.
  rewrite (proj1 (cache_lookup map_to_list (fun m => reflexivity _)
                    [annotatedRule "9.5"; annotatedRule "7.0"] "ocp4-api-server-audit")).
  reflexivity.
Defined.

Lemma custom_metadata_round_trip_witness :
  filterCustomKeys map_to_list
    (mergeIfNotExists map_to_list operatorOnlyTarget
       (filterCustomKeys map_to_list ruleLabelsWithCustom))
  = filterCustomKeys map_to_list ruleLabelsWithCustom.
Proof.
  apply (custom_metadata_round_trip map_to_list (fun m => reflexivity _)).
  intros k Hk. unfold GoMap.get, operatorOnlyTarget in Hk. simpl in Hk.
  destruct (decide (k = "compliance.openshift.io/scan-name")) as [->|N1]; [reflexivity|].
  destruct (decide (k = "compliance.openshift.io/check-status")) as [->|N2]; [reflexivity|].
  exfalso. apply Hk.
  rewrite lookup_insert_ne by done. rewrite lookup_insert_ne by done. apply lookup_empty.
Defined.

End RuleMetadataMore.

Module CelScannerMore.
Import GoStrings GoErrors CelScanner ScanWords.
Import CelScannerFacts.

(** X5. The exit code of a scan is decided by the last result that is
    Fail or Error: 2 when that result is Fail, -1 when it is Error, and
    0 when no result is Fail or Error. *)
Theorem exit_code_of_last_decisive (results : list CheckResult) :
  exitCodeOf results
  = match lastDecisive results with
    | None => 0%Z
    | Some r => if decide (Status r = CheckResultFail) then 2%Z else (-1)%Z
    end.
Proof.
  unfold lastDecisive.
  induction results as [|r results IH] using rev_ind; [done|].
  rewrite exitCodeOf_snoc, List.filter_app. cbn [List.filter].
  unfold exitCodeStep, decisive at 2.
  destruct (decide (Status r = CheckResultFail)) as [Hf|Hf].
  { rewrite bool_decide_true by done. cbn [orb]. rewrite last_snoc.
    by destruct (decide (Status r = CheckResultFail)). }
  rewrite (bool_decide_false _ Hf). cbn [orb].
  destruct (decide (Status r = CheckResultError)) as [He|He].
  { rewrite bool_decide_true by done. rewrite last_snoc.
    by destruct (decide (Status r = CheckResultFail)). }
  rewrite (bool_decide_false _ He), app_nil_r. exact IH.
Qed.

Section Cluster.
Variables CustomRuleSpec VariableSpec : Type.
Variable getCustomRuleObject : string -> string -> CustomRuleSpec + error.
Variable getVariableObject : string -> string -> (VariableSpec * string) + error.

Lemma existsb_name_in {A : Type} (f : A -> string) (l : list A) (n : string) :
  existsb (fun x => String.eqb (f x) n) l = true <-> n ∈ map f l.
Proof.
  rewrite existsb_exists, list_elem_of_fmap. split.
  - intros (x & Hin & Hx). apply String.eqb_eq in Hx.
    exists x. split; [done|]. by apply list_elem_of_In.
  - intros (x & -> & Hin). exists x. split; [by apply list_elem_of_In|].
    apply String.eqb_refl.
Qed.

Lemma selectRules_iff (namespace : string) (todo : list RuleReferenceSpec)
      (selected rules : list (CustomRule CustomRuleSpec)) :
  selectRules CustomRuleSpec getCustomRuleObject namespace todo selected = inl rules
  <-> exists news,
      rules = selected ++ news
      /\ Forall2 (fetchedRule CustomRuleSpec getCustomRuleObject namespace) todo news
      /\ NoDup (map refName todo)
      /\ forall n, n ∈ map refName todo -> n ∉ map (crName CustomRuleSpec) selected.
Proof.
  revert selected. induction todo as [|sel todo IH]; intros selected; simpl.
  - split.
    + intros [= <-]. exists []. rewrite app_nil_r.
      repeat split; [constructor|constructor|]. intros n Hn. by apply elem_of_nil in Hn.
    + intros (news & -> & HF & _). apply Forall2_nil_inv_l in HF as ->.
      by rewrite app_nil_r.
  - destruct (existsb _ selected) eqn:Ex.
    { split; [done|]. intros (news & _ & _ & _ & Hfresh).
      apply existsb_name_in in Ex. destruct (Hfresh (refName sel)); [by left|done]. }
    assert (Hnew : refName sel ∉ map (crName CustomRuleSpec) selected).
    { intros Hin. apply existsb_name_in in Hin. congruence. }
    destruct (getCustomRuleObject namespace (refName sel)) as [spec|err] eqn:Eg.
    2:{ split; [done|]. intros (news & _ & HF & _).
        apply Forall2_cons_inv_l in HF as (rule & ? & (_ & _ & Hget) & _ & _).
        congruence. }
    rewrite IH. split.
    + intros (news & -> & HF & Hnd & Hfresh).
      exists ({| crName := refName sel; crNamespace := namespace; crSpec := spec |}
              :: news).
      split; [by rewrite <- app_assoc|]. split; [by constructor|]. split.
      * apply NoDup_cons. split; [|done]. intros Hin.
        apply (Hfresh _ Hin). rewrite map_app. apply elem_of_app. right. by left.
      * intros n [->|Hin]%elem_of_cons; [done|]. intros Hs.
        apply (Hfresh _ Hin). rewrite map_app. apply elem_of_app. by left.
    + intros (news & -> & HF & Hnd & Hfresh).
      apply Forall2_cons_inv_l in HF as (rule & news' & (Hn & Hns & Hget) & HF & ->).
      apply NoDup_cons in Hnd as [Hnot Hnd].
      assert (rule = {| crName := refName sel; crNamespace := namespace;
                        crSpec := spec |}) as ->.
      { destruct rule as [n ns sp]. simpl in *. congruence. }
      exists news'. split; [by rewrite <- app_assoc|]. split; [done|]. split; [done|].
      intros n Hin. rewrite map_app. intros [Hs|Hs]%elem_of_app.
      * apply (Hfresh n); [by right|done].
      * simpl in Hs. apply list_elem_of_singleton in Hs as ->. done.
Qed.

(** X6. [getSelectedCustomRules] returns rules exactly when no name
    occurs twice among the enabled, disabled and manual rules of the
    tailored profile and every one of them can be fetched; it then
    returns the fetched rules, the disabled ones included, in the
    order enabled, disabled, manual. *)
Theorem selected_rules_exactly (tp : TailoredProfile)
        (rules : list (CustomRule CustomRuleSpec)) :
  getSelectedCustomRules CustomRuleSpec getCustomRuleObject tp = inl rules
  <-> NoDup (map refName (EnableRules tp ++ DisableRules tp ++ ManualRules tp))
      /\ Forall2 (fetchedRule CustomRuleSpec getCustomRuleObject (tpNamespace tp))
                 (EnableRules tp ++ DisableRules tp ++ ManualRules tp) rules.
Proof.
  unfold getSelectedCustomRules, selections. rewrite selectRules_iff. split.
  - intros (news & -> & HF & Hnd & _). done.
  - intros [Hnd HF]. exists rules. repeat split; try done.
    intros n _ Hin. by apply elem_of_nil in Hin.
Qed.

Lemma setVariables_iff (namespace : string) (todo : list VariableValueSpec)
      (setVars vars : list (Variable_ VariableSpec)) :
  setVariables VariableSpec getVariableObject namespace todo setVars = inl vars
  <-> exists news,
      vars = setVars ++ news
      /\ Forall2 (fetchedVariable VariableSpec getVariableObject namespace) todo news
      /\ NoDup (map valName todo)
      /\ forall n, n ∈ map valName todo -> n ∉ map (varName VariableSpec) setVars.
Proof.
  revert setVars. induction todo as [|sVar todo IH]; intros setVars; simpl.
  - split.
    + intros [= <-]. exists []. rewrite app_nil_r.
      repeat split; [constructor|constructor|]. intros n Hn. by apply elem_of_nil in Hn.
    + intros (news & -> & HF & _). apply Forall2_nil_inv_l in HF as ->.
      by rewrite app_nil_r.
  - destruct (existsb _ setVars) eqn:Ex.
    { split; [done|]. intros (news & _ & _ & _ & Hfresh).
      apply existsb_name_in in Ex. destruct (Hfresh (valName sVar)); [by left|done]. }
    assert (Hnew : valName sVar ∉ map (varName VariableSpec) setVars).
    { intros Hin. apply existsb_name_in in Hin. congruence. }
    destruct (getVariableObject namespace (valName sVar)) as [[spec own]|err] eqn:Eg.
    2:{ split; [done|]. intros (news & _ & HF & _).
        apply Forall2_cons_inv_l in HF as (v & ? & (_ & _ & _ & own & Hget) & _ & _).
        congruence. }
    rewrite IH. split.
    + intros (news & -> & HF & Hnd & Hfresh).
      exists ({| varName := valName sVar; varNamespace := namespace; varSpec := spec;
                 varValue := valValue sVar |} :: news).
      split; [by rewrite <- app_assoc|]. split.
      { constructor; [|done]. repeat split. by exists own. }
      split.
      * apply NoDup_cons. split; [|done]. intros Hin.
        apply (Hfresh _ Hin). rewrite map_app. apply elem_of_app. right. by left.
      * intros n [->|Hin]%elem_of_cons; [done|]. intros Hs.
        apply (Hfresh _ Hin). rewrite map_app. apply elem_of_app. by left.
    + intros (news & -> & HF & Hnd & Hfresh).
      apply Forall2_cons_inv_l in HF
        as (v & news' & (Hn & Hns & Hval & own' & Hget) & HF & ->).
      apply NoDup_cons in Hnd as [Hnot Hnd].
      assert (v = {| varName := valName sVar; varNamespace := namespace;
                     varSpec := spec; varValue := valValue sVar |}) as ->.
      { destruct v as [n ns sp va]. simpl in *. congruence. }
      exists news'. split; [by rewrite <- app_assoc|]. split; [done|]. split; [done|].
      intros n Hin. rewrite map_app. intros [Hs|Hs]%elem_of_app.
      * apply (Hfresh n); [by right|done].
      * simpl in Hs. apply list_elem_of_singleton in Hs as ->. done.
Qed.

(** X7. [getSetVariables] returns variables exactly when no name
    occurs twice among the values the tailored profile sets and every
    named Variable can be fetched; each returned variable is the
    fetched one with the value of the tailored profile in place of
    its own, in the order of the settings. *)
Theorem set_variables_exactly (tp : TailoredProfile)
        (vars : list (Variable_ VariableSpec)) :
  getSetVariables VariableSpec getVariableObject tp = inl vars
  <-> NoDup (map valName (SetValues tp))
      /\ Forall2 (fetchedVariable VariableSpec getVariableObject (tpNamespace tp))
                 (SetValues tp) vars.
Proof.
  unfold getSetVariables. rewrite setVariables_iff. split.
  - intros (news & -> & HF & Hnd & _). done.
  - intros [Hnd HF]. exists vars. repeat split; try done.
    intros n _ Hin. by apply elem_of_nil in Hin.
Qed.

End Cluster.

Section Labels.
Variables ComplianceScanLabel ComplianceCheckResultStatusLabel
          ComplianceCheckResultSeverityLabel
          ComplianceCheckResultRuleAnnotation : string.
Variable range : GoMap.RangeOrder.
Hypothesis range_enumerates : GoMap.enumerates range.

Lemma copy_loop_lookup (l : list (string * string)) (labels : gmap string string)
      (k : string) :
  NoDup l.*1 ->
  fold_left (fun (labels : gmap string string) '(k, v) => <[k := v]> labels) l labels !! k
  = match (list_to_map l : gmap string string) !! k with
    | Some v => Some v
    | None => labels !! k
    end.
Proof.
  revert labels. induction l as [|[k' v'] l IH]; intros labels Hnd; simpl.
  - by rewrite lookup_empty.
  - apply NoDup_cons in Hnd as [Hk' Hnd]. simpl in Hk'. rewrite IH by done.
    destruct (decide (k' = k)) as [->|Hne].
    + rewrite (not_elem_of_list_to_map_1 _ _ Hk'). by rewrite !lookup_insert_eq.
    + by rewrite !lookup_insert_ne.
Qed.

Lemma copyInto_union (labels : gmap string string) (src : GoMap.t) :
  copyInto range labels src = GoMap.entries src ∪ labels.
Proof.
  apply map_eq. intros k. rewrite lookup_union. unfold copyInto.
  destruct src as [m|]; simpl.
  - destruct (RuleMetadataFacts.enumerates_list_to_map range m range_enumerates)
      as [Hnd Hl].
    rewrite copy_loop_lookup by done. rewrite Hl.
    by destruct (m !! k), (labels !! k).
  - rewrite lookup_empty. by destruct (labels !! k).
Qed.

(** X8. For every iteration order, the labels built for a check
    result are the labels the result already carries, completed by
    the scan, status and severity labels where the result has no
    label of that key: a label on the result wins over the label the
    scanner computes.  The annotations are built the same way around
    the rule annotation, which carries the name of the result. *)
Theorem result_labels_win (result : ComplianceCheckResult) (scanName : string) :
  getCheckResultLabels ComplianceScanLabel ComplianceCheckResultStatusLabel
                       ComplianceCheckResultSeverityLabel range result scanName
  = GoMap.entries (ccrLabels result)
    ∪ <[ComplianceCheckResultSeverityLabel := ccrSeverity result]>
        (<[ComplianceCheckResultStatusLabel := ccrStatus result]>
           (<[ComplianceScanLabel := scanName]> ∅))
  /\ getCheckResultAnnotations ComplianceCheckResultRuleAnnotation range result
     = GoMap.entries (ccrAnnotations result)
       ∪ <[ComplianceCheckResultRuleAnnotation := ccrName result]> ∅.
Proof.
  unfold getCheckResultLabels, getCheckResultAnnotations.
  by rewrite !copyInto_union.
Qed.

End Labels.

Lemma result_labels_win_witness :
  getCheckResultLabels "compliance.openshift.io/scan-name"
                       "compliance.openshift.io/check-status"
                       "compliance.openshift.io/check-severity"
                       map_to_list Samples.resultWithStatusLabel "scan"
  !! "compliance.openshift.io/check-status" = Some "PASS".
Proof.
  rewrite (proj1 (result_labels_win "compliance.openshift.io/scan-name"
                    "compliance.openshift.io/check-status"
                    "compliance.openshift.io/check-severity"
                    "compliance.openshift.io/rule"
                    map_to_list (fun m => reflexivity _)
                    Samples.resultWithStatusLabel "scan")).
  reflexivity.
Defined.

End CelScannerMore.

Module FetcherMore.
Import GoStrings GoErrors Fetcher FetchWords Samples.

Section Collector.
Variables IgnFile IgnRest McRest : Type.
Variable ParseAndConvertConfig : string -> IgnConfig IgnFile IgnRest + error.
Variable jsonMarshalIgn : IgnConfig IgnFile IgnRest -> string + error.
Variables Query JsonObject Other YamlMap : Type.
Variable gojqParse : string -> Query + error.
Variable jsonUnmarshal : string -> JsonObject + error.
Variable gojqRun : Query -> JsonObject -> list (jqItem (jqValue Other)).
Variable yamlUnmarshal : string -> YamlMap + error.
Variable jsonMarshalYaml : YamlMap -> string + error.
Variable jsonMarshal : jqValue Other -> string + error.
Variable streamDispatcher : string -> resourceStreamer.
Variable rfClients : resourceFetcherClients McRest.
Variable fuel : nat.

Abbreviation fetchOne :=
  (fetchPath IgnFile IgnRest McRest ParseAndConvertConfig jsonMarshalIgn
             Query JsonObject Other YamlMap gojqParse jsonUnmarshal gojqRun
             yamlUnmarshal jsonMarshalYaml jsonMarshal streamDispatcher rfClients fuel).
Abbreviation fetchFrom :=
  (fetchLoop IgnFile IgnRest McRest ParseAndConvertConfig jsonMarshalIgn
             Query JsonObject Other YamlMap gojqParse jsonUnmarshal gojqRun
             yamlUnmarshal jsonMarshalYaml jsonMarshal streamDispatcher rfClients fuel).
Abbreviation fetchAll :=
  (fetch IgnFile IgnRest McRest ParseAndConvertConfig jsonMarshalIgn
         Query JsonObject Other YamlMap gojqParse jsonUnmarshal gojqRun
         yamlUnmarshal jsonMarshalYaml jsonMarshal streamDispatcher rfClients fuel).
Abbreviation content :=
  (contentOf IgnFile IgnRest McRest ParseAndConvertConfig jsonMarshalIgn
             Query JsonObject Other YamlMap gojqParse jsonUnmarshal gojqRun
             yamlUnmarshal jsonMarshalYaml jsonMarshal streamDispatcher rfClients fuel).
Abbreviation warning :=
  (warningOf IgnFile IgnRest McRest ParseAndConvertConfig jsonMarshalIgn
             Query JsonObject Other YamlMap gojqParse jsonUnmarshal gojqRun
             yamlUnmarshal jsonMarshalYaml jsonMarshal streamDispatcher rfClients fuel).

Abbreviation streamedFor :=
  (streamed IgnFile IgnRest McRest ParseAndConvertConfig jsonMarshalIgn
            streamDispatcher rfClients fuel).
Abbreviation filterBody :=
  (filter Query JsonObject Other YamlMap gojqParse jsonUnmarshal gojqRun
          yamlUnmarshal jsonMarshalYaml jsonMarshal).

Lemma content_of_body (rpath : ResourcePath) (body : string) :
  streamedFor rpath = Some (inl (inl body)) -> body <> "" ->
  content rpath (if String.eqb (Filter rpath) "" then body
                 else (filterBody body (Filter rpath)).1).
Proof. intros Hs Hb. right. by exists body. Qed.

Lemma content_of_not_found (rpath : ResourcePath) (err : error) :
  streamedFor rpath = Some (inr err) -> IsNotFound err = true ->
  content rpath ("# kube-api-error=" +:+ ReasonForError err).
Proof. intros Hs Hn. left. by exists err. Qed.

Lemma warning_of_filter (rpath : ResourcePath) (body w : string) (ferr : error) :
  streamedFor rpath = Some (inl (inl body)) -> Filter rpath <> "" ->
  (filterBody body (Filter rpath)).2 = Some ferr ->
  (Is ferr MoreThanOneObjErr = true /\ w = Error ferr)
  \/ (Is ferr NullValErr = true
      /\ w = "couldn't filter '" +:+ body +:+ "': " +:+ Error ferr) ->
  warning rpath w.
Proof. intros Hs Hf Hferr Hw. right. split; [done|]. by exists body, ferr. Qed.

Lemma warning_of_stream_error (rpath : ResourcePath) (err : error) :
  streamedFor rpath = Some (inr err) -> SuppressWarning rpath = false ->
  (IsNoMatchError err || IsForbidden err || IsNotFound err) = true ->
  warning rpath ("could not fetch " +:+ ObjPath rpath +:+ ": " +:+ Error err).
Proof. intros Hs Hsw Hnf. left. split; [done|]. by exists err. Qed.

(** What one turn adds to the results and to the warnings. *)
Lemma fetchPath_adds (rpath : ResourcePath) (st st' : fetchState) (e : option error) :
  fetchOne rpath st = Some (st', e) ->
  (forall d b, results st' !! d = Some b ->
               results st !! d = Some b \/ (d = DumpPath rpath /\ content rpath b))
  /\ (forall w, w ∈ warnings st' -> w ∈ warnings st \/ warning rpath w).
Proof.
  pose proof (content_of_body rpath) as Hbody.
  pose proof (content_of_not_found rpath) as Hmissing.
  pose proof (warning_of_filter rpath) as Hwf.
  pose proof (warning_of_stream_error rpath) as Hws.
  unfold fetchPath. unfold streamed in Hbody, Hmissing, Hwf, Hws.
  destruct (Stream _ _ _ _ _ _ _ _) as [[[body|rerr]|err]|]; [| | |done].
  - specialize (Hbody body eq_refl). specialize (Hwf body).
    destruct (Nat.eqb_spec (String.length body) 0) as [H0|H0].
    { intros [= <- <-]. eauto. }
    assert (Hne : body <> "") by (by intros ->). specialize (Hbody Hne).
    destruct (String.eqb_spec (Filter rpath) "") as [Hf|Hf]; cbn [negb].
    + intros [= <- <-]. cbn [results warnings]. split; [|by eauto].
      intros d b [[-> <-]|[_ Hd]]%lookup_insert_Some; [|by left]. by right.
    + destruct (filterBody body (Filter rpath)) as [filteredBody [ferr|]] eqn:Ef;
        cbn [fst snd] in *.
      * assert (Hstored : forall d b,
                   <[DumpPath rpath := filteredBody]> (results st) !! d = Some b ->
                   results st !! d = Some b \/ (d = DumpPath rpath /\ content rpath b)).
        { intros d b [[-> <-]|[_ Hd]]%lookup_insert_Some; [|by left]. by right. }
        destruct (Is ferr MoreThanOneObjErr) eqn:E1.
        { intros [= <- <-]. cbn [results warnings]. split; [exact Hstored|].
          intros w [Hw|Hw%list_elem_of_singleton]%elem_of_app; [by left|].
          right. eapply Hwf; eauto. }
        destruct (Is ferr NullValErr) eqn:E2.
        { intros [= <- <-]. cbn [results warnings]. split; [exact Hstored|].
          intros w [Hw|Hw%list_elem_of_singleton]%elem_of_app; [by left|].
          right. eapply Hwf; eauto. }
        intros [= <- <-]. eauto.
      * intros [= <- <-]. cbn [results warnings]. split; [|by eauto].
        intros d b [[-> <-]|[_ Hd]]%lookup_insert_Some; [|by left]. by right.
  - intros [= <- <-]. eauto.
  - specialize (Hmissing err eq_refl). specialize (Hws err eq_refl).
    destruct (IsNoMatchError err || IsForbidden err || IsNotFound err) eqn:Enf.
    2:{ intros [= <- <-]. eauto. }
    intros [= <- <-]. cbn [results warnings]. split.
    + destruct (IsNotFound err) eqn:Ei; [|by eauto].
      intros d b [[-> <-]|[_ Hd]]%lookup_insert_Some; [|by left].
      right. eauto.
    + destruct (SuppressWarning rpath) eqn:Esw; cbn [negb]; [by eauto|].
      intros w [Hw|Hw%list_elem_of_singleton]%elem_of_app; [by left|].
      right. subst w. eauto.
Qed.

Lemma fetchLoop_adds (objects : list ResourcePath) (st : fetchState) (res : fetchResult) :
  fetchFrom objects st = Some res ->
  (forall m, found res = Some m ->
             fetchErr res = None
             /\ forall d b, m !! d = Some b ->
                            results st !! d = Some b
                            \/ exists rpath, rpath ∈ objects /\ DumpPath rpath = d
                                             /\ content rpath b)
  /\ (forall w, w ∈ fetchWarnings res ->
                w ∈ warnings st \/ exists rpath, rpath ∈ objects /\ warning rpath w).
Proof.
  revert st. induction objects as [|rpath objects IH]; intros st; simpl.
  - intros [= <-]. simpl. split; [|by eauto]. intros m [= <-]. eauto.
  - destruct (fetchOne rpath st) as [[st' [e|]]|] eqn:E; [| |done].
    + intros [= <-]. simpl. split; [done|].
      intros w Hw. apply (fetchPath_adds _ _ _ _ E) in Hw as [Hw|Hw]; [by left|].
      right. exists rpath. split; [by left|done].
    + intros Hres. destruct (IH _ Hres) as [Hm Hw].
      destruct (fetchPath_adds _ _ _ _ E) as [Hr1 Hw1]. split.
      * intros m Hfound. destruct (Hm m Hfound) as [He Hall]. split; [done|].
        intros d b Hd. destruct (Hall d b Hd) as [Hst'|(p & Hin & Hp)].
        -- destruct (Hr1 d b Hst') as [Hst|[-> Hc]]; [by left|].
           right. exists rpath. split; [by left|done].
        -- right. exists p. split; [by right|done].
      * intros w Hin. destruct (Hw w Hin) as [Hst'|(p & Hp & Hwp)].
        -- destruct (Hw1 w Hst') as [Hst|Hc]; [by left|].
           right. exists rpath. split; [by left|done].
        -- right. exists p. split; [by right|done].
Qed.

(** X9. When [fetch] returns a map, it returns no error, and every
    entry of the map is accounted for by a path of the plan: its key
    is the dump path of that path and its content is the placeholder
    of a NotFound object, the non-empty body streamed for the path,
    or that body as the filter of the path rewrites it.  Nothing is
    stored under any other key. *)
Theorem fetched_entries_come_from_the_plan (objects : list ResourcePath)
        (res : fetchResult) (m : gmap string string) :
  fetchAll objects = Some res ->
  found res = Some m ->
  fetchErr res = None
  /\ forall d b, m !! d = Some b ->
                 exists rpath, rpath ∈ objects /\ DumpPath rpath = d /\ content rpath b.
Proof.
  intros Hres Hm. destruct (fetchLoop_adds _ _ _ Hres) as [H _].
  destruct (H m Hm) as [He Hall]. split; [done|].
  intros d b Hd. destruct (Hall d b Hd) as [Hinit|Hp]; [|done].
  simpl in Hinit. by rewrite lookup_empty in Hinit.
Qed.

(** X10. Every warning [fetch] returns, with or without an error, is
    accounted for by a path of the plan: the object of the path could
    not be fetched for a NotFound, Forbidden or no-match error and
    the path does not suppress warnings, or the filter of the path
    gave more than one value or none.  A path that suppresses
    warnings never adds a warning about an object that could not be
    fetched. *)
Theorem fetch_warnings_come_from_the_plan (objects : list ResourcePath)
        (res : fetchResult) (w : string) :
  fetchAll objects = Some res ->
  w ∈ fetchWarnings res ->
  exists rpath, rpath ∈ objects /\ warning rpath w.
Proof.
  intros Hres Hw. destruct (fetchLoop_adds _ _ _ Hres) as [_ H].
  destruct (H w Hw) as [Hinit|Hp]; [|done].
  simpl in Hinit. by apply elem_of_nil in Hinit.
Qed.

End Collector.

Lemma fetched_entries_come_from_the_plan_witness :
  exists rpath,
    rpath ∈ [oauthPath; configMapPath]
    /\ DumpPath rpath = "/apis/config.openshift.io/v1/oauths/cluster"
    /\ contentOf unit unit unit (fun _ => inr (ErrorString "no ignition"))
                 (fun _ => inr (ErrorString "no ignition"))
                 unit unit string unit (fun _ => inl tt) (fun _ => inl tt) runYieldsTwo
                 noYaml (fun _ => inl "{}") marshalSample
                 getStreamerFn clientsWithoutOAuth 1 rpath "# kube-api-error=NotFound".
Proof.
  refine (proj2 (fetched_entries_come_from_the_plan unit unit unit
            (fun _ => inr (ErrorString "no ignition"))
            (fun _ => inr (ErrorString "no ignition"))
            unit unit string unit (fun _ => inl tt) (fun _ => inl tt) runYieldsTwo
            noYaml (fun _ => inl "{}") marshalSample
            getStreamerFn clientsWithoutOAuth 1 [oauthPath; configMapPath] _ _
            eq_refl eq_refl)
          "/apis/config.openshift.io/v1/oauths/cluster" "# kube-api-error=NotFound" _).
  vm_compute. reflexivity.
Defined.

Lemma fetch_warnings_come_from_the_plan_witness :
  exists rpath,
    rpath ∈ [oauthPath; configMapPath]
    /\ warningOf unit unit unit (fun _ => inr (ErrorString "no ignition"))
                 (fun _ => inr (ErrorString "no ignition"))
                 unit unit string unit (fun _ => inl tt) (fun _ => inl tt) runYieldsTwo
                 noYaml (fun _ => inl "{}") marshalSample
                 getStreamerFn clientsWithoutOAuth 1 rpath
                 ("Skipping extra results from filter '.data': "
                  +:+ "more than one object returned from the filter").
Proof.
  refine (fetch_warnings_come_from_the_plan unit unit unit
            (fun _ => inr (ErrorString "no ignition"))
            (fun _ => inr (ErrorString "no ignition"))
            unit unit string unit (fun _ => inl tt) (fun _ => inl tt) runYieldsTwo
            noYaml (fun _ => inl "{}") marshalSample
            getStreamerFn clientsWithoutOAuth 1 [oauthPath; configMapPath] _ _
            eq_refl _).
  vm_compute. apply list_elem_of_In. right. left. reflexivity.
Defined.

End FetcherMore.

Module GoStringsMoreFacts.
Import GoStrings GoStringsMore GoStringsFacts.

Lemma length_app (s t : string) :
  String.length (s +:+ t) = String.length s + String.length t.
Proof. induction s as [|c s IH]; [done|]. rewrite app_String. simpl. by rewrite IH. Qed.

Lemma drop_add (p s : string) (n : nat) :
  drop (String.length p + n) (p +:+ s) = drop n s.
Proof. induction p as [|c p IH]; [done|]. rewrite app_String. simpl. exact IH. Qed.

Lemma take_app (p s : string) : take (String.length p) (p +:+ s) = p.
Proof.
  induction p as [|c p IH]; [by destruct s|]. rewrite app_String. simpl. by rewrite IH.
Qed.

Lemma HasSuffix_app (s suf : string) : HasSuffix (s +:+ suf) suf = true.
Proof.
  unfold HasSuffix. rewrite length_app.
  replace (String.length s + String.length suf - String.length suf)
    with (String.length s) by lia.
  rewrite drop_app, String.eqb_refl, andb_true_r. apply Nat.leb_le. lia.
Qed.

(** [TrimSuffix] removes the suffix of a string that ends with it. *)
Lemma TrimSuffix_app (s suf : string) : TrimSuffix (s +:+ suf) suf = s.
Proof.
  unfold TrimSuffix. rewrite HasSuffix_app, length_app.
  replace (String.length s + String.length suf - String.length suf)
    with (String.length s) by lia.
  apply take_app.
Qed.

Lemma TrimSuffix_other (s suf : string) : HasSuffix s suf = false -> TrimSuffix s suf = s.
Proof. unfold TrimSuffix. by intros ->. Qed.

Lemma allBytes_drop (p : ascii -> bool) (n : nat) (s : string) :
  allBytes p s = true -> allBytes p (drop n s) = true.
Proof.
  revert s. induction n as [|n IH]; intros s H; [done|].
  destruct s as [|c s]; [done|]. simpl in *.
  apply andb_true_iff in H as [_ H]. by apply IH.
Qed.

Lemma allBytes_TrimPrefix (p : ascii -> bool) (s pre : string) :
  allBytes p s = true -> allBytes p (TrimPrefix s pre) = true.
Proof.
  intros H. unfold TrimPrefix. destruct (HasPrefix s pre); [|done].
  by apply allBytes_drop.
Qed.

Lemma allBytes_mapBytes (p : ascii -> bool) (f : ascii -> ascii) (s : string) :
  allBytes p (mapBytes f s) = allBytes (fun c => p (f c)) s.
Proof. induction s as [|c s IH]; [done|]. simpl. by rewrite IH. Qed.

Lemma anyByte_mapBytes (p : ascii -> bool) (f : ascii -> ascii) (s : string) :
  anyByte p (mapBytes f s) = anyByte (fun c => p (f c)) s.
Proof. induction s as [|c s IH]; [done|]. simpl. by rewrite IH. Qed.

Lemma allBytes_impl (p q : ascii -> bool) (s : string) :
  (forall c, p c = true -> q c = true) -> allBytes p s = true -> allBytes q s = true.
Proof.
  intros Hpq. induction s as [|c s IH]; [done|]. simpl.
  intros [H1 H2]%andb_true_iff. by rewrite (Hpq _ H1), IH.
Qed.

Lemma anyByte_false (p q : ascii -> bool) (s : string) :
  (forall c, q c = true -> p c = false) -> allBytes q s = true -> anyByte p s = false.
Proof.
  intros Hpq. induction s as [|c s IH]; [done|]. simpl.
  intros [H1 H2]%andb_true_iff. by rewrite (Hpq _ H1), IH.
Qed.

(** The byte that lower-casing and dashing leave for an ASCII byte. *)
Lemma lowered_dashed_byte (c : ascii) :
  isASCIIbyte c = true ->
  let c' := lowerByte (SpecWords.dashForUnderscore c) in
  isASCIIbyte c' = true /\ isUpperByte c' = false /\ Ascii.eqb "_"%char c' = false.
Proof.
  intros Hc. cbv zeta. unfold SpecWords.dashForUnderscore.
  destruct (Ascii.eqb_spec c "_"%char) as [->|Hne]; [by vm_compute|].
  unfold lowerByte. destruct (isUpperByte c) eqn:Eu.
  - unfold isUpperByte, isASCIIbyte, byte in *.
    apply andb_true_iff in Eu as [H1%Nat.leb_le H2%Nat.leb_le].
    assert (Hn : nat_of_ascii (ascii_of_nat (nat_of_ascii c + 32)) = nat_of_ascii c + 32)
      by (apply nat_ascii_embedding; lia).
    split; [rewrite Hn; apply Nat.ltb_lt; lia|]. split.
    + rewrite Hn. apply andb_false_iff. right. apply Nat.leb_gt. lia.
    + destruct (Ascii.eqb_spec "_"%char (ascii_of_nat (nat_of_ascii c + 32))) as [He|];
        [|done].
      apply (f_equal nat_of_ascii) in He. rewrite Hn in He.
      change (nat_of_ascii "_"%char) with 95 in He. lia.
  - split; [done|]. split; [done|].
    destruct (Ascii.eqb_spec "_"%char c) as [<-|]; [done|done].
Qed.

End GoStringsMoreFacts.

Module XccdfNamesFacts.
Import GoStrings GoStringsMore GoStringsFacts GoStringsMoreFacts XccdfNames NameWords.

Section Names.
Variable unicodeToLower : string -> string.
Variables trimFuncSpace trimRightFuncSpace : string -> string.

Lemma name_of_ascii_id (pre id : string) :
  allBytes isASCIIbyte id = true ->
  dnsFriendly (ToLower unicodeToLower (ReplaceAll (TrimPrefix id pre) "_" "-")) = true.
Proof.
  intros Hid. rewrite ReplaceAll_underscore.
  pose proof (allBytes_TrimPrefix _ id pre Hid) as Ht.
  set (t := TrimPrefix id pre) in *.
  assert (Hd : allBytes isASCIIbyte (mapBytes SpecWords.dashForUnderscore t) = true).
  { rewrite allBytes_mapBytes. eapply allBytes_impl; [|exact Ht].
    intros c Hc. unfold SpecWords.dashForUnderscore.
    by destruct (Ascii.eqb c "_"%char). }
  rewrite (ToLower_ascii _ _ Hd). unfold dnsFriendly.
  rewrite !allBytes_mapBytes, !anyByte_mapBytes.
  rewrite (allBytes_impl isASCIIbyte _ t
             (fun c Hc => proj1 (lowered_dashed_byte c Hc)) Ht).
  rewrite (anyByte_false _ isASCIIbyte t
             (fun c Hc => proj1 (proj2 (lowered_dashed_byte c Hc))) Ht).
  by rewrite (anyByte_false _ isASCIIbyte t
                (fun c Hc => proj2 (proj2 (lowered_dashed_byte c Hc))) Ht).
Qed.

(** X11. The name of a check result is the scan name, a dash and the
    name [GetRuleNameFromID] gives for the rule id, whatever the id.
    For an id of ASCII bytes, the names that [GetRuleNameFromID],
    [GetProfileNameFromID] and [GetVariableNameFromID] give are made
    of ASCII bytes and hold neither an upper-case letter nor an
    underscore. *)
Theorem names_from_ids (scanName id : string) :
  Arf.nameFromId unicodeToLower scanName id
  = scanName +:+ "-" +:+ GetRuleNameFromID unicodeToLower id
  /\ (allBytes isASCIIbyte id = true ->
      dnsFriendly (GetRuleNameFromID unicodeToLower id) = true
      /\ dnsFriendly (GetProfileNameFromID unicodeToLower id) = true
      /\ dnsFriendly (GetVariableNameFromID unicodeToLower id) = true).
Proof.
  split; [reflexivity|]. intros Hid.
  unfold GetRuleNameFromID, GetProfileNameFromID, GetVariableNameFromID.
  by rewrite !name_of_ascii_id.
Qed.

(** X12. The titles of the node-level and of the platform-level
    profile of one benchmark give the same composite title: for every
    title T, the composite title of T followed by the platform-level
    suffix is T without the white space around it, and so is the
    composite title of T followed by the node-level suffix, unless T
    itself ends with the platform-level suffix, which is then removed
    as well. *)
Theorem composite_titles_agree (T : string) :
  GetCompositeProfileTitle trimFuncSpace trimRightFuncSpace (T +:+ platformLevelSuffix)
  = TrimSpace trimFuncSpace trimRightFuncSpace T
  /\ GetCompositeProfileTitle trimFuncSpace trimRightFuncSpace (T +:+ nodeLevelSuffix)
     = TrimSpace trimFuncSpace trimRightFuncSpace (TrimSuffix T platformLevelSuffix).
Proof.
  unfold GetCompositeProfileTitle. split.
  - rewrite (TrimSuffix_other (T +:+ platformLevelSuffix) nodeLevelSuffix).
    + by rewrite TrimSuffix_app.
    + unfold HasSuffix. rewrite length_app.
      replace (String.length T + String.length platformLevelSuffix
               - String.length nodeLevelSuffix)
        with (String.length T + 4) by (simpl; lia).
      rewrite drop_add. apply andb_false_r.
  - by rewrite TrimSuffix_app.
Qed.

End Names.

Lemma names_from_ids_witness :
  dnsFriendly (GetRuleNameFromID id "xccdf_org.ssgproject.content_rule_API_Server_audit")
  = true.
Proof.
  apply (proj2 (names_from_ids id "scan"
                  "xccdf_org.ssgproject.content_rule_API_Server_audit")).
  reflexivity.
Defined.

Example rule_name_of_id :
  GetRuleNameFromID id "xccdf_org.ssgproject.content_rule_API_Server_audit"
  = "api-server-audit".
Proof. reflexivity. Qed.

(** The composite name keeps a [-node] suffix: only a leading [-node]
    is removed. *)
Example composite_name_keeps_node_suffix :
  GetCompositeProfileNameFromID id "xccdf_org.ssgproject.content_profile_cis-node"
  = "cis-node".
Proof. reflexivity. Qed.

Example composite_title_of_node_and_platform :
  GetCompositeProfileTitle id id "CIS Benchmark - Node level" = "CIS Benchmark"
  /\ GetCompositeProfileTitle id id "CIS Benchmark - Platform level" = "CIS Benchmark".
Proof. split; reflexivity. Qed.

End XccdfNamesFacts.

Module ArfWarningsFacts.
Import GoStrings GoStringsMore GoStringsFacts GoStringsMoreFacts.
Import Arf XmlQuery ArfWarnings WarningWords WarningSamples.

Lemma take_drop (n : nat) (s : string) : take n s +:+ drop n s = s.
Proof.
  revert s. induction n as [|n IH]; intros s; [done|].
  destruct s as [|c s]; [done|]. simpl. rewrite app_String. by rewrite IH.
Qed.

Lemma HasSuffix_split (s suf : string) :
  HasSuffix s suf = true -> s = TrimSuffix s suf +:+ suf.
Proof.
  intros H. unfold TrimSuffix. rewrite H. unfold HasSuffix in H.
  apply andb_true_iff in H as [_ H%String.eqb_eq].
  pose proof (take_drop (String.length s - String.length suf) s) as Htd.
  rewrite H in Htd. by symmetry.
Qed.

(** The children of an element are among the nodes below it. *)
Lemma child_below (name : string) (attrs : list (string * string)) (children : list Node)
      (c : Node) :
  c ∈ children -> c ∈ descendants (Element name attrs children).
Proof.
  simpl. induction children as [|d children IH]; intros Hin.
  - by apply elem_of_nil in Hin.
  - apply elem_of_cons in Hin as [->|Hin]; [by left|].
    right. apply elem_of_app. right. by apply IH.
Qed.

Lemma SelectElements_Find (n c : Node) (name : string) :
  c ∈ SelectElements n name -> c ∈ Find n name.
Proof.
  destruct n as [nm attrs children|d]; simpl; [|by intros ?%elem_of_nil].
  unfold Find. intros Hc. apply list_elem_of_In, filter_In in Hc as [Hin Hname].
  apply list_elem_of_In, filter_In. split; [|done].
  apply list_elem_of_In, child_below. by apply list_elem_of_In.
Qed.

(** X13. The OCIL question of a rule is read off the first check of the
    OCIL system below the rule: when that check refers to a
    questionnaire named B followed by [_ocil:questionnaire:1], the
    question id is B followed by [_question:question:1]; and a
    non-empty question id always arises this way. *)
Theorem ocil_question_of_questionnaire (rule : Node) :
  (forall ref base,
      firstOcilRef (Find rule "xccdf-1.2:check") = Some ref ->
      SelectAttr ref "name" = base +:+ questionnaireSuffix ->
      getRuleOcilQuestionID rule = base +:+ questionSuffix)
  /\ (getRuleOcilQuestionID rule <> "" ->
      exists ref base,
        firstOcilRef (Find rule "xccdf-1.2:check") = Some ref
        /\ SelectAttr ref "name" = base +:+ questionnaireSuffix
        /\ getRuleOcilQuestionID rule = base +:+ questionSuffix).
Proof.
  unfold getRuleOcilQuestionID. split.
  - intros ref base -> ->. by rewrite HasSuffix_app, TrimSuffix_app.
  - destruct (firstOcilRef _) as [ref|]; [|done].
    destruct (HasSuffix (SelectAttr ref "name") questionnaireSuffix) eqn:E; [|done].
    intros _. exists ref, (TrimSuffix (SelectAttr ref "name") questionnaireSuffix).
    split; [done|]. split; [|done]. by apply HasSuffix_split.
Qed.

Lemma ocil_question_of_questionnaire_witness :
  getRuleOcilQuestionID ocilRule = "ocil:ssg-audit_question:question:1".
Proof.
  apply (proj1 (ocil_question_of_questionnaire ocilRule)
           (Element "xccdf-1.2:check-content-ref"
                    [("name", "ocil:ssg-audit_ocil:questionnaire:1")] [])
           "ocil:ssg-audit"); reflexivity.
Defined.

Lemma pathOfCodeNode_adds (warning codeNode : Node) (acc paths : list ResourcePath) :
  pathOfCodeNode warning acc codeNode = Some paths ->
  if endpointWithText codeNode
  then exists p, paths = acc ++ [p] /\ pathOf warning codeNode p
  else paths = acc.
Proof.
  unfold pathOfCodeNode, endpointWithText, pathOf, locates.
  destruct (Contains _ endPointTag); cbn [andb]; [|by intros [= <-]].
  destruct (String.eqb_spec (InnerText codeNode) "") as [He|He]; cbn [negb].
  { rewrite He. by intros [= <-]. }
  destruct (Nat.eqb_spec (String.length (InnerText codeNode)) 0) as [H0|_].
  { destruct (InnerText codeNode); [done|discriminate H0]. }
  destruct (String.eqb_spec (SelectAttr codeNode "id") "") as [Hid|Hid]; cbn [negb].
  { intros [= <-]. eexists. split; [done|]. simpl. split; [done|]. split; [|done].
    by intros f d [Hne _]. }
  destruct (hasDoubleQuote _); [done|].
  destruct (SelectElementById warning ("filter-" +:+ _)) as [f|] eqn:Ef;
    destruct (SelectElementById warning ("dump-" +:+ _)) as [d|] eqn:Ed;
    intros [= <-]; eexists; (split; [done|]); simpl; (split; [done|]).
  - split.
    + by intros f' d' (_ & [= <-] & [= <-]).
    + intros Hnone. by destruct (Hnone f d).
  - split; [|done]. by intros f' d' (_ & _ & ?).
  - split; [|done]. by intros f' d' (_ & ? & _).
  - split; [|done]. by intros f' d' (_ & ? & _).
Qed.

Lemma pathOfCodeNode_returns (warning codeNode : Node) (acc : list ResourcePath) :
  hasDoubleQuote (SelectAttr codeNode "id") = false ->
  exists paths, pathOfCodeNode warning acc codeNode = Some paths.
Proof.
  intros Hq. unfold pathOfCodeNode. cbv zeta. rewrite Hq.
  repeat case_match; by eexists.
Qed.

Lemma pathsOfCodeNodes_adds (warning : Node) (codeNodes : list Node)
      (acc paths : list ResourcePath) :
  pathsOfCodeNodes warning codeNodes acc = Some paths ->
  exists news, paths = acc ++ news
               /\ map ObjPath news = map InnerText (List.filter endpointWithText codeNodes)
               /\ Forall2 (pathOf warning) (List.filter endpointWithText codeNodes) news.
Proof.
  revert acc. induction codeNodes as [|c codeNodes IH]; intros acc; simpl.
  - intros [= <-]. exists []. by rewrite app_nil_r.
  - destruct (pathOfCodeNode warning acc c) as [acc'|] eqn:E; [|done].
    intros H. apply IH in H as (news & -> & Hobj & Hall).
    apply pathOfCodeNode_adds in E.
    destruct (endpointWithText c) eqn:Ec.
    + destruct E as (p & -> & Hp).
      exists (p :: news). split; [by rewrite <- app_assoc|]. split.
      * simpl. destruct Hp as [-> _]. by rewrite Hobj.
      * by constructor.
    + subst acc'. by exists news.
Qed.

Lemma pathsOfCodeNodes_returns (warning : Node) (codeNodes : list Node)
      (acc : list ResourcePath) :
  (forall c, c ∈ codeNodes -> hasDoubleQuote (SelectAttr c "id") = false) ->
  exists paths, pathsOfCodeNodes warning codeNodes acc = Some paths.
Proof.
  revert acc. induction codeNodes as [|c codeNodes IH]; intros acc Hq; simpl.
  - by eexists.
  - destruct (pathOfCodeNode_returns warning c acc) as [acc' ->]; [apply Hq; by left|].
    apply IH. intros c' Hc'. apply Hq. by right.
Qed.

(** X14. The paths [GetPathFromWarningXML] returns for a warning stand,
    one for one and in document order, for the code elements below the
    warning whose class mentions [ocp-api-endpoint] and whose text is
    not empty: the object path of a path is the text of its element;
    when the element has an id ID and the warning holds an element
    with the id [filter-ID] and one with the id [dump-ID], its filter
    and its dump path are the texts of the first such elements;
    otherwise its dump path is its object path and it has no filter.
    Paths are returned for every warning in which no code element has
    an id with a double quote. *)
Theorem warning_paths (warning : Node) :
  (forall paths,
      GetPathFromWarningXML warning = Some paths ->
      Forall2 (pathOf warning)
              (List.filter endpointWithText (Find warning "html:code")) paths)
  /\ ((forall c, c ∈ Find warning "html:code" ->
                 hasDoubleQuote (SelectAttr c "id") = false) ->
      exists paths, GetPathFromWarningXML warning = Some paths).
Proof.
  split.
  - intros paths H. by apply pathsOfCodeNodes_adds in H as (news & -> & _ & Hall).
  - apply pathsOfCodeNodes_returns.
Qed.

Lemma warning_paths_witness :
  Forall2 (pathOf filteredWarning)
          (List.filter endpointWithText (Find filteredWarning "html:code"))
          [ {| ObjPath := "/apis/config.openshift.io/v1/oauths/cluster";
               DumpPath := "/apis/config.openshift.io/v1/oauths/cluster#spec";
               Filter := ".spec" |} ].
Proof. apply (proj1 (warning_paths filteredWarning)). reflexivity. Defined.

(** X15. A code element that is a child of a warning, has the class
    [ocp-api-endpoint] and has text makes [warningHasApiObjects] hold
    of the warning, the test on which [getWarningsForRule] passes a
    warning over, and makes [GetPathFromWarningXML], when it returns
    paths, return a path to the object the element names. *)
Theorem endpoint_warnings_are_paths (warning codeNode : Node)
        (paths : list ResourcePath) :
  codeNode ∈ SelectElements warning "html:code" ->
  SelectAttr codeNode "class" = endPointTag ->
  InnerText codeNode <> "" ->
  GetPathFromWarningXML warning = Some paths ->
  warningHasApiObjects warning = true
  /\ exists p, p ∈ paths /\ ObjPath p = InnerText codeNode.
Proof.
  intros Hchild Hclass Htext Hpaths. split.
  - unfold warningHasApiObjects. apply existsb_exists. exists codeNode.
    split; [by apply list_elem_of_In|]. rewrite Hclass. apply String.eqb_refl.
  - apply pathsOfCodeNodes_adds in Hpaths as (news & -> & Hobj & _).
    assert (Hin : InnerText codeNode
                  ∈ map InnerText (List.filter endpointWithText
                                               (Find warning "html:code"))).
    { apply list_elem_of_fmap. exists codeNode. split; [done|].
      apply list_elem_of_In, filter_In. split.
      - apply list_elem_of_In. by apply SelectElements_Find.
      - unfold endpointWithText. rewrite Hclass.
        destruct (String.eqb_spec (InnerText codeNode) ""); [done|]. reflexivity. }
    rewrite <- Hobj in Hin. apply list_elem_of_fmap in Hin as (p & Hp & Hin).
    exists p. by split.
Qed.

Lemma endpoint_warnings_are_paths_witness :
  warningHasApiObjects filteredWarning = true
  /\ exists p, p ∈ [ {| ObjPath := "/apis/config.openshift.io/v1/oauths/cluster";
                        DumpPath := "/apis/config.openshift.io/v1/oauths/cluster#spec";
                        Filter := ".spec" |} ]
               /\ ObjPath p = "/apis/config.openshift.io/v1/oauths/cluster".
Proof.
  apply (endpoint_warnings_are_paths filteredWarning
           (Element "html:code" [("class", "ocp-api-endpoint"); ("id", "oauth")]
                    [Text "/apis/config.openshift.io/v1/oauths/cluster"])).
  - simpl. by left.
  - reflexivity.
  - discriminate.
  - reflexivity.
Defined.

End ArfWarningsFacts.

Module ArfRemediationFacts.
Import GoStrings Arf XmlQuery ArfRemediation.

Section Remediations.
Variable ObjRest : Type.
Variable ReadObjectsFromYAML : string -> list (Unstructured ObjRest) + string.
Variables RemediationDependencyAnnotation RemediationObjectDependencyAnnotation
          RemediationOptionalAnnotation RemediationEnforcementTypeAnnotation : string.
Variables ConfigurationRemediation EnforcementRemediation : string.
Variable RemediationPending : string.

Abbreviation ofObject :=
  (remediationOfObject ObjRest RemediationDependencyAnnotation
     RemediationObjectDependencyAnnotation RemediationOptionalAnnotation
     RemediationEnforcementTypeAnnotation ConfigurationRemediation
     EnforcementRemediation RemediationPending).
Abbreviation fromString :=
  (remediationsFromString ObjRest ReadObjectsFromYAML RemediationDependencyAnnotation
     RemediationObjectDependencyAnnotation RemediationOptionalAnnotation
     RemediationEnforcementTypeAnnotation ConfigurationRemediation
     EnforcementRemediation RemediationPending).
Abbreviation remediationsOf :=
  (newComplianceRemediation ObjRest ReadObjectsFromYAML RemediationDependencyAnnotation
     RemediationObjectDependencyAnnotation RemediationOptionalAnnotation
     RemediationEnforcementTypeAnnotation ConfigurationRemediation
     EnforcementRemediation RemediationPending).

Abbreviation annotationsOf u := (GoMap.entries (objAnnotations u)).

Lemma hasAnnotation_spec (u : Unstructured ObjRest) (k : string) :
  hasAnnotation ObjRest u k = bool_decide (is_Some (annotationsOf u !! k)).
Proof.
  unfold hasAnnotation. destruct (objAnnotations u); simpl; [done|].
  rewrite lookup_empty. symmetry. apply bool_decide_false. by intros [? ?].
Qed.

Lemma hasAnnotation_false (u : Unstructured ObjRest) (k : string) :
  annotationsOf u !! k = None -> hasAnnotation ObjRest u k = false.
Proof.
  intros H. rewrite hasAnnotation_spec, H. apply bool_decide_false. by intros [? ?].
Qed.

(** The object and the annotations after the dependency step. *)
Lemma dependency_step (obj : Unstructured ObjRest) :
  let '(obj', annotations) :=
    (if hasDependencyAnnotation ObjRest obj
     then handleDependencyAnnotation ObjRest RemediationDependencyAnnotation
            RemediationObjectDependencyAnnotation obj ∅
     else (obj, ∅)) in
  annotationsOf obj'
  = delete kubeDependencyAnnotationKey (delete dependencyAnnotationKey (annotationsOf obj))
  /\ objRest obj' = objRest obj
  /\ annotations
     = (match annotationsOf obj !! kubeDependencyAnnotationKey with
        | Some objDeps => <[RemediationObjectDependencyAnnotation := objDeps]>
        | None => fun m => m
        end)
         (match annotationsOf obj !! dependencyAnnotationKey with
          | Some dependencies => <[RemediationDependencyAnnotation := dependencies]> ∅
          | None => ∅
          end).
Proof.
  unfold hasDependencyAnnotation, handleDependencyAnnotation. cbv zeta.
  rewrite !hasAnnotation_spec.
  destruct (annotationsOf obj !! dependencyAnnotationKey) as [d|] eqn:Ed.
  - rewrite bool_decide_true by eauto. cbn [orb].
    rewrite lookup_delete_ne by done.
    destruct (annotationsOf obj !! kubeDependencyAnnotationKey) as [o|] eqn:Eo; simpl.
    + done.
    + split; [|done]. by rewrite (delete_id _ kubeDependencyAnnotationKey)
        by (by rewrite lookup_delete_ne).
  - rewrite (bool_decide_false (is_Some None)) by (by intros [? ?]). cbn [orb].
    rewrite (delete_id _ dependencyAnnotationKey) by done.
    destruct (annotationsOf obj !! kubeDependencyAnnotationKey) as [o|] eqn:Eo.
    + rewrite bool_decide_true by eauto. done.
    + rewrite (bool_decide_false (is_Some None)) by (by intros [? ?]).
      by rewrite (delete_id _ kubeDependencyAnnotationKey).
Qed.

Lemma optional_step (obj : Unstructured ObjRest) (annotations : gmap string string) :
  let '(obj', annotations') :=
    (if hasOptionalAnnotation ObjRest obj
     then handleOptionalAnnotation ObjRest RemediationOptionalAnnotation obj annotations
     else (obj, annotations)) in
  annotationsOf obj' = delete optionalAnnotationKey (annotationsOf obj)
  /\ objRest obj' = objRest obj
  /\ annotations'
     = match annotationsOf obj !! optionalAnnotationKey with
       | Some _ => <[RemediationOptionalAnnotation := ""]> annotations
       | None => annotations
       end.
Proof.
  unfold hasOptionalAnnotation, handleOptionalAnnotation. cbv zeta.
  rewrite hasAnnotation_spec.
  destruct (annotationsOf obj !! optionalAnnotationKey) as [o|] eqn:Eo.
  - by rewrite bool_decide_true by eauto.
  - rewrite (bool_decide_false (is_Some None)) by (by intros [? ?]).
    by rewrite (delete_id _ optionalAnnotationKey).
Qed.

Lemma type_step (obj : Unstructured ObjRest) :
  let '(obj', remType) :=
    (if hasTypeAnnotation ObjRest obj
     then handleRemediationTypeAnnotation ObjRest obj
     else (obj, ConfigurationRemediation)) in
  annotationsOf obj'
  = (if bool_decide (is_Some (annotationsOf obj !! remediationTypeAnnotationKey))
     then delete enforcementTypeAnnotationKey (annotationsOf obj)
     else annotationsOf obj)
  /\ objRest obj' = objRest obj
  /\ remType = default ConfigurationRemediation
                       (annotationsOf obj !! remediationTypeAnnotationKey).
Proof.
  unfold hasTypeAnnotation, handleRemediationTypeAnnotation. cbv zeta.
  rewrite hasAnnotation_spec.
  destruct (annotationsOf obj !! remediationTypeAnnotationKey) as [t|] eqn:Et.
  - by rewrite bool_decide_true by eauto.
  - by rewrite (bool_decide_false (is_Some None)) by (by intros [? ?]).
Qed.

Lemma remediationOfObject_fields (name namespace : string) (idx : nat)
      (obj : Unstructured ObjRest) :
  let rem := ofObject name namespace idx obj in
  remName rem = (if (idx =? 0)%nat then name
                 else name +:+ "-" +:+ CelScanner.Sprintf_d (Z.of_nat idx))
  /\ remNamespace rem = namespace
  /\ Apply rem = false
  /\ ApplicationState rem = RemediationPending.
Proof.
  cbv zeta. unfold remediationOfObject.
  destruct (if hasDependencyAnnotation ObjRest obj then _ else _) as [obj1 ann1].
  destruct (if hasOptionalAnnotation ObjRest obj1 then _ else _) as [obj2 ann2].
  destruct (if hasTypeAnnotation ObjRest obj2 then _ else _) as [obj3 remType].
  by destruct (if _ && _ then _ else _) as [obj4 ann4].
Qed.

(** X16. Every remediation built for a rule comes from one object of
    the first fix below the rule whose system is the Ignition or the
    Kubernetes one: the fix has an id, its text parses, and the
    remediation at an index belongs to the object at that index.  It
    is named after the scan and the id of the fix with dashes for
    underscores, followed by a dash and the index for every object
    but the first; it lives in the given namespace, is not applied
    and is pending. *)
Theorem remediations_named_and_pending (scanName namespace : string) (rule : Node)
        (idx : nat) (rem : ComplianceRemediation ObjRest) :
  remediationsOf scanName namespace rule !! idx = Some rem ->
  exists fix_ objs obj,
    List.find isRelevantFix (Find rule "xccdf-1.2:fix") = Some fix_
    /\ SelectAttr fix_ "id" <> ""
    /\ ReadObjectsFromYAML (InnerText fix_) = inl objs
    /\ objs !! idx = Some obj
    /\ length (remediationsOf scanName namespace rule) = length objs
    /\ remName rem
       = (let name := scanName +:+ "-" +:+ ReplaceAll (SelectAttr fix_ "id") "_" "-" in
          if (idx =? 0)%nat then name
          else name +:+ "-" +:+ CelScanner.Sprintf_d (Z.of_nat idx))
    /\ remNamespace rem = namespace
    /\ Apply rem = false
    /\ ApplicationState rem = RemediationPending.
Proof.
  unfold newComplianceRemediation.
  destruct (List.find isRelevantFix _) as [fix_|]; [|by rewrite lookup_nil].
  unfold remediationFromFixElement.
  destruct (String.eqb_spec (SelectAttr fix_ "id") "") as [|Hid];
    [by rewrite lookup_nil|].
  unfold remediationsFromString.
  destruct (ReadObjectsFromYAML (InnerText fix_)) as [objs|] eqn:Er;
    [|by rewrite lookup_nil].
  rewrite list_lookup_imap. destruct (objs !! idx) as [obj|] eqn:E; [|done].
  intros [= <-]. exists fix_, objs, obj. rewrite length_imap.
  repeat (split; [done|]). apply remediationOfObject_fields.
Qed.

Hypothesis kinds_differ : ConfigurationRemediation <> EnforcementRemediation.

(** The remediation built from one object. *)
Lemma remediationOfObject_spec (name namespace : string) (idx : nat)
      (obj : Unstructured ObjRest) :
  let rem := ofObject name namespace idx obj in
  let moved := delete optionalAnnotationKey
                 (delete kubeDependencyAnnotationKey
                    (delete dependencyAnnotationKey (annotationsOf obj))) in
  annotationsOf (CurrentObject rem)
  = (if bool_decide (is_Some (annotationsOf obj !! remediationTypeAnnotationKey))
     then delete enforcementTypeAnnotationKey moved else moved)
  /\ objRest (CurrentObject rem) = objRest obj
  /\ Type_ rem = default ConfigurationRemediation
                         (annotationsOf obj !! remediationTypeAnnotationKey)
  /\ remAnnotations rem
     = (match annotationsOf obj !! optionalAnnotationKey with
        | Some _ => <[RemediationOptionalAnnotation := ""]>
        | None => fun m => m
        end)
         ((match annotationsOf obj !! kubeDependencyAnnotationKey with
           | Some objDeps => <[RemediationObjectDependencyAnnotation := objDeps]>
           | None => fun m => m
           end)
            (match annotationsOf obj !! dependencyAnnotationKey with
             | Some dependencies => <[RemediationDependencyAnnotation := dependencies]> ∅
             | None => ∅
             end)).
Proof.
  cbv zeta. unfold remediationOfObject.
  pose proof (dependency_step obj) as H1.
  destruct (if hasDependencyAnnotation ObjRest obj then _ else _) as [obj1 ann1].
  destruct H1 as (Ha1 & Hr1 & ->).
  pose proof (optional_step obj1
                ((match annotationsOf obj !! kubeDependencyAnnotationKey with
                  | Some objDeps => <[RemediationObjectDependencyAnnotation := objDeps]>
                  | None => fun m => m
                  end)
                   (match annotationsOf obj !! dependencyAnnotationKey with
                    | Some dependencies =>
                        <[RemediationDependencyAnnotation := dependencies]> ∅
                    | None => ∅
                    end))) as H2.
  destruct (if hasOptionalAnnotation ObjRest obj1 then _ else _) as [obj2 ann2].
  destruct H2 as (Ha2 & Hr2 & ->).
  pose proof (type_step obj2) as H3.
  destruct (if hasTypeAnnotation ObjRest obj2 then _ else _) as [obj3 remType].
  destruct H3 as (Ha3 & Hr3 & ->).
  assert (Hopt : annotationsOf obj1 !! optionalAnnotationKey
                 = annotationsOf obj !! optionalAnnotationKey).
  { rewrite Ha1. by rewrite !lookup_delete_ne. }
  assert (Htype : annotationsOf obj2 !! remediationTypeAnnotationKey
                  = annotationsOf obj !! remediationTypeAnnotationKey).
  { rewrite Ha2, Ha1. by rewrite !lookup_delete_ne. }
  rewrite Htype in *. rewrite Hopt. rewrite Ha2, Ha1 in Ha3.
  assert (Hskip : String.eqb (default ConfigurationRemediation
                                (annotationsOf obj !! remediationTypeAnnotationKey))
                             EnforcementRemediation
                  && hasEnforcementTypeAnnotation ObjRest obj3 = false).
  { destruct (annotationsOf obj !! remediationTypeAnnotationKey) as [t|] eqn:Et.
    - rewrite bool_decide_true in Ha3 by eauto.
      unfold hasEnforcementTypeAnnotation.
      rewrite hasAnnotation_false; [apply andb_false_r|].
      rewrite Ha3. apply lookup_delete_eq.
    - simpl. by destruct (String.eqb_spec ConfigurationRemediation
                                          EnforcementRemediation). }
  rewrite Hskip. cbn [CurrentObject Type_ remAnnotations].
  split; [exact Ha3|]. split; [by rewrite Hr3, Hr2, Hr1|]. split; [done|].
  by destruct (annotationsOf obj !! optionalAnnotationKey).
Qed.

Hypothesis annotations_differ :
  NoDup [RemediationDependencyAnnotation; RemediationObjectDependencyAnnotation;
         RemediationOptionalAnnotation; RemediationEnforcementTypeAnnotation].

Lemma remediation_of_object_is_at_index (name namespace content : string)
      (idx : nat) (rem : ComplianceRemediation ObjRest) :
  fromString name namespace content !! idx = Some rem ->
  exists objs obj, ReadObjectsFromYAML content = inl objs /\ objs !! idx = Some obj
                   /\ rem = ofObject name namespace idx obj.
Proof.
  unfold remediationsFromString.
  destruct (ReadObjectsFromYAML content) as [objs|]; [|by rewrite lookup_nil].
  rewrite list_lookup_imap. destruct (objs !! idx) as [obj|] eqn:E; [|done].
  intros [= <-]. by exists objs, obj.
Qed.

Lemma distinct_annotations :
  RemediationDependencyAnnotation <> RemediationObjectDependencyAnnotation
  /\ RemediationDependencyAnnotation <> RemediationOptionalAnnotation
  /\ RemediationObjectDependencyAnnotation <> RemediationOptionalAnnotation
  /\ RemediationDependencyAnnotation <> RemediationEnforcementTypeAnnotation
  /\ RemediationObjectDependencyAnnotation <> RemediationEnforcementTypeAnnotation
  /\ RemediationOptionalAnnotation <> RemediationEnforcementTypeAnnotation.
Proof.
  pose proof annotations_differ as Hnd.
  apply NoDup_cons in Hnd as [N1 Hnd].
  apply NoDup_cons in Hnd as [N2 Hnd]. apply NoDup_cons in Hnd as [N3 _].
  apply not_elem_of_cons in N1 as [? N1]. apply not_elem_of_cons in N1 as [? N1].
  apply not_elem_of_cons in N1 as [? _].
  apply not_elem_of_cons in N2 as [? N2]. apply not_elem_of_cons in N2 as [? _].
  apply not_elem_of_cons in N3 as [? _]. done.
Qed.

Lemma rem_annotation_lookup (obj : Unstructured ObjRest) (K : string) :
  ((match annotationsOf obj !! optionalAnnotationKey with
    | Some _ => <[RemediationOptionalAnnotation := ""]>
    | None => fun m => m
    end)
     ((match annotationsOf obj !! kubeDependencyAnnotationKey with
       | Some objDeps => <[RemediationObjectDependencyAnnotation := objDeps]>
       | None => fun m => m
       end)
        (match annotationsOf obj !! dependencyAnnotationKey with
         | Some dependencies => <[RemediationDependencyAnnotation := dependencies]> ∅
         | None => ∅
         end)) : gmap string string) !! K
  = if decide (K = RemediationOptionalAnnotation)
    then (fun _ => "") <$> annotationsOf obj !! optionalAnnotationKey
    else if decide (K = RemediationObjectDependencyAnnotation)
         then annotationsOf obj !! kubeDependencyAnnotationKey
         else if decide (K = RemediationDependencyAnnotation)
              then annotationsOf obj !! dependencyAnnotationKey
              else None.
Proof.
  destruct distinct_annotations as (D12 & D13 & D23 & _).
  destruct (annotationsOf obj !! optionalAnnotationKey) as [o|],
           (annotationsOf obj !! kubeDependencyAnnotationKey) as [k|],
           (annotationsOf obj !! dependencyAnnotationKey) as [d|];
    (destruct (decide (K = RemediationOptionalAnnotation)) as [->|];
     [| destruct (decide (K = RemediationObjectDependencyAnnotation)) as [->|];
        [| destruct (decide (K = RemediationDependencyAnnotation)) as [->|]]]);
    simpl;
    repeat (first [ rewrite lookup_insert_eq
                  | rewrite lookup_insert_ne by congruence
                  | rewrite lookup_empty ]);
    done.
Qed.

(** X17. The dependency and optional annotations of a fix object are
    moved to its remediation: the remediation carries the object's
    depends-on value under the dependency annotation, its
    depends-on-obj value under the object-dependency annotation and
    the empty string under the optional annotation exactly when the
    object has the corresponding annotation; the object kept in the
    remediation has none of the three, and apart from these and the
    enforcement-type annotation its annotations, and the rest of the
    object, are unchanged. *)
Theorem dependency_annotations_move (name namespace fixContent : string)
        (objs : list (Unstructured ObjRest)) (idx : nat) (obj : Unstructured ObjRest) :
  ReadObjectsFromYAML fixContent = inl objs ->
  objs !! idx = Some obj ->
  exists rem,
    fromString name namespace fixContent !! idx = Some rem
    /\ remAnnotations rem !! RemediationDependencyAnnotation
       = annotationsOf obj !! dependencyAnnotationKey
    /\ remAnnotations rem !! RemediationObjectDependencyAnnotation
       = annotationsOf obj !! kubeDependencyAnnotationKey
    /\ remAnnotations rem !! RemediationOptionalAnnotation
       = (fun _ => "") <$> annotationsOf obj !! optionalAnnotationKey
    /\ annotationsOf (CurrentObject rem) !! dependencyAnnotationKey = None
    /\ annotationsOf (CurrentObject rem) !! kubeDependencyAnnotationKey = None
    /\ annotationsOf (CurrentObject rem) !! optionalAnnotationKey = None
    /\ (forall k, k <> dependencyAnnotationKey -> k <> kubeDependencyAnnotationKey ->
                  k <> optionalAnnotationKey -> k <> enforcementTypeAnnotationKey ->
                  annotationsOf (CurrentObject rem) !! k = annotationsOf obj !! k)
    /\ objRest (CurrentObject rem) = objRest obj.
Proof.
  intros Hread Hobj. exists (ofObject name namespace idx obj).
  split. { unfold remediationsFromString. by rewrite Hread, list_lookup_imap, Hobj. }
  destruct (remediationOfObject_spec name namespace idx obj) as (Ha & Hr & _ & Hann).
  cbv zeta in Ha. rewrite Hann, !rem_annotation_lookup.
  destruct distinct_annotations as (D12 & D13 & D23 & _).
  split. { repeat destruct (decide _); congruence. }
  split. { repeat destruct (decide _); congruence. }
  split. { repeat destruct (decide _); congruence. }
  rewrite Ha. destruct (bool_decide _).
  all: repeat split; try (intros k K1 K2 K3 K4).
  all: repeat (first [ rewrite lookup_delete_eq
                     | rewrite lookup_delete_ne by done ]); done.
Qed.

(** X18. The type of a remediation is the value of the
    remediation-type annotation of its object, and Configuration when
    the object has none.  No remediation carries the enforcement-type
    annotation: an object that has the remediation-type annotation
    loses its enforcement-type annotation before that is looked for,
    and keeps the remediation-type annotation; an object without the
    remediation-type annotation keeps both as they are. *)
Theorem enforcement_type_is_dropped (name namespace fixContent : string)
        (objs : list (Unstructured ObjRest)) (idx : nat) (obj : Unstructured ObjRest) :
  ReadObjectsFromYAML fixContent = inl objs ->
  objs !! idx = Some obj ->
  exists rem,
    fromString name namespace fixContent !! idx = Some rem
    /\ Type_ rem = default ConfigurationRemediation
                           (annotationsOf obj !! remediationTypeAnnotationKey)
    /\ remAnnotations rem !! RemediationEnforcementTypeAnnotation = None
    /\ annotationsOf (CurrentObject rem) !! remediationTypeAnnotationKey
       = annotationsOf obj !! remediationTypeAnnotationKey
    /\ annotationsOf (CurrentObject rem) !! enforcementTypeAnnotationKey
       = match annotationsOf obj !! remediationTypeAnnotationKey with
         | Some _ => None
         | None => annotationsOf obj !! enforcementTypeAnnotationKey
         end.
Proof.
  intros Hread Hobj. exists (ofObject name namespace idx obj).
  split. { unfold remediationsFromString. by rewrite Hread, list_lookup_imap, Hobj. }
  destruct (remediationOfObject_spec name namespace idx obj) as (Ha & _ & Ht & Hann).
  cbv zeta in Ha. split; [exact Ht|]. split.
  { rewrite Hann, rem_annotation_lookup.
    destruct distinct_annotations as (_ & _ & _ & D14 & D24 & D34).
    repeat destruct (decide _); congruence. }
  rewrite Ha.
  destruct (annotationsOf obj !! remediationTypeAnnotationKey) as [t|] eqn:Et.
  - rewrite bool_decide_true by eauto. split.
    + by rewrite !lookup_delete_ne.
    + apply lookup_delete_eq.
  - rewrite (bool_decide_false (is_Some None)) by (by intros [? ?]). split.
    + by rewrite !lookup_delete_ne.
    + by rewrite !lookup_delete_ne.
Qed.

End Remediations.

Import RemediationSamples.

Lemma remediations_named_and_pending_witness :
  exists rem,
    newComplianceRemediation unit readTwoObjects
      "compliance.openshift.io/depends-on" "compliance.openshift.io/depends-on-obj"
      "compliance.openshift.io/optional" "compliance.openshift.io/enforcement-type"
      "Configuration" "Enforcement" "Pending" "scan" "openshift-compliance" ruleWithFix
    !! 1 = Some rem
    /\ remName rem = "scan-audit-Profile-1" /\ Apply rem = false.
Proof.
  eexists. split; [reflexivity|].
  destruct (remediations_named_and_pending unit readTwoObjects
              "compliance.openshift.io/depends-on" "compliance.openshift.io/depends-on-obj"
              "compliance.openshift.io/optional" "compliance.openshift.io/enforcement-type"
              "Configuration" "Enforcement" "Pending" "scan" "openshift-compliance"
              ruleWithFix 1 _ eq_refl)
    as (fix_ & objs & obj & Hfix & _ & _ & _ & _ & Hname & _ & Happly & _).
  injection Hfix as <-. split; [exact Hname|exact Happly].
Defined.

Ltac distinct_strings :=
  repeat (apply NoDup_cons; split;
          [rewrite ?elem_of_cons, elem_of_nil; intuition discriminate|]);
  apply NoDup_nil_2.

Lemma dependency_annotations_move_witness :
  exists rem,
    remediationsFromString unit readTwoObjects
      "compliance.openshift.io/depends-on" "compliance.openshift.io/depends-on-obj"
      "compliance.openshift.io/optional" "compliance.openshift.io/enforcement-type"
      "Configuration" "Enforcement" "Pending" "scan-audit" "openshift-compliance" "---"
    !! 1 = Some rem
    /\ remAnnotations rem !! "compliance.openshift.io/depends-on"
       = Some "xccdf_org.ssgproject.content_rule_a"
    /\ remAnnotations rem !! "compliance.openshift.io/optional" = Some "".
Proof.
  destruct (dependency_annotations_move unit readTwoObjects
              "compliance.openshift.io/depends-on" "compliance.openshift.io/depends-on-obj"
              "compliance.openshift.io/optional" "compliance.openshift.io/enforcement-type"
              "Configuration" "Enforcement" "Pending"
              ltac:(discriminate) ltac:(distinct_strings)
              "scan-audit" "openshift-compliance" "---"
              [plainObject; gatekeeperObject] 1 gatekeeperObject eq_refl eq_refl)
    as (rem & Hrem & Hdep & _ & Hopt & _).
  exists rem. split; [exact Hrem|]. split; [rewrite Hdep|rewrite Hopt]; reflexivity.
Defined.

Lemma enforcement_type_is_dropped_witness :
  exists rem,
    remediationsFromString unit readTwoObjects
      "compliance.openshift.io/depends-on" "compliance.openshift.io/depends-on-obj"
      "compliance.openshift.io/optional" "compliance.openshift.io/enforcement-type"
      "Configuration" "Enforcement" "Pending" "scan-audit" "openshift-compliance" "---"
    !! 1 = Some rem
    /\ Type_ rem = "Enforcement"
    /\ remAnnotations rem !! "compliance.openshift.io/enforcement-type" = None.
Proof.
  destruct (enforcement_type_is_dropped unit readTwoObjects
              "compliance.openshift.io/depends-on" "compliance.openshift.io/depends-on-obj"
              "compliance.openshift.io/optional" "compliance.openshift.io/enforcement-type"
              "Configuration" "Enforcement" "Pending"
              ltac:(discriminate) ltac:(distinct_strings)
              "scan-audit" "openshift-compliance" "---"
              [plainObject; gatekeeperObject] 1 gatekeeperObject eq_refl eq_refl)
    as (rem & Hrem & Htype & Hnone & _).
  exists rem. split; [exact Hrem|]. split; [rewrite Htype; reflexivity|exact Hnone].
Defined.

End ArfRemediationFacts.

Module PlannerFacts.
Import GoStrings Arf XmlQuery Fetcher Planner Xccdf SpecWords PlanWords.
Import Samples PlanSamples.

(** ** Finding elements in the tree the compiler writes *)

Lemma filter_named_app (name : string) (l1 l2 : list Node) :
  List.filter (isElementNamed name) (l1 ++ l2)
  = List.filter (isElementNamed name) l1 ++ List.filter (isElementNamed name) l2.
Proof. apply List.filter_app. Qed.

Lemma filter_named_texts (name : string) (texts : list Node) :
  Forall (fun t => exists d, t = Text d) texts ->
  List.filter (isElementNamed name) (flat_map (fun t => t :: descendants t) texts) = [].
Proof.
  induction 1 as [|t texts [d ->] _ IH]; [done|]. simpl. exact IH.
Qed.

Lemma descendants_flat_map (name : string) (attrs : list (string * string))
      (children : list Node) :
  descendants (Element name attrs children)
  = flat_map (fun c => c :: descendants c) children.
Proof.
  simpl. induction children as [|c children IH]; [done|]. simpl. by rewrite IH.
Qed.

(** Below an element whose children hold nothing but text, the elements
    of a name are the children of that name. *)
Lemma Find_shallow (name n : string) (attrs : list (string * string))
      (children : list Node) :
  Forall (fun c => exists nm at_ texts,
              c = Element nm at_ texts /\ Forall (fun t => exists d, t = Text d) texts)
         children ->
  Find (Element n attrs children) name = List.filter (isElementNamed name) children.
Proof.
  unfold Find. rewrite descendants_flat_map.
  induction 1 as [|c children (nm & at_ & texts & -> & Htexts) _ IH]; [done|].
  cbn [flat_map]. rewrite descendants_flat_map.
  change ((Element nm at_ texts :: flat_map (fun c => c :: descendants c) texts)
          ++ flat_map (fun c => c :: descendants c) children)
    with (Element nm at_ texts
          :: (flat_map (fun c => c :: descendants c) texts
              ++ flat_map (fun c => c :: descendants c) children)).
  cbn [List.filter]. rewrite filter_named_app, (filter_named_texts _ _ Htexts), IH.
  reflexivity.
Qed.

Lemma texts_of_textOf (s : string) : Forall (fun t => exists d, t = Text d) (textOf s).
Proof. unfold textOf. destruct (String.eqb s ""); repeat constructor. by eexists. Qed.

Lemma shallow_profile_children (title description : string) (enabled disabled manual : list string)
      (variables : list Variable_) :
  Forall (fun c => exists nm at_ texts,
              c = Element nm at_ texts /\ Forall (fun t => exists d, t = Text d) texts)
         (overrideNode "xccdf-1.2:title" title
          ++ overrideNode "xccdf-1.2:description" description
          ++ map (selectNode true) enabled
          ++ map (selectNode false) disabled
          ++ map (selectNode true) manual
          ++ map setValueNode variables).
Proof.
  repeat apply Forall_app_2.
  - unfold overrideNode. destruct (String.eqb title ""); repeat constructor.
    eexists _, _, _. split; [done|]. repeat constructor. by eexists.
  - unfold overrideNode. destruct (String.eqb description ""); repeat constructor.
    eexists _, _, _. split; [done|]. repeat constructor. by eexists.
  - apply Forall_forall. intros c (id & -> & _)%list_elem_of_fmap.
    eexists _, _, _. split; [done|]. constructor.
  - apply Forall_forall. intros c (id & -> & _)%list_elem_of_fmap.
    eexists _, _, _. split; [done|]. constructor.
  - apply Forall_forall. intros c (id & -> & _)%list_elem_of_fmap.
    eexists _, _, _. split; [done|]. constructor.
  - apply Forall_forall. intros c (v & -> & _)%list_elem_of_fmap.
    eexists _, _, _. split; [done|]. apply texts_of_textOf.
Qed.

Lemma filter_named_override (name tag text : string) :
  tag <> name -> List.filter (isElementNamed name) (overrideNode tag text) = [].
Proof.
  intros Hne. unfold overrideNode. destruct (String.eqb text ""); [done|]. simpl.
  by destruct (String.eqb_spec tag name).
Qed.

Lemma filter_named_selects (name : string) (b : bool) (ids : list string) :
  List.filter (isElementNamed name) (map (selectNode b) ids)
  = if String.eqb "xccdf-1.2:select" name then map (selectNode b) ids else [].
Proof.
  induction ids as [|id ids IH]; cbn [map List.filter selectNode isElementNamed].
  - by destruct (String.eqb "xccdf-1.2:select" name).
  - rewrite IH. by destruct (String.eqb "xccdf-1.2:select" name).
Qed.

Lemma filter_named_setValues (name : string) (variables : list Variable_) :
  "xccdf-1.2:set-value" <> name ->
  List.filter (isElementNamed name) (map setValueNode variables) = [].
Proof.
  intros Hne.
  induction variables as [|v variables IH];
    cbn [map List.filter setValueNode isElementNamed]; [done|].
  by destruct (String.eqb_spec "xccdf-1.2:set-value" name).
Qed.

Section Compiler.
Variable now : string.
Variable filepathJoin : string -> string -> string.

(** The tree the compiler writes. *)
Lemma compiled_root (tp : TailoredProfile) (p : option BaseProfile)
      (pb : option ProfileBundle) (rules : gmap string Rule)
      (variables : list Variable_) (doc : Document) :
  TailoredProfileToXML now filepathJoin tp p pb rules variables = Some doc ->
  exists href enabled disabled manual,
    resolves rules (EnableRules tp) enabled
    /\ resolves rules (DisableRules tp) disabled
    /\ resolves rules (ManualRules tp) manual
    /\ Root doc
       = Element "xccdf-1.2:Tailoring"
           [("xmlns:xccdf-1.2", XCCDFURI); ("id", getTailoringID tp)]
           [Element "xccdf-1.2:benchmark" [("href", href)] [];
            Element "xccdf-1.2:version" [("time", now)] [Text "1"];
            Element "xccdf-1.2:Profile"
              (("id", GetXCCDFProfileID tp)
                 :: attrOmitEmpty "extends"
                      (match p with Some base => baseID base | None => "" end))
              (overrideNode "xccdf-1.2:title" (SpecTitle tp)
               ++ overrideNode "xccdf-1.2:description" (SpecDescription tp)
               ++ map (selectNode true) enabled
               ++ map (selectNode false) disabled
               ++ map (selectNode true) manual
               ++ map setValueNode variables)].
Proof.
  intros H. unfold TailoredProfileToXML in H.
  destruct pb as [b|]; [|done]. simpl in H.
  destruct (getSelections tp rules) as [sels|] eqn:Esel; [|done]. simpl in H.
  apply XccdfFacts.getSelections_Some in Esel
    as (enabled & disabled & manual & H1 & H2 & H3 & Hmap).
  injection H as <-.
  exists (filepathJoin "/content" (ContentFile b)), enabled, disabled, manual.
  repeat (split; [done|]).
  assert (Hvals : map marshalSetValue (getValuesFromVariables variables)
                  = map setValueNode variables).
  { rewrite XccdfFacts.getValuesFromVariables_map, map_map. reflexivity. }
  unfold marshalTailoring, marshalProfile, marshalBenchmark, marshalVersion,
    overrideNode, marshalTitleOrDescription, chardata.
  destruct p as [base|];
    destruct (String.eqb (SpecTitle tp) "") eqn:Et;
    destruct (String.eqb (SpecDescription tp) "") eqn:Ed;
    cbn -[String.eqb getValuesFromVariables attrOmitEmpty GetXCCDFProfileID
                     getTailoringID].
  all: rewrite ?Et, ?Ed, Hvals, Hmap, <- ?app_assoc.
  all: reflexivity.
Qed.

Lemma profiles_of_compiled (tp : TailoredProfile) (base href : string)
      (children : list Node) :
  Forall (fun c => exists nm at_ texts,
              c = Element nm at_ texts /\ Forall (fun t => exists d, t = Text d) texts)
         children ->
  List.filter (isElementNamed "xccdf-1.2:Profile") children = [] ->
  Find (document
          (Element "xccdf-1.2:Tailoring"
             [("xmlns:xccdf-1.2", XCCDFURI); ("id", getTailoringID tp)]
             [Element "xccdf-1.2:benchmark" [("href", href)] [];
              Element "xccdf-1.2:version" [("time", now)] [Text "1"];
              Element "xccdf-1.2:Profile"
                (("id", GetXCCDFProfileID tp) :: attrOmitEmpty "extends" base)
                children]))
       "xccdf-1.2:Profile"
  = [Element "xccdf-1.2:Profile"
       (("id", GetXCCDFProfileID tp) :: attrOmitEmpty "extends" base) children].
Proof.
  intros Hshallow Hnone.
  pose proof (Find_shallow "xccdf-1.2:Profile" "xccdf-1.2:Profile"
                (("id", GetXCCDFProfileID tp) :: attrOmitEmpty "extends" base)
                children Hshallow) as Hin.
  rewrite Hnone in Hin. unfold Find in *. unfold document.
  set (profile := Element "xccdf-1.2:Profile" _ children) in *.
  rewrite (descendants_flat_map "" []). cbn [flat_map].
  rewrite (descendants_flat_map "xccdf-1.2:Tailoring"). cbn [flat_map].
  rewrite (descendants_flat_map "xccdf-1.2:benchmark").
  rewrite (descendants_flat_map "xccdf-1.2:version"). cbn [flat_map descendants app].
  rewrite !app_nil_r.
  change (List.filter (isElementNamed "xccdf-1.2:Profile")
            (profile :: descendants profile)
          = [profile]).
  cbn [List.filter]. rewrite Hin. reflexivity.
Qed.

(** X19. Round trip: in the tailoring the compiler writes for a
    tailored profile, the collector finds, under the profile id of
    the tailored profile, the id of the base profile as the profile
    that is extended, and the empty string when no base profile is
    given. *)
Theorem extended_profile_round_trip (tp : TailoredProfile) (p : option BaseProfile)
        (pb : option ProfileBundle) (rules : gmap string Rule)
        (variables : list Variable_) (doc : Document) :
  TailoredProfileToXML now filepathJoin tp p pb rules variables = Some doc ->
  getExtendedProfileFromTailoring (document (Root doc)) (GetXCCDFProfileID tp)
  = match p with Some base => baseID base | None => "" end.
Proof.
  intros H. apply compiled_root in H as (href & e & d & m & _ & _ & _ & ->).
  unfold getExtendedProfileFromTailoring.
  rewrite profiles_of_compiled.
  - cbn [extendedProfileOf SelectAttr lookupAttr]. simpl (String.eqb "id" "id").
    cbn [default]. rewrite String.eqb_refl. cbn [negb].
    set (base := match p with Some b => baseID b | None => "" end).
    unfold attrOmitEmpty.
    destruct (String.eqb_spec base "") as [->|Hb]; [done|].
    simpl. by destruct (String.eqb_spec base "").
  - apply shallow_profile_children.
  - rewrite !filter_named_app, !filter_named_override, !filter_named_selects,
      filter_named_setValues by done. done.
Qed.

Lemma selected_of_selects (b : bool) (ids : list string) (acc : list string) :
  fold_left (fun selectedChecks check =>
               if negb (String.eqb (SelectAttr check "selected") "true")
               then selectedChecks
               else
                 let idRef := SelectAttr check "idref" in
                 if negb (String.eqb idRef "") then selectedChecks ++ [idRef]
                 else selectedChecks)
            (map (selectNode b) ids) acc
  = acc ++ (if b then List.filter nonEmpty ids else []).
Proof.
  revert acc. induction ids as [|ruleId ids IH]; intros acc.
  - simpl. by destruct b; rewrite app_nil_r.
  - cbn [map fold_left]. rewrite IH. destruct b; [|done].
    cbn [selectNode SelectAttr lookupAttr default List.filter nonEmpty].
    simpl (String.eqb "idref" "selected"). simpl (String.eqb "selected" "selected").
    simpl (String.eqb "idref" "idref").
    cbv [default from_option Datatypes.id]. simpl (String.eqb "true" "true").
    cbn [negb]. unfold nonEmpty.
    destruct (String.eqb ruleId ""); cbn [negb]; [done|]. by rewrite <- app_assoc.
Qed.

(** X20. In the tailoring the compiler writes for a tailored profile,
    the checks the collector selects for the profile id of the
    tailored profile are the ids of the enabled rules followed by the
    ids of the manual rules, the empty ids left out: the disabled
    rules are not selected. *)
Theorem selected_checks_round_trip (tp : TailoredProfile) (p : option BaseProfile)
        (pb : option ProfileBundle) (rules : gmap string Rule)
        (variables : list Variable_) (doc : Document) :
  TailoredProfileToXML now filepathJoin tp p pb rules variables = Some doc ->
  exists enabled disabled manual,
    resolves rules (EnableRules tp) enabled
    /\ resolves rules (DisableRules tp) disabled
    /\ resolves rules (ManualRules tp) manual
    /\ selectedChecksOf (document (Root doc)) (GetXCCDFProfileID tp)
       = List.filter nonEmpty (enabled ++ manual).
Proof.
  intros H. apply compiled_root in H as (href & e & d & m & He & Hd & Hm & ->).
  exists e, d, m. repeat (split; [done|]).
  unfold selectedChecksOf. rewrite profiles_of_compiled.
  - cbn [fold_left]. cbn [SelectAttr lookupAttr]. simpl (String.eqb "id" "id").
    cbn [default]. rewrite String.eqb_refl. cbn [negb].
    unfold selectedOfProfile.
    rewrite (Find_shallow "xccdf-1.2:select") by apply shallow_profile_children.
    rewrite !filter_named_app, !filter_named_override, !filter_named_selects,
      filter_named_setValues by done.
    simpl (String.eqb "xccdf-1.2:select" "xccdf-1.2:select"). cbn iota.
    rewrite app_nil_r. cbn [app].
    rewrite !fold_left_app, !selected_of_selects. cbn [app].
    by rewrite app_nil_r, List.filter_app.
  - apply shallow_profile_children.
  - rewrite !filter_named_app, !filter_named_override, !filter_named_selects,
      filter_named_setValues by done. done.
Qed.

End Compiler.

(** ** The values and the paths of [getResourcePaths] *)

Section Paths.
Variable OutputXML : Node -> string.
Variable UnescapeString : string -> string.
Variable getPathFromWarningXML : Node -> gmap string string -> list ResourcePath.
Variable range : GoMap.RangeOrder.
Variables POD_NAMESPACE POD_NAME : string.

Abbreviation resourcePaths :=
  (getResourcePaths OutputXML UnescapeString getPathFromWarningXML range).
Abbreviation fromRule := (fromRuleOf getPathFromWarningXML).

Lemma override_loop_lookup (l : list (string * string)) (valuesList : gmap string string)
      (k : string) :
  NoDup l.*1 ->
  fold_left (fun (valuesList : gmap string string) '(k, v) =>
               match valuesList !! k with
               | Some _ => <[k := v]> valuesList
               | None => valuesList
               end) l valuesList !! k
  = match valuesList !! k with
    | Some v => Some (default v ((list_to_map l : gmap string string) !! k))
    | None => None
    end.
Proof.
  revert valuesList. induction l as [|[k' v'] l IH]; intros valuesList Hnd; simpl.
  - rewrite lookup_empty. by destruct (valuesList !! k).
  - apply NoDup_cons in Hnd as [Hk' Hnd]. simpl in Hk'. rewrite IH by done.
    destruct (decide (k' = k)) as [->|Hne].
    + rewrite lookup_insert_eq, (not_elem_of_list_to_map_1 _ _ Hk').
      destruct (valuesList !! k) as [v|] eqn:E.
      * by rewrite lookup_insert_eq.
      * by rewrite E.
    + rewrite (lookup_insert_ne (list_to_map l)) by done.
      destruct (valuesList !! k') eqn:E'; [|done]. by rewrite lookup_insert_ne.
Qed.

Lemma pathsOfCheck_adds (checkDefinitions : list Node) (valuesList : gmap string string)
      (out : list ResourcePath) (checkID : string) (p : ResourcePath) :
  p ∈ pathsOfCheck getPathFromWarningXML checkDefinitions valuesList out checkID ->
  p ∈ out
  \/ exists rule warn, rule ∈ checkDefinitions
                        /\ warn ∈ Find rule "xccdf-1.2:warning"
                        /\ p ∈ getPathFromWarningXML warn valuesList.
Proof.
  unfold pathsOfCheck.
  destruct (List.find _ checkDefinitions) as [found|] eqn:Ef; [|by left].
  apply find_some in Ef as [Hin _]. apply list_elem_of_In in Hin.
  assert (Hw : forall warns apiPaths,
             firstWarningPaths getPathFromWarningXML warns valuesList = Some apiPaths ->
             exists warn, warn ∈ warns
                          /\ apiPaths = getPathFromWarningXML warn valuesList).
  { intros warns. induction warns as [|w warns IH]; intros apiPaths; simpl; [done|].
    destruct (length (getPathFromWarningXML w valuesList) =? 0)%nat.
    - intros H. destruct (IH _ H) as (warn & Hwarn & ->).
      exists warn. split; [by right|done].
    - intros [= <-]. exists w. split; [by left|done]. }
  destruct (firstWarningPaths _ _ _) as [apiPaths|] eqn:E; [|by left].
  destruct (Hw _ _ E) as (warn & Hwarn & ->).
  intros [Hp|Hp]%elem_of_app; [by left|]. right. by exists found, warn.
Qed.

Lemma paths_of_checks (checkDefinitions : list Node) (valuesList : gmap string string)
      (checks : list string) (out : list ResourcePath) (p : ResourcePath) :
  p ∈ fold_left (pathsOfCheck getPathFromWarningXML checkDefinitions valuesList)
                checks out ->
  p ∈ out
  \/ exists rule warn, rule ∈ checkDefinitions
                        /\ warn ∈ Find rule "xccdf-1.2:warning"
                        /\ p ∈ getPathFromWarningXML warn valuesList.
Proof.
  revert out. induction checks as [|c checks IH]; intros out; simpl; [by left|].
  intros H. apply IH in H as [H|H]; [|by right]. by apply pathsOfCheck_adds in H.
Qed.

Lemma resource_paths_from_rules (profileDefs ruleDefs : Node) (profile : string)
      (overrideValueList : GoMap.t) (p : ResourcePath) :
  p ∈ (resourcePaths profileDefs ruleDefs profile overrideValueList).1 ->
  fromRule ruleDefs p.
Proof.
  unfold getResourcePaths. cbv zeta.
  destruct (length (Find ruleDefs "xccdf-1.2:Rule") =? 0)%nat; cbn [fst].
  { by intros ?%elem_of_nil. }
  intros [H|(rule & warn & Hr & Hw & Hp)]%paths_of_checks.
  - by apply elem_of_nil in H.
  - eexists rule, warn, _. eauto.
Qed.

Hypothesis range_enumerates : GoMap.enumerates range.

(** X21. The values handed to [getResourcePaths] as overrides replace
    the values the definitions give to the same variables and never
    add a variable: a variable has a value with overrides exactly
    when it has one without, and its value is the override when
    there is one for it and the collected value otherwise. *)
Theorem overrides_replace_and_never_add (profileDefs ruleDefs : Node) (profile : string)
        (overrides : GoMap.t) (k : string) :
  (resourcePaths profileDefs ruleDefs profile overrides).2 !! k
  = match (resourcePaths profileDefs ruleDefs profile None).2 !! k with
    | Some v => Some (default v (GoMap.get overrides k))
    | None => None
    end.
Proof.
  unfold getResourcePaths. cbv zeta.
  destruct (length (Find ruleDefs "xccdf-1.2:Rule") =? 0)%nat; cbn [snd].
  all: unfold overrideValues at 1 2, GoMap.get; destruct overrides as [m|]; simpl.
  all: try (by rewrite lookup_empty; destruct (_ !! k)).
  all: destruct (RuleMetadataFacts.enumerates_list_to_map range m range_enumerates)
         as [Hnd Hl].
  all: by rewrite override_loop_lookup, Hl.
Qed.

(** X22. [FigureResources] always stages the same six objects first,
    whatever the data stream, the tailoring and the profile are, and
    every path it stages after them is one that a warning of a Rule
    of the data stream stands for: the tailoring selects rules and
    sets values, but no path is read from it. *)
Theorem staged_resources (dataStream : Node) (tailoring : option Node)
        (profile : string) :
  exists selected,
    FigureResources OutputXML UnescapeString getPathFromWarningXML range
                    POD_NAMESPACE POD_NAME dataStream tailoring profile
    = alwaysStaged POD_NAMESPACE POD_NAME ++ selected
    /\ length (alwaysStaged POD_NAMESPACE POD_NAME) = 6
    /\ Forall (fromRule dataStream) selected.
Proof.
  unfold FigureResources. cbv zeta.
  destruct tailoring as [t|].
  - destruct (resourcePaths t dataStream profile None) as [sel1 values] eqn:E1.
    assert (H1 : Forall (fromRule dataStream) sel1).
    { apply Forall_forall. intros p Hp.
      apply (resource_paths_from_rules t dataStream profile None). by rewrite E1. }
    destruct (String.eqb (getExtendedProfileFromTailoring t profile) "").
    + by exists sel1.
    + destruct (resourcePaths dataStream dataStream _ (Some values))
        as [sel2 values2] eqn:E2.
      exists (sel1 ++ sel2). rewrite <- app_assoc. split; [done|]. split; [done|].
      apply Forall_app_2; [done|]. apply Forall_forall. intros p Hp.
      apply (resource_paths_from_rules dataStream dataStream
               (getExtendedProfileFromTailoring t profile) (Some values)).
      by rewrite E2.
  - destruct (resourcePaths dataStream dataStream profile None) as [sel values] eqn:E.
    exists sel. split; [done|]. split; [done|].
    apply Forall_forall. intros p Hp.
    apply (resource_paths_from_rules dataStream dataStream profile None). by rewrite E.
Qed.

End Paths.

Lemma extended_profile_round_trip_witness :
  exists doc,
    TailoredProfileToXML "2024-05-01T10:00:00Z" joinWithSlash tpSample
                         (Some baseSample) (Some bundleSample)
                         rulesSample variablesSample = Some doc
    /\ getExtendedProfileFromTailoring (document (Root doc)) (GetXCCDFProfileID tpSample)
       = "xccdf_org.ssgproject.content_profile_cis".
Proof.
  assert (Hsome : is_Some (TailoredProfileToXML "2024-05-01T10:00:00Z" joinWithSlash
                             tpSample (Some baseSample) (Some bundleSample)
                             rulesSample variablesSample)).
  { vm_compute. by eexists. }
  destruct Hsome as [doc Hdoc]. exists doc. split; [exact Hdoc|].
  exact (extended_profile_round_trip "2024-05-01T10:00:00Z" joinWithSlash tpSample
           (Some baseSample) (Some bundleSample) rulesSample variablesSample doc Hdoc).
Defined.

Lemma selected_checks_round_trip_witness :
  exists doc,
    TailoredProfileToXML "2024-05-01T10:00:00Z" joinWithSlash tpSample
                         (Some baseSample) (Some bundleSample)
                         rulesSample variablesSample = Some doc
    /\ selectedChecksOf (document (Root doc)) (GetXCCDFProfileID tpSample)
       = ["xccdf_org.ssgproject.content_rule_a"].
Proof.
  assert (Hsome : is_Some (TailoredProfileToXML "2024-05-01T10:00:00Z" joinWithSlash
                             tpSample (Some baseSample) (Some bundleSample)
                             rulesSample variablesSample)).
  { vm_compute. by eexists. }
  destruct Hsome as [doc Hdoc]. exists doc. split; [exact Hdoc|].
  destruct (selected_checks_round_trip "2024-05-01T10:00:00Z" joinWithSlash tpSample
              (Some baseSample) (Some bundleSample) rulesSample variablesSample doc Hdoc)
    as (enabled & disabled & manual & He & _ & Hm & ->).
  apply Forall2_cons_inv_l in He as (ida & ra & (r & Hr & <-) & ->%Forall2_nil_inv_l & ->).
  apply Forall2_nil_inv_l in Hm as ->.
  vm_compute in Hr. injection Hr as <-. reflexivity.
Defined.

Lemma overrides_replace_and_never_add_witness :
  (getResourcePaths textOutput id pathOfText map_to_list dataStreamSample dataStreamSample
                    "xccdf_org.ssgproject.content_profile_cis"
                    (Some (<["v" := "20"]> (<["w" := "30"]> ∅)))).2
  = <["v" := "20"]> ∅.
Proof.
  apply map_eq. intros k.
  rewrite (overrides_replace_and_never_add textOutput id pathOfText map_to_list
             (fun m => reflexivity _) dataStreamSample dataStreamSample
             "xccdf_org.ssgproject.content_profile_cis"
             (Some (<["v" := "20"]> (<["w" := "30"]> ∅))) k).
  change ((getResourcePaths textOutput id pathOfText map_to_list dataStreamSample
             dataStreamSample "xccdf_org.ssgproject.content_profile_cis" None).2)
    with (<["v" := "10"]> (∅ : gmap string string)).
  destruct (decide (k = "v")) as [->|Hne]; [reflexivity|].
  by rewrite !lookup_insert_ne, lookup_empty.
Defined.

Example sample_plan :
  FigureResources textOutput id pathOfText map_to_list "openshift-compliance" "scanner"
                  dataStreamSample None "xccdf_org.ssgproject.content_profile_cis"
  = alwaysStaged "openshift-compliance" "scanner"
    ++ [ {| ObjPath := "/apis/config.openshift.io/v1/oauths/cluster";
            DumpPath := "/apis/config.openshift.io/v1/oauths/cluster";
            Filter := ""; SuppressWarning := false |} ].
Proof. reflexivity. Qed.

End PlannerFacts.

Module XccdfManualFacts.
Import GoStrings GoStringsFacts GoStringsMore GoStringsMoreFacts Xccdf XccdfManual.

Lemma GetManualRules_map (tp : TailoredProfile) :
  GetManualRules tp = map refName (ManualRules tp).
Proof.
  unfold GetManualRules.
  assert (G : forall l acc,
             fold_left (fun ruleList selection => ruleList ++ [refName selection]) l acc
             = acc ++ map refName l).
  { induction l as [|s l IH]; intros acc; simpl; [by rewrite app_nil_r|].
    by rewrite IH, <- app_assoc. }
  apply G.
Qed.

Lemma HasSuffix_iff (s suf : string) :
  HasSuffix s suf = true <-> exists pre, s = pre +:+ suf.
Proof.
  split.
  - intros H. exists (TrimSuffix s suf). by apply ArfWarningsFacts.HasSuffix_split.
  - intros [pre ->]. apply HasSuffix_app.
Qed.

(** X25. A rule counts as manual exactly when its name is the end of
    the name of one of the manual rules of the tailored profile: every
    rule the profile lists as manual is manual, and so is a rule whose
    name ends the name of a listed rule, the empty name included; with
    the nil list no rule is manual. *)
Theorem manual_rules_by_suffix (tp : TailoredProfile) (ruleName : string) :
  (IsManualRule ruleName (Some (GetManualRules tp)) = true
   <-> exists selection pre, selection ∈ ManualRules tp
                             /\ refName selection = pre +:+ ruleName)
  /\ (forall selection, selection ∈ ManualRules tp ->
                        IsManualRule (refName selection) (Some (GetManualRules tp)) = true)
  /\ IsManualRule ruleName None = false.
Proof.
  assert (Hiff : forall name,
             IsManualRule name (Some (GetManualRules tp)) = true
             <-> exists selection pre, selection ∈ ManualRules tp
                                       /\ refName selection = pre +:+ name).
  { intros name. unfold IsManualRule. rewrite GetManualRules_map, existsb_exists. split.
    - intros (n & Hin & Hs). apply list_elem_of_In, list_elem_of_fmap in Hin
        as (sel & -> & Hin).
      apply HasSuffix_iff in Hs as [pre Hpre]. by exists sel, pre.
    - intros (sel & pre & Hin & Hpre). exists (refName sel). split.
      + apply list_elem_of_In, list_elem_of_fmap. by exists sel.
      + apply HasSuffix_iff. by exists pre. }
  split; [apply Hiff|]. split; [|done].
  intros selection Hin. apply Hiff. by exists selection, "".
Qed.

End XccdfManualFacts.

Module CelFetcherFacts.
Import Fetcher CelFetcher CelFetcherWords CelFetcherSamples.

Section Figure.
Variable DeriveResourcePath : string -> string -> string -> string -> string.

Abbreviation figure := (figureResources DeriveResourcePath).
Abbreviation pathOf := (pathOfInput DeriveResourcePath).

Lemma variablesOfInput_lookup (input : KubeResource) (variables : list Variable_)
      (acc : gmap string string) (name : string) :
  variablesOfInput input variables acc !! name
  = match last (if String.eqb (krName input) name
                then map varValue (List.filter (standsFor input) variables)
                else []) with
    | Some v => Some v
    | None => acc !! name
    end.
Proof.
  unfold variablesOfInput. revert acc.
  induction variables as [|v variables IH] using rev_ind; intros acc.
  - simpl. by destruct (String.eqb (krName input) name).
  - rewrite fold_left_app. cbn [fold_left]. rewrite List.filter_app, map_app.
    cbn [List.filter]. unfold standsFor at 2.
    destruct (String.eqb (APIGroup input) (gvkGroup v)),
             (String.eqb (Version input) (gvkVersion v)),
             (String.eqb (Resource input) (gvkKind v +:+ "/" +:+ varName v)),
             (String.eqb (krNamespace input) (varNamespace v));
      cbn [andb map]; rewrite ?app_nil_r; try apply IH.
    destruct (String.eqb_spec (krName input) name) as [->|Hne].
    + by rewrite lookup_insert_eq, last_snoc.
    + rewrite lookup_insert_ne by done. rewrite IH.
      by destruct (String.eqb_spec (krName input) name).
Qed.

Lemma last_app_or {A : Type} (l1 l2 : list A) :
  last (l1 ++ l2) = match last l2 with Some x => Some x | None => last l1 end.
Proof.
  induction l2 as [|x l2 IH] using rev_ind; [by rewrite app_nil_r|].
  by rewrite app_assoc, !last_snoc.
Qed.

(** X23. [figureResources] stages one path per input of the rule, in
    the order of the inputs, each with the derived path as object
    path and as dump path and without a filter.  The map from paths
    to input names records, for a path, the name of the last input
    that derives it: of two inputs that derive the same path only the
    later one is recorded.  The value set for an input name is the
    value of the last variable that stands for an input of that
    name. *)
Theorem figured_resources (inputs : list KubeResource) (variables : list Variable_) :
  found (figure inputs variables) = map (fun input => plain (pathOf input)) inputs
  /\ (forall path,
         foundMap (figure inputs variables) !! path
         = krName <$> last (List.filter (fun input => String.eqb (pathOf input) path)
                                        inputs))
  /\ (forall name,
         variableResultMap (figure inputs variables) !! name
         = last (valuesFor name inputs variables)).
Proof.
  unfold figureResources.
  induction inputs as [|input inputs IH] using rev_ind.
  - simpl. split; [done|]. split; intros; by rewrite lookup_empty.
  - rewrite fold_left_app. cbn [fold_left found foundMap variableResultMap].
    destruct IH as (Hf & Hm & Hv). split; [|split].
    + by rewrite Hf, map_app.
    + intros path. rewrite List.filter_app. cbn [List.filter].
      fold (pathOf input).
      destruct (String.eqb_spec (pathOf input) path) as [->|Hne].
      * by rewrite lookup_insert_eq, last_snoc.
      * rewrite lookup_insert_ne by done. by rewrite app_nil_r, Hm.
    + intros name. rewrite variablesOfInput_lookup, Hv.
      unfold valuesFor. rewrite flat_map_app. cbn [flat_map]. rewrite app_nil_r.
      by rewrite last_app_or.
Qed.

End Figure.

(** Two inputs of one resource: the path is staged twice and belongs to
    the second input. *)
Example shared_path_belongs_to_last_input :
  foundMap (figureResources slashPath [podsInput "first"; podsInput "second"] [])
  !! "/apis/apps/v1/namespaces/default/deployments" = Some "second"
  /\ length (found (figureResources slashPath [podsInput "first"; podsInput "second"] []))
     = 2.
Proof. split; reflexivity. Qed.

End CelFetcherFacts.

Module ArfParseFacts.
Import GoStrings Arf.

Section Aggregation.
Variable unicodeToLower : string -> string.
Variable getWarningsForRule : Node -> list string.
Variable getInstructionsForRule : Node -> string.
Variable Remediation : Type.
Variable newComplianceRemediation : string -> string -> Node -> list Remediation.

Abbreviation parseAll :=
  (ParseResultsFromContentAndXccdf unicodeToLower getWarningsForRule
     getInstructionsForRule Remediation newComplianceRemediation).
Abbreviation parseOne :=
  (parseRuleResult unicodeToLower getWarningsForRule getInstructionsForRule
     Remediation newComplianceRemediation).

Abbreviation idOf := (Id Remediation).
Abbreviation checkOf := (CheckResult Remediation).
Abbreviation remediationsOf := (Remediations Remediation).

(** The table holds, for an id, the last node that carries it. *)
Lemma newByIdHashTable_lookup (nodes : list Node) (id : string) :
  newByIdHashTable nodes !! id
  = last (List.filter (fun n => String.eqb (SelectAttr n "id") id) nodes).
Proof.
  unfold newByIdHashTable.
  induction nodes as [|n nodes IH] using rev_ind; [apply lookup_empty|].
  rewrite fold_left_app, List.filter_app. cbn [fold_left List.filter].
  destruct (String.eqb_spec (SelectAttr n "id") id) as [->|Hne].
  - by rewrite lookup_insert_eq, last_snoc.
  - rewrite lookup_insert_ne by done. by rewrite app_nil_r.
Qed.

Lemma parseRuleResult_Some (scanName namespace : string) (rules : list Node)
      (result : Node) (pr : ParseResult Remediation) :
  parseOne scanName namespace (newByIdHashTable rules) result = Some pr ->
  idOf pr = SelectAttr result "idref"
  /\ idOf pr <> ""
  /\ exists rule,
      last (List.filter (fun n => String.eqb (SelectAttr n "id") (idOf pr)) rules)
      = Some rule
      /\ mapComplianceCheckResultStatus result = inl (Status (checkOf pr))
      /\ Status (checkOf pr) <> CheckResultNoResult
      /\ mapComplianceCheckResultSeverity rule = inl (Severity (checkOf pr))
      /\ ID (checkOf pr) = idOf pr
      /\ Name (checkOf pr) = nameFromId unicodeToLower scanName (idOf pr)
      /\ Namespace (checkOf pr) = namespace
      /\ Description (checkOf pr) = complianceCheckResultDescription rule
      /\ remediationsOf pr = newComplianceRemediation scanName namespace rule.
Proof.
  unfold parseRuleResult.
  destruct (String.eqb_spec (SelectAttr result "idref") "") as [|Hid]; [done|].
  rewrite newByIdHashTable_lookup.
  destruct (last _) as [rule|] eqn:Erule; [|done].
  unfold newComplianceCheckResult.
  destruct (mapComplianceCheckResultStatus result) as [status|] eqn:Es; [|done].
  destruct (decide (status = CheckResultNoResult)) as [|Hn]; [done|].
  destruct (mapComplianceCheckResultSeverity rule) as [severity|] eqn:Ev; [|done].
  intros [= <-]. cbn [Id CheckResult Remediations Status Severity ID Name Namespace
                         Description].
  split; [done|]. split; [done|]. exists rule. by repeat split.
Qed.

(** X24. The parse results of a report follow the rule results of the
    report in order, some left out: a rule result gives a parse
    result only if it has an idref, a rule of that id is among the
    rules, its result text maps to a status other than no-result and
    the rule has a severity.  A parse result carries that idref as
    its id and as the id of its check result; the check result is
    named after the scan and the id, lies in the given namespace and
    has the status of the rule result; its severity and description
    and the remediations are those of the last rule that carries the
    id. *)
Theorem parse_results_follow_the_report (scanName namespace : string)
        (rules results : list Node) :
  let parsed := parseAll scanName namespace rules results in
  sublist (map idOf parsed)
          (map (fun result => SelectAttr result "idref") results)
  /\ Forall (fun pr =>
               idOf pr <> ""
               /\ exists result rule,
                   result ∈ results
                   /\ SelectAttr result "idref" = idOf pr
                   /\ last (List.filter
                              (fun n => String.eqb (SelectAttr n "id") (idOf pr)) rules)
                      = Some rule
                   /\ mapComplianceCheckResultStatus result
                      = inl (Status (checkOf pr))
                   /\ Status (checkOf pr) <> CheckResultNoResult
                   /\ mapComplianceCheckResultSeverity rule
                      = inl (Severity (checkOf pr))
                   /\ ID (checkOf pr) = idOf pr
                   /\ Name (checkOf pr) = nameFromId unicodeToLower scanName (idOf pr)
                   /\ Namespace (checkOf pr) = namespace
                   /\ Description (checkOf pr)
                      = complianceCheckResultDescription rule
                   /\ remediationsOf pr = newComplianceRemediation scanName namespace rule)
            parsed.
Proof.
  cbv zeta. unfold ParseResultsFromContentAndXccdf.
  induction results as [|result results [IHs IHf]]; [by split; constructor|].
  cbn [omap list_omap map].
  destruct (parseOne scanName namespace (newByIdHashTable rules) result)
    as [pr|] eqn:E.
  - apply parseRuleResult_Some in E as (Hid & Hne & rule & Hrest).
    split.
    + cbn [map]. rewrite Hid. by constructor.
    + constructor.
      * split; [done|]. exists result, rule. split; [by left|]. by split.
      * eapply Forall_impl; [exact IHf|].
        intros p (Hp & r & ru & Hin & Hr). split; [done|].
        exists r, ru. split; [by right|done].
  - split.
    + by constructor.
    + eapply Forall_impl; [exact IHf|].
      intros p (Hp & r & ru & Hin & Hr). split; [done|].
      exists r, ru. split; [by right|done].
Qed.

End Aggregation.

End ArfParseFacts.

Module SaverFacts.
Import GoStrings GoStringsMore GoStringsFacts GoStringsMoreFacts Saver.

Lemma anyByte_revAppend (p : ascii -> bool) (s acc : string) :
  anyByte p (revAppend s acc) = anyByte p s || anyByte p acc.
Proof.
  revert acc. induction s as [|c s IH]; intros acc; [done|]. simpl. rewrite IH. simpl.
  by destruct (p c), (anyByte p s), (anyByte p acc).
Qed.

Lemma anyByte_reverse (p : ascii -> bool) (s : string) :
  anyByte p (reverse s) = anyByte p s.
Proof. unfold reverse. rewrite anyByte_revAppend. simpl. apply orb_false_r. Qed.

Lemma untilSlash_no_slash (s : string) : anyByte isSlash (untilSlash s) = false.
Proof.
  induction s as [|c s IH]; [done|]. simpl.
  destruct (isSlash c) eqn:E; [done|]. simpl. by rewrite E.
Qed.

Lemma allBytes_revAppend (p : ascii -> bool) (s acc : string) :
  allBytes p (revAppend s acc) = allBytes p s && allBytes p acc.
Proof.
  revert acc. induction s as [|c s IH]; intros acc; [done|]. simpl. rewrite IH. simpl.
  by destruct (p c), (allBytes p s), (allBytes p acc).
Qed.

Lemma dropSlashes_all (s : string) : allBytes isSlash s = true -> dropSlashes s = "".
Proof.
  induction s as [|c s IH]; [done|]. simpl.
  intros [-> H]%andb_true_iff. by apply IH.
Qed.

(** The last element of a path holds no slash, unless it is the lone
    slash that stands for a path of slashes. *)
Lemma Base_no_slash (path : string) :
  Base path = "/" \/ (Base path <> "" /\ anyByte isSlash (Base path) = false).
Proof.
  unfold Base. destruct (String.eqb path ""); [by right|].
  destruct (String.eqb_spec (reverse (untilSlash (dropSlashes (reverse path)))) "")
    as [|Hne]; [by left|].
  right. split; [done|]. by rewrite anyByte_reverse, untilSlash_no_slash.
Qed.

Section Save.
Variable pathDir : string -> string.
Variable pathJoin : string -> string -> string.

(** X26. When the collector derives the place to save a fetched
    object, the file name is the last element of the API path: it is
    not empty, holds no slash and is neither a dot nor a slash, and
    the directory is the root directory joined with the directory of
    the API path.  The empty path and a path made of slashes only
    are rejected. *)
Theorem save_file_name (rootDir apiPath : string) :
  (forall dir file,
      getSaveDirectoryAndFileName pathDir pathJoin rootDir apiPath = inl (dir, file) ->
      file = Base apiPath /\ file <> "" /\ file <> "." /\ anyByte isSlash file = false
      /\ dir = pathJoin rootDir (pathDir apiPath) /\ pathDir apiPath <> ".")
  /\ (allBytes isSlash apiPath = true ->
      getSaveDirectoryAndFileName pathDir pathJoin rootDir apiPath
      = inr ("bad object path: " +:+ apiPath)).
Proof.
  unfold getSaveDirectoryAndFileName. split.
  - intros dir file.
    destruct (String.eqb_spec (Base apiPath) ".") as [|Hdot]; [done|].
    destruct (String.eqb_spec (Base apiPath) "/") as [|Hslash]; [done|]. cbn [orb].
    destruct (String.eqb_spec (pathDir apiPath) ".") as [|Hdir]; [done|].
    intros [= <- <-]. split; [done|].
    destruct (Base_no_slash apiPath) as [|[H1 H2]]; [done|]. done.
  - intros Hall. unfold Base.
    destruct (String.eqb_spec apiPath "") as [->|Hne]; [done|].
    assert (Hrev : allBytes isSlash (reverse apiPath) = true).
    { unfold reverse. rewrite allBytes_revAppend, Hall. done. }
    by rewrite (dropSlashes_all _ Hrev).
Qed.

End Save.

Lemma save_file_name_witness :
  getSaveDirectoryAndFileName (fun _ => "/") Samples.joinWithSlash "/tmp" "//"
  = inr "bad object path: //".
Proof.
  apply (proj2 (save_file_name (fun _ => "/") Samples.joinWithSlash "/tmp" "//")).
  reflexivity.
Defined.

Example base_of_api_path :
  Base "/apis/config.openshift.io/v1/oauths/cluster" = "cluster"
  /\ Base "/api/v1/nodes/" = "nodes" /\ Base "" = "." /\ Base "///" = "/".
Proof. repeat split; reflexivity. Qed.

End SaverFacts.

Module CompositeNameFacts.
Import GoStrings GoStringsFacts GoStringsMoreFacts XccdfNames NameWords.

Lemma mapBytes_fixed (f : ascii -> ascii) (p : ascii -> bool) (s : string) :
  (forall c, p c = false -> f c = c) -> anyByte p s = false -> mapBytes f s = s.
Proof.
  intros Hf. induction s as [|c s IH]; [done|]. simpl.
  intros [H1 H2]%orb_false_iff. by rewrite (Hf _ H1), IH.
Qed.

(** A name that is DNS-friendly already is left as it is. *)
Lemma dns_name_fixed (u : string -> string) (name : string) :
  dnsFriendly name = true -> ToLower u (ReplaceAll name "_" "-") = name.
Proof.
  unfold dnsFriendly. intros [[Ha Hu%negb_true_iff]%andb_true_iff Hd%negb_true_iff]
                               %andb_true_iff.
  rewrite ReplaceAll_underscore.
  assert (Hdash : forall c, Ascii.eqb "_"%char c = false
                            -> SpecWords.dashForUnderscore c = c).
  { intros c Hc. unfold SpecWords.dashForUnderscore.
    destruct (Ascii.eqb_spec c "_"%char) as [->|]; [discriminate Hc|done]. }
  rewrite (mapBytes_fixed _ _ _ Hdash Hd), (ToLower_ascii _ _ Ha).
  apply (mapBytes_fixed lowerByte isUpperByte); [apply lowerByte_not_upper|done].
Qed.

Section Names.
Variable unicodeToLower : string -> string.

(** X27. The composite name of a profile id is the profile name
    itself unless that name starts with [-node]: for a DNS-friendly
    name N that does not start with [-node], the composite name of
    the profile id of N is N, so the [-node] at the end of the name
    of a node profile stays in its composite name. *)
Theorem composite_name_keeps_suffix (name : string) :
  dnsFriendly name = true ->
  HasPrefix name nodeProfileSuffix = false ->
  GetProfileNameFromID unicodeToLower (profileIDPrefix +:+ name) = name
  /\ GetCompositeProfileNameFromID unicodeToLower (profileIDPrefix +:+ name) = name.
Proof.
  intros Hdns Hpre.
  assert (Hname : GetProfileNameFromID unicodeToLower (profileIDPrefix +:+ name) = name).
  { unfold GetProfileNameFromID. rewrite TrimPrefix_app. by apply dns_name_fixed. }
  split; [exact Hname|].
  unfold GetCompositeProfileNameFromID. rewrite Hname.
  unfold TrimPrefix. by rewrite Hpre.
Qed.

End Names.

Lemma composite_name_keeps_suffix_witness :
  GetCompositeProfileNameFromID id "xccdf_org.ssgproject.content_profile_ocp4-cis-node"
  = "ocp4-cis-node".
Proof.
  apply (proj2 (composite_name_keeps_suffix id "ocp4-cis-node" eq_refl eq_refl)).
Defined.

End CompositeNameFacts.
